(** * scraipe-st: the component configuration and execution lifecycle

    A shallow embedding of [scraipe_st/app.py] (the [App.get_workflow]
    method, the closures of [App.main]: [configure_component_loop],
    [run_scrape_section], [run_analyze_section] and [update_links], and
    the links prologue of [App.main]) and of
    [scraipe_st/default_config.py] ([get_default_links]).

    Streamlit re-runs the script on every interaction; one run is a
    *render cycle*.  What survives between cycles is [st.session_state], a
    string-keyed dictionary.  The embedding threads that dictionary, the
    state of the outside world the providers talk to, and a chronological
    log of the observable calls (widgets rendered, collaborator methods
    invoked) through a state-and-exception monad. *)

From Stdlib Require Import QArith.
From stdpp Require Import gmap strings list.

Open Scope string_scope.
Open Scope list_scope.

(** ** Python values that the code only compares against *)

(** Modelled from the spec: the [ComponentStatus] enumeration of
    [component_repo], whose declaration is not among the sources.  The
    application only ever compares a status with [ComponentStatus.READY]. *)
Inductive ComponentStatus := NOT_READY | READY | PENDING.

Definition status_eqb (a b : ComponentStatus) : bool :=
  match a, b with
  | NOT_READY, NOT_READY | READY, READY | PENDING, PENDING => true
  | _, _ => false
  end.

(** Modelled from the spec: [ComponentMetadata], an immutable record
    {name, description} of [component_repo]. *)
Record ComponentMetadata := { name : string; description : string }.

(** Python exceptions.  [TypeError], [IndexError], [AttributeError],
    [KeyError] and [ZeroDivisionError] are the ones the interpreter itself
    raises in the embedded code; [Exception] stands for whatever a
    collaborator raises.
    All of them are caught by [except Exception]. *)
Inductive Exn :=
| TypeError (msg : string)
| IndexError
| AttributeError
| KeyError (key : string)
| ZeroDivisionError
| Exception (msg : string).

(** [str(e)], as interpolated in [f"Error creating {comp}: {e}"].  The
    text of an exception built from a message is that message; the text
    of a [KeyError] is the [repr] of its key, written here for a key
    without quotes or escapes; an [AttributeError] is kept without the
    names its text mentions. *)
Definition exn_str (e : Exn) : string :=
  match e with
  | TypeError m | Exception m => m
  | IndexError => "list index out of range"
  | AttributeError => "attribute"
  | KeyError k => "'" +:+ k +:+ "'"
  | ZeroDivisionError => "division by zero"
  end.

Inductive Res (A : Type) := Ok (a : A) | Raise (e : Exn).
Arguments Ok {A} a.
Arguments Raise {A} e.

(** ** Result tables *)

(** A row of the scrape table: columns [link, content, scrape_success,
    scrape_error]. *)
Record ScrapeRow := {
  link : string;
  content : option string;
  scrape_success : bool;
  scrape_error : option string
}.

(** A row of the analysis table: columns [output, link, analysis_success,
    analysis_error]. *)
Record AnalysisRow := {
  output : option string;
  alink : string;
  analysis_success : bool;
  analysis_error : option string
}.

(** What processing one item can do: succeed, report a failure of its own,
    or raise. *)
Inductive Outcome :=
| Done (payload : string)
| Failed (error : string)
| Raised (e : Exn).


Section Lifecycle.

(** The objects the application only passes around: the outside world the
    providers and the components talk to, component instances, validated
    configuration objects and configuration schemas. *)
Variables (World Component Config Schema : Type).

(** Modelled from the spec: the [Workflow] class of the [scraipe] library,
    which exposes settable [scraper] and [analyzer] properties and owns the
    two result tables. *)
Record Workflow := {
  scraper : option Component;
  analyzer : option Component;
  scrapes : list ScrapeRow;
  analyses : list AnalysisRow
}.

(** The values found in [st.session_state]. *)
Inductive Value :=
| VNone                                                        (* None *)
| VTuple (c : option Component) (s : option ComponentStatus)   (* (component, status) *)
| VConfig (cfg : Config)                                       (* a validated config *)
| VWorkflow (w : Workflow)
| VLinks (links : list string)                                 (* the "link" column *)
| VScrapes (rows : list ScrapeRow)
| VAnalyses (rows : list AnalysisRow)
| VBool (b : bool)                                             (* the value of a button *)
| VInt (n : nat).                                              (* the value of a select box *)

(** What a configuration form is opened on: a config object or the bare
    schema class. *)
Inductive FormInit := InitConfig (cfg : Config) | InitSchema (sch : Schema).

(** The observable calls of a render cycle, in the order they happen. *)
Inductive Event :=
| EvForm (key : string) (init : FormInit)              (* sp.pydantic_form *)
| EvGetComponentAndStatus (cfg : option Config)        (* provider call *)
| EvLateUpdate (c : option Component)                  (* provider call *)
| EvGetComponentStatus (c : option Component)          (* provider call *)
| EvTraceback (e : Exn)                                (* traceback.print_exc *)
| EvError (msg : string)                               (* st.error *)
| EvWarning (msg : string)                             (* st.warning *)
| EvDescription (msg : string)                         (* description_cont.markdown *)
| EvNewWorkflow (s a : option Component)               (* Workflow(scraper, analyzer) *)
| EvButton (label : string) (disabled : bool)          (* st.button *)
| EvProgress (value : Q)                               (* st.progress / bar.progress *)
| EvProgressEmpty                                      (* bar.empty *)
| EvClearScrapes
| EvScrapeGenerator (links : list string) (overwrite : bool)
| EvClearAnalyses
| EvAnalyzeGenerator (overwrite : bool)
| EvDataframe (key : string).                          (* st.dataframe *)

Record St := {
  session : gmap string Value;
  world : World;
  log : list Event
}.

(** ** The monad of a render cycle: state, and exceptions that keep it *)

Definition M (A : Type) : Type := St -> St * Res A.

Definition ret {A} (a : A) : M A := fun s => (s, Ok a).

Definition bind {A B} (m : M A) (k : A -> M B) : M B :=
  fun s => match m s with
           | (s', Ok a) => k a s'
           | (s', Raise e) => (s', Raise e)
           end.

Definition raise {A} (e : Exn) : M A := fun s => (s, Raise e).

(** [try: body except Exception as e: handler(e) else: orelse(result)] *)
Definition try_except_else {A B} (body : M A) (handler : Exn -> M B)
           (orelse : A -> M B) : M B :=
  fun s => match body s with
           | (s', Ok a) => orelse a s'
           | (s', Raise e) => handler e s'
           end.

Definition emit (e : Event) : M unit :=
  fun s => ({| session := session s; world := world s; log := log s ++ [e] |}, Ok tt).

Definition get_world : M World := fun s => (s, Ok (world s)).

Definition set_world (w : World) : M unit :=
  fun s => ({| session := session s; world := w; log := log s |}, Ok tt).

Notation "x <- m ;; k" := (bind m (fun x => k))
  (at level 100, m at next level, right associativity).
Notation "m ;; k" := (bind m (fun _ => k))
  (at level 100, right associativity).

(** ** [st.session_state] *)

(** [st.session_state.get(key, default)]: the stored value when the key is
    present -- also when that value is [None] -- and [default] otherwise. *)
Definition session_get (key : string) (dflt : Value) : M Value :=
  fun s => (s, Ok (default dflt (session s !! key))).

(** [st.session_state[key]] *)
Definition session_getitem (key : string) : M Value :=
  fun s => match session s !! key with
           | Some v => (s, Ok v)
           | None => (s, Raise (KeyError key))
           end.

(** [st.session_state[key] = v] *)
Definition session_set (key : string) (v : Value) : M unit :=
  fun s => ({| session := <[key := v]> (session s); world := world s; log := log s |},
            Ok tt).

(** [key in st.session_state] *)
Definition session_contains (key : string) : M bool :=
  fun s => (s, Ok (bool_decide (is_Some (session s !! key)))).

(** [a, b = v].  Only a 2-tuple unpacks; [None] raises
    [TypeError: cannot unpack non-iterable NoneType object], the value of
    a button [TypeError: cannot unpack non-iterable bool object] and the
    value of a select box [TypeError: cannot unpack non-iterable int
    object].  The other values are never stored under a slot key; they
    are rejected alike. *)
Definition unpack2 (v : Value) : M (option Component * option ComponentStatus) :=
  match v with
  | VTuple c s => ret (c, s)
  | VNone => raise (TypeError "cannot unpack non-iterable NoneType object")
  | VBool _ => raise (TypeError "cannot unpack non-iterable bool object")
  | VInt _ => raise (TypeError "cannot unpack non-iterable int object")
  | _ => raise (TypeError "cannot unpack")
  end.

(** ** Providers *)

(** Modelled from the spec: the [IComponentProvider] interface of
    [component_repo].  [get_component_and_status] validates, constructs and
    may raise; [get_component_status] is a pure function of the current
    state of the component, which lives in the outside world;
    [late_update] is side-effect only.  The component argument is [None]
    when no component has been built. *)
Record Provider := {
  get_config_schema : option Schema;
  get_default_config : option Config;
  get_component_and_status :
    option Config -> World -> World * Res (option Component * ComponentStatus);
  get_component_status : option Component -> World -> ComponentStatus;
  late_update : option Component -> World -> World
}.

Definition call_get_component_and_status (p : Provider) (cfg : option Config)
  : M (option Component * ComponentStatus) :=
  emit (EvGetComponentAndStatus cfg) ;;
  fun s => let '(w, r) := get_component_and_status p cfg (world s) in
           ({| session := session s; world := w; log := log s |}, r).

Definition call_late_update (p : Provider) (c : option Component) : M unit :=
  emit (EvLateUpdate c) ;;
  w <- get_world ;;
  set_world (late_update p c w).

Definition call_get_component_status (p : Provider) (c : option Component)
  : M ComponentStatus :=
  emit (EvGetComponentStatus c) ;;
  w <- get_world ;;
  ret (get_component_status p c w).

(** ** [configure_component_loop] *)

(** [f"{comp}_{metadata.name}"] and [f"config_{comp_key}"] *)
Definition comp_key_of (comp : string) (metadata : ComponentMetadata) : string :=
  comp +:+ "_" +:+ name metadata.

Definition config_key_of (comp_key : string) : string := "config_" +:+ comp_key.

(** [config or provider.get_default_config() or schema].  A pydantic model
    is always truthy, [None] is falsy; nothing else is ever stored under a
    config key. *)
Definition form_initial (config : Value) (default : option Config) (schema : Schema)
  : M FormInit :=
  match config with
  | VConfig cfg => ret (InitConfig cfg)
  | VNone => ret (match default with
                  | Some d => InitConfig d
                  | None => InitSchema schema
                  end)
  | _ => raise (TypeError "not a pydantic model")
  end.

(** [sp.pydantic_form(key, model, submit_label="Configure")]: renders the
    form on [init]; its value is the validated model on the run that
    follows a submission, and [None] on every other run.  [form_result] is
    that value, an input of the render cycle.  What the form helper keeps
    in [st.session_state] for its own fields is not part of the
    embedding. *)
Definition pydantic_form (key : string) (init : FormInit) (form_result : option Config)
  : M (option Config) :=
  emit (EvForm key init) ;;
  ret form_result.

(** Lines 205-247: the schema branch with its form, or the direct
    instantiation of a provider that needs no configuration. *)
Definition configure_step (comp : string) (provider : Provider) (comp_key : string)
           (form_result : option Config) : M unit :=
  let schema := get_config_schema provider in
  let config_key := config_key_of comp_key in
  config <- session_get config_key VNone ;;
  match schema with
  | Some sch =>
      (* Get the configured component if available *)
      v <- session_get comp_key (VTuple None None) ;;
      component_status <- unpack2 v ;;
      init <- form_initial config (get_default_config provider) sch ;;
      config <- pydantic_form (comp_key +:+ "_form") init form_result ;;
      match config with
      | Some cfg =>
          try_except_else
            ((* Unique submission was made, create the component *)
             r <- call_get_component_and_status provider (Some cfg) ;;
             session_set comp_key (VTuple (fst r) (Some (snd r))))
            (fun e =>
               emit (EvTraceback e) ;;
               emit (EvError ("Error creating " +:+ comp +:+ ": " +:+ exn_str e)) ;;
               session_set comp_key VNone)
            (fun _ => session_set config_key (VConfig cfg))
      | None => ret tt
      end
  | None =>
      (* No config needed, just get the component as needed *)
      v <- session_get comp_key VNone ;;
      match v with
      | VNone =>
          r <- call_get_component_and_status provider None ;;
          session_set comp_key (VTuple (fst r) (Some (snd r)))
      | _ => ret tt
      end
  end.

(** Lines 249-263: the late update, the recomputed status and its display. *)
Definition late_update_step (provider : Provider) (metadata : ComponentMetadata)
           (comp_key : string) : M unit :=
  (* Render late update for additional configuration *)
  v <- session_get comp_key (VTuple None None) ;;
  component_status <- unpack2 v ;;
  let component := fst component_status in
  call_late_update provider component ;;
  (* Display the component status in the description_cont container *)
  let description_str := "**" +:+ name metadata +:+ "**: " +:+ description metadata in
  status <- call_get_component_status provider component ;;
  if status_eqb status READY then
    (* Add green checkmark if the component is good config *)
    session_set comp_key (VTuple component (Some status)) ;;
    emit (EvDescription ("✔️" +:+ description_str))
  else
    emit (EvDescription ("⚠️" +:+ description_str)).

(** [configure_component_loop(comp, provider_options)].  [selected_index]
    is the value of the select box and [form_result] the value of the
    configuration form on this run.  The result is [comp_key], or [None]
    when nothing is selected and the function falls off its end.

    The select box and the form are keyed widgets, and Streamlit keeps
    what belongs to a keyed widget in [st.session_state] under the key of
    the widget.  This definition takes the values of the two widgets as
    inputs and is the function on the keys the function itself reads and
    writes; it describes the source for providers whose slot key is not
    the key of the select box, that is, whose name is not ["selectbox"].
    [controller_render] below is the function with the entry of the
    select box in the session. *)
Definition configure_component_loop (comp : string)
           (provider_options : list (Provider * ComponentMetadata))
           (selected_index : option nat) (form_result : option Config)
  : M (option string) :=
  match selected_index with
  | Some i =>
      match provider_options !! i with
      | Some selected_option =>
          let metadata := snd selected_option in
          let comp_key := comp_key_of comp metadata in
          let provider := fst selected_option in
          configure_step comp provider comp_key form_result ;;
          late_update_step provider metadata comp_key ;;
          ret (Some comp_key)
      | None => raise IndexError
      end
  | None => ret None
  end.

(** ** The workflow object *)

(** In-place mutation of the object stored under ["workflow"]: every name
    bound to the workflow in the source is a reference to that one object. *)
Definition workflow_read : M Workflow :=
  v <- session_getitem "workflow" ;;
  match v with
  | VWorkflow w => ret w
  | _ => raise AttributeError
  end.

Definition workflow_update (f : Workflow -> Workflow) : M unit :=
  w <- workflow_read ;;
  session_set "workflow" (VWorkflow (f w)).

Definition set_scraper (c : option Component) (w : Workflow) : Workflow :=
  {| scraper := c; analyzer := analyzer w; scrapes := scrapes w; analyses := analyses w |}.

Definition set_analyzer (c : option Component) (w : Workflow) : Workflow :=
  {| scraper := scraper w; analyzer := c; scrapes := scrapes w; analyses := analyses w |}.

Definition set_scrapes (rows : list ScrapeRow) (w : Workflow) : Workflow :=
  {| scraper := scraper w; analyzer := analyzer w; scrapes := rows; analyses := analyses w |}.

Definition set_analyses (rows : list AnalysisRow) (w : Workflow) : Workflow :=
  {| scraper := scraper w; analyzer := analyzer w; scrapes := scrapes w; analyses := rows |}.

(** [App.get_workflow(scraper=None, analyzer=None)] *)
Definition get_workflow (scraper_arg analyzer_arg : option Component) : M Workflow :=
  present <- session_contains "workflow" ;;
  (if negb present then
     emit (EvNewWorkflow scraper_arg analyzer_arg) ;;
     session_set "workflow"
       (VWorkflow {| scraper := scraper_arg; analyzer := analyzer_arg;
                     scrapes := []; analyses := [] |})
   else ret tt) ;;
  (match scraper_arg with
   | Some _ => workflow_update (set_scraper scraper_arg)
   | None => ret tt
   end) ;;
  (match analyzer_arg with
   | Some _ => workflow_update (set_analyzer analyzer_arg)
   | None => ret tt
   end) ;;
  workflow_read.

(** Modelled from the spec: the work a scraper or an analyzer does on one
    item belongs to the [scraipe] library and to the network.  It is a
    parameter: any function of the component, the item and the world. *)
Variable scrape_work : option Component -> string -> World -> World * Outcome.
Variable analyze_work : option Component -> ScrapeRow -> World -> World * Outcome.

(** Modelled from the spec: the text the library puts in the error column
    for an exception it captured. *)
Variable capture : Exn -> string.

(** Modelled from the spec: the row the library stores for an item, a
    boolean success flag and an optional error text among its columns; an
    exception raised by the work is captured into the error field. *)
Definition scrape_row (l : string) (o : Outcome) : ScrapeRow :=
  match o with
  | Done c =>
      {| link := l; content := Some c; scrape_success := true; scrape_error := None |}
  | Failed err =>
      {| link := l; content := None; scrape_success := false; scrape_error := Some err |}
  | Raised e =>
      {| link := l; content := None; scrape_success := false;
         scrape_error := Some (capture e) |}
  end.

(** Modelled from the spec: the row the library stores for an analysed
    item. *)
Definition analysis_row (r : ScrapeRow) (o : Outcome) : AnalysisRow :=
  match o with
  | Done out =>
      {| output := Some out; alink := link r; analysis_success := true;
         analysis_error := None |}
  | Failed err =>
      {| output := None; alink := link r; analysis_success := false;
         analysis_error := Some err |}
  | Raised e =>
      {| output := None; alink := link r; analysis_success := false;
         analysis_error := Some (capture e) |}
  end.

(** Modelled from the spec: [Workflow.clear_scrapes()] discards the
    scrape results. *)
Definition clear_scrapes : M unit :=
  emit EvClearScrapes ;; workflow_update (set_scrapes []).

(** Modelled from the spec: [Workflow.clear_analyses()] discards the
    analysis results. *)
Definition clear_analyses : M unit :=
  emit EvClearAnalyses ;; workflow_update (set_analyses []).

(** Modelled from the spec: [Workflow.get_scrapes()], the scrape table. *)
Definition get_scrapes : M (list ScrapeRow) :=
  w <- workflow_read ;; ret (scrapes w).

(** Modelled from the spec: [Workflow.get_analyses()], the analysis table. *)
Definition get_analyses : M (list AnalysisRow) :=
  w <- workflow_read ;; ret (analyses w).

(** Modelled from the spec: [Workflow.scrape_generator(links, overwrite)].
    A generator runs when it is iterated.  Its first step discards the
    prior results of the stage when [overwrite] is true (and keeps them,
    appending, otherwise); then, for each input in order, it performs the
    work, captures an error of that item into the item's row, stores the
    row and yields it. *)
Definition scrape_generator_start (links : list string) (overwrite : bool) : M unit :=
  emit (EvScrapeGenerator links overwrite) ;;
  if overwrite then workflow_update (set_scrapes []) else ret tt.

Definition scrape_generator_next (l : string) : M ScrapeRow :=
  w <- workflow_read ;;
  x <- get_world ;;
  let '(x', o) := scrape_work (scraper w) l x in
  set_world x' ;;
  let row := scrape_row l o in
  workflow_update (fun w => set_scrapes (scrapes w ++ [row]) w) ;;
  ret row.

(** Modelled from the spec: [Workflow.analyze_generator(overwrite)], the
    same over the scrapes the workflow holds, one analysis per scrape. *)
Definition analyze_generator_start (overwrite : bool) : M (list ScrapeRow) :=
  emit (EvAnalyzeGenerator overwrite) ;;
  (if overwrite then workflow_update (set_analyses []) else ret tt) ;;
  get_scrapes.

Definition analyze_generator_next (r : ScrapeRow) : M AnalysisRow :=
  w <- workflow_read ;;
  x <- get_world ;;
  let '(x', o) := analyze_work (analyzer w) r x in
  set_world x' ;;
  let row := analysis_row r o in
  workflow_update (fun w => set_analyses (analyses w ++ [row]) w) ;;
  ret row.

(** Modelled from the spec: the columns of the two tables. *)
Definition scrapes_columns : list string :=
  ["link"; "content"; "scrape_success"; "scrape_error"].

Definition analyses_columns : list string :=
  ["output"; "link"; "analysis_success"; "analysis_error"].

(** ** Widgets *)

(** [st.button(label, key=..., disabled=...)], the widget as Streamlit
    documents it: its value is [True] on the run that a click on it
    triggers and [False] on every other run, a disabled button takes no
    click, and a widget that is given a key keeps its value under that
    key in [st.session_state].  [clicked] says whether the user acted on
    the button since the last run. *)
Definition st_button (label key : string) (disabled clicked : bool) : M bool :=
  emit (EvButton label disabled) ;;
  let pressed := clicked && negb disabled in
  session_set key (VBool pressed) ;;
  ret pressed.

(** [acc / n] on integers: true division, [ZeroDivisionError] on [n = 0].
    The quotient of the two counters is kept exact, as a fraction; the
    float Python computes is its rounding and is below [1.0] exactly when
    [acc < n], for every list that fits in memory. *)
Definition py_truediv (acc n : nat) : M Q :=
  match n with
  | O => raise ZeroDivisionError
  | S _ => ret (Z.of_nat acc # Pos.of_nat n)
  end.

(** Streamlit turns the key of a session lookup into [str(key)]. *)
Definition py_str_key (key : option string) : string := default "None" key.

Definition is_ready (status : option ComponentStatus) : bool :=
  match status with
  | Some st => status_eqb st READY
  | None => false
  end.

(** ** [run_scrape_section] *)

(** The [for result in workflow.scrape_generator(...)] loop: one generator
    step, then the loop body. *)
Fixpoint scrape_for (len_links : nat) (todo : list string) (acc : nat) : M nat :=
  match todo with
  | [] => ret acc
  | l :: rest =>
      result <- scrape_generator_next l ;;
      v <- py_truediv acc len_links ;;
      emit (EvProgress v) ;;
      scrape_for len_links rest (acc + 1)
  end.

Definition run_scrape_section (scraper_key : option string) (clicked : bool) : M unit :=
  v <- session_get (py_str_key scraper_key) (VTuple None None) ;;
  scraper_status <- unpack2 v ;;
  let status := snd scraper_status in
  workflow <- get_workflow (fst scraper_status) None ;;
  let can_run := is_ready status in
  pressed <- st_button "Scrape" "run_scrape" (negb can_run) clicked ;;
  (if pressed then
     links_df <- session_get "links_df" VNone ;;
     links <- match links_df with
              | VLinks links => ret links
              | _ => raise (TypeError "object is not subscriptable")
              end ;;
     emit (EvProgress 0) ;;
     clear_scrapes ;;
     scrape_generator_start links true ;;
     scrape_for (length links) links 0 ;;
     emit EvProgressEmpty ;;
     df <- get_scrapes ;;
     (* if "df" in df.columns: df = df.drop(columns="metadata") -- the
        table has no column "df", and dropping a column it does not have
        either would raise *)
     df <- (if bool_decide ("df" ∈ scrapes_columns)
            then raise (KeyError "metadata")
            else ret df) ;;
     session_set "scrapes_df" (VScrapes df)
   else ret tt) ;;
  (if negb can_run
   then emit (EvWarning "Configure a good scraper to scrape links.")
   else ret tt) ;;
  scrapes_df <- session_get "scrapes_df" VNone ;;
  match scrapes_df with
  | VScrapes (_ :: _) => emit (EvDataframe "scrape_dataframe")
  | _ => ret tt
  end.

(** ** [run_analyze_section] *)

Fixpoint analyze_for (scrapes_length : nat) (todo : list ScrapeRow) (acc : nat) : M nat :=
  match todo with
  | [] => ret acc
  | r :: rest =>
      result <- analyze_generator_next r ;;
      v <- py_truediv acc scrapes_length ;;
      emit (EvProgress v) ;;
      analyze_for scrapes_length rest (acc + 1)
  end.

Definition run_analyze_section (analyzer_key : option string) (clicked : bool) : M unit :=
  v <- session_get (py_str_key analyzer_key) (VTuple None None) ;;
  analyzer_status <- unpack2 v ;;
  let status := snd analyzer_status in
  workflow <- get_workflow None (fst analyzer_status) ;;
  let can_run := is_ready status in
  pressed <- st_button "Analyze" "run_analyze" (negb can_run) clicked ;;
  (if pressed then
     clear_analyses ;;
     emit (EvProgress 0) ;;
     scrapes_df <- get_scrapes ;;
     let scrapes_length := length scrapes_df in
     inputs <- analyze_generator_start true ;;
     analyze_for scrapes_length inputs 0 ;;
     emit EvProgressEmpty ;;
     df <- get_analyses ;;
     session_set "analysis_df" (VAnalyses df)
   else ret tt) ;;
  (if negb can_run
   then emit (EvWarning "Configure a good analyzer to analyze content.")
   else ret tt) ;;
  analysis_df <- session_get "analysis_df" VNone ;;
  match analysis_df with
  | VAnalyses (_ :: _) =>
      if bool_decide ("analysis_success" ∈ analyses_columns)
      then emit (EvDataframe "analyze_dataframe")
      else ret tt
  | _ => ret tt
  end.

(** ** Successive render cycles *)

(** The script is re-run on every interaction.  Between two runs the
    outside world moves on by itself ([env]); the session state is kept.
    [render_cycles] is a sequence of runs of [configure_component_loop]
    with the same selection and no form submission. *)
Fixpoint render_cycles (envs : list (World -> World)) (comp : string)
         (provider_options : list (Provider * ComponentMetadata))
         (selected_index : option nat) : M unit :=
  match envs with
  | [] => ret tt
  | env :: rest =>
      x <- get_world ;;
      set_world (env x) ;;
      configure_component_loop comp provider_options selected_index None ;;
      render_cycles rest comp provider_options selected_index
  end.

(** Successive calls of [get_workflow] in one session. *)
Fixpoint get_workflow_calls (args : list (option Component * option Component))
  : M unit :=
  match args with
  | [] => ret tt
  | a :: rest => get_workflow (fst a) (snd a) ;; get_workflow_calls rest
  end.

(** ** What a run computes, as pure functions of the world *)

(** The outcomes of the items of a batch, the world threaded from one item
    to the next. *)
Fixpoint scrape_outcomes (c : option Component) (links : list string) (x : World)
  : World * list Outcome :=
  match links with
  | [] => (x, [])
  | l :: rest =>
      let '(x1, o) := scrape_work c l x in
      let '(x2, os) := scrape_outcomes c rest x1 in
      (x2, o :: os)
  end.

Fixpoint analyze_outcomes (c : option Component) (inputs : list ScrapeRow) (x : World)
  : World * list Outcome :=
  match inputs with
  | [] => (x, [])
  | r :: rest =>
      let '(x1, o) := analyze_work c r x in
      let '(x2, os) := analyze_outcomes c rest x1 in
      (x2, o :: os)
  end.

(** The values [acc / n] for [acc] from [start], [count] of them. *)
Definition progress_values (n start count : nat) : list Q :=
  map (fun acc => Z.of_nat acc # Pos.of_nat n) (seq start count).

(** ** Reading the session *)

(** The workflow [get_workflow] hands back when [w] is the one stored. *)
Definition override (sa aa : option Component) (w : Workflow) : Workflow :=
  {| scraper := match sa with Some _ => sa | None => scraper w end;
     analyzer := match aa with Some _ => aa | None => analyzer w end;
     scrapes := scrapes w; analyses := analyses w |}.

(** The workflow of the session, as [Workflow(None, None)] would be when
    there is none yet. *)
Definition workflow_entry (s : St) : Workflow :=
  match session s !! "workflow" with
  | Some (VWorkflow w) => w
  | _ => {| scraper := None; analyzer := None; scrapes := []; analyses := [] |}
  end.

Definition workflow_entry_ok (s : St) : Prop :=
  match session s !! "workflow" with
  | None | Some (VWorkflow _) => True
  | _ => False
  end.

(** The construction [get_workflow] performs, if any. *)
Definition new_workflow_events (s : St) (sa aa : option Component) : list Event :=
  match session s !! "workflow" with
  | None => [EvNewWorkflow sa aa]
  | Some _ => []
  end.


(** What [st.session_state.get(key, (None, None))] evaluates to. *)
Definition slot_value (s : St) (key : string) : Value :=
  default (VTuple None None) (session s !! key).

Definition is_tuple (v : Value) : Prop := exists c st, v = VTuple c st.

(** The status stored in a slot; [None] when the slot holds no pair. *)
Definition stored_status (s : St) (key : option string) : option ComponentStatus :=
  match slot_value s (py_str_key key) with
  | VTuple _ st => st
  | _ => None
  end.

(** A config key holds nothing, [None], or a saved config. *)
Definition saved_config (s : St) (config_key : string) : option Config :=
  match session s !! config_key with
  | Some (VConfig cfg) => Some cfg
  | _ => None
  end.

(** The values a configuration form opens on: the saved config if there
    is one, otherwise the default config of the provider, otherwise the
    bare schema. *)
Definition initial_values (s : St) (config_key : string) (p : Provider) (sch : Schema)
  : FormInit :=
  match saved_config s config_key with
  | Some cfg => InitConfig cfg
  | None =>
      match get_default_config p with
      | Some d => InitConfig d
      | None => InitSchema sch
      end
  end.

(** The description line of a provider, with its status mark. *)
Definition description_line (md : ComponentMetadata) (status : ComponentStatus) : string :=
  (if status_eqb status READY then "✔️" else "⚠️")
    +:+ "**" +:+ name md +:+ "**: " +:+ description md.

Definition config_entry_ok (s : St) (config_key : string) : Prop :=
  match session s !! config_key with
  | None | Some VNone | Some (VConfig _) => True
  | _ => False
  end.

(** The calls that start or drive a run. *)
Definition runner_event (e : Event) : bool :=
  match e with
  | EvClearScrapes | EvScrapeGenerator _ _ | EvClearAnalyses | EvAnalyzeGenerator _ => true
  | _ => false
  end.

Definition is_get_component_and_status (e : Event) : bool :=
  match e with EvGetComponentAndStatus _ => true | _ => false end.

Definition is_new_workflow (e : Event) : bool :=
  match e with EvNewWorkflow _ _ => true | _ => false end.

Definition progress_of (e : Event) : option Q :=
  match e with EvProgress v => Some v | _ => None end.

(** An event respects the readiness gate of a slot whose stored status is
    [status]: a button is rendered disabled exactly when that status is
    not [READY], and a call that starts or drives a run needs it to be
    [READY]. *)
Definition respects_gate (status : option ComponentStatus) (e : Event) : Prop :=
  match e with
  | EvButton _ disabled => disabled = true <-> status <> Some READY
  | _ => runner_event e = true -> status = Some READY
  end.

(** While the slot is ready, no button is rendered disabled. *)
Definition while_ready (e : Event) : Prop :=
  match e with EvButton _ disabled => disabled = false | _ => True end.

(** While it is not, buttons are disabled and no run is started. *)
Definition while_idle (e : Event) : Prop :=
  match e with EvButton _ disabled => disabled = true | _ => runner_event e = false end.

(** No constraint on an event. *)
Definition any_event (e : Event) : Prop := True.

(** Every event a computation logs satisfies [P], however it ends. *)
Definition emits {A} (P : Event -> Prop) (m : M A) : Prop :=
  forall s, exists evs, log (fst (m s)) = log s ++ evs /\ Forall P evs.

End Lifecycle.

(** The four carrier types are read off the other arguments. *)
Arguments scraper {Component} w.
Arguments analyzer {Component} w.
Arguments scrapes {Component} w.
Arguments analyses {Component} w.
Arguments Build_Workflow {Component} scraper analyzer scrapes analyses.
Arguments VNone {Component Config}.
Arguments VTuple {Component Config} c s.
Arguments VConfig {Component Config} cfg.
Arguments VWorkflow {Component Config} w.
Arguments VLinks {Component Config} links.
Arguments VScrapes {Component Config} rows.
Arguments VAnalyses {Component Config} rows.
Arguments VBool {Component Config} b.
Arguments VInt {Component Config} n.
Arguments InitConfig {Config Schema} cfg.
Arguments InitSchema {Config Schema} sch.
Arguments EvForm {Component Config Schema} key init.
Arguments EvGetComponentAndStatus {Component Config Schema} cfg.
Arguments EvLateUpdate {Component Config Schema} c.
Arguments EvGetComponentStatus {Component Config Schema} c.
Arguments EvTraceback {Component Config Schema} e.
Arguments EvError {Component Config Schema} msg.
Arguments EvWarning {Component Config Schema} msg.
Arguments EvDescription {Component Config Schema} msg.
Arguments EvNewWorkflow {Component Config Schema} s a.
Arguments EvButton {Component Config Schema} label disabled.
Arguments EvProgress {Component Config Schema} value.
Arguments EvProgressEmpty {Component Config Schema}.
Arguments EvClearScrapes {Component Config Schema}.
Arguments EvScrapeGenerator {Component Config Schema} links overwrite.
Arguments EvClearAnalyses {Component Config Schema}.
Arguments EvAnalyzeGenerator {Component Config Schema} overwrite.
Arguments EvDataframe {Component Config Schema} key.
Arguments Build_St {World Component Config Schema} session world log.
Arguments session {World Component Config Schema} s.
Arguments world {World Component Config Schema} s.
Arguments log {World Component Config Schema} s.
Arguments Build_Provider {World Component Config Schema}.
Arguments get_config_schema {World Component Config Schema} p.
Arguments get_default_config {World Component Config Schema} p.
Arguments get_component_and_status {World Component Config Schema} p cfg w.
Arguments get_component_status {World Component Config Schema} p c w.
Arguments late_update {World Component Config Schema} p c w.
Arguments ret {World Component Config Schema A} a s.
Arguments bind {World Component Config Schema A B} m k s.
Arguments raise {World Component Config Schema A} e s.
Arguments try_except_else {World Component Config Schema A B} body handler orelse s.
Arguments emit {World Component Config Schema} e s.
Arguments get_world {World Component Config Schema} s.
Arguments set_world {World Component Config Schema} w s.
Arguments session_get {World Component Config Schema} key dflt s.
Arguments session_getitem {World Component Config Schema} key s.
Arguments session_set {World Component Config Schema} key v s.
Arguments session_contains {World Component Config Schema} key s.
Arguments unpack2 {World Component Config Schema} v s.
Arguments call_get_component_and_status {World Component Config Schema} p cfg s.
Arguments call_late_update {World Component Config Schema} p c s.
Arguments call_get_component_status {World Component Config Schema} p c s.
Arguments form_initial {World Component Config Schema} config default schema s.
Arguments pydantic_form {World Component Config Schema} key init form_result s.
Arguments configure_step {World Component Config Schema} comp provider comp_key form_result s.
Arguments late_update_step {World Component Config Schema} provider metadata comp_key s.
Arguments configure_component_loop {World Component Config Schema}
  comp provider_options selected_index form_result s.
Arguments workflow_read {World Component Config Schema} s.
Arguments workflow_update {World Component Config Schema} f s.
Arguments set_scraper {Component} c w.
Arguments set_analyzer {Component} c w.
Arguments set_scrapes {Component} rows w.
Arguments set_analyses {Component} rows w.
Arguments get_workflow {World Component Config Schema} scraper_arg analyzer_arg s.
Arguments clear_scrapes {World Component Config Schema} s.
Arguments clear_analyses {World Component Config Schema} s.
Arguments get_scrapes {World Component Config Schema} s.
Arguments get_analyses {World Component Config Schema} s.
Arguments scrape_generator_start {World Component Config Schema} links overwrite s.
Arguments scrape_generator_next {World Component Config Schema} scrape_work capture l s.
Arguments analyze_generator_start {World Component Config Schema} overwrite s.
Arguments analyze_generator_next {World Component Config Schema} analyze_work capture r s.
Arguments st_button {World Component Config Schema} label key disabled clicked s.
Arguments py_truediv {World Component Config Schema} acc n s.
Arguments scrape_for {World Component Config Schema} scrape_work capture len_links todo acc s.
Arguments run_scrape_section {World Component Config Schema}
  scrape_work capture scraper_key clicked s.
Arguments analyze_for {World Component Config Schema}
  analyze_work capture scrapes_length todo acc s.
Arguments run_analyze_section {World Component Config Schema}
  analyze_work capture analyzer_key clicked s.
Arguments render_cycles {World Component Config Schema}
  envs comp provider_options selected_index s.
Arguments get_workflow_calls {World Component Config Schema} args s.
Arguments scrape_outcomes {World Component} scrape_work c links x.
Arguments analyze_outcomes {World Component} analyze_work c inputs x.
Arguments override {Component} sa aa w.
Arguments workflow_entry {World Component Config Schema} s.
Arguments workflow_entry_ok {World Component Config Schema} s.
Arguments new_workflow_events {World Component Config Schema} s sa aa.
Arguments slot_value {World Component Config Schema} s key.
Arguments is_tuple {Component Config} v.
Arguments stored_status {World Component Config Schema} s key.
Arguments saved_config {World Component Config Schema} s config_key.
Arguments config_entry_ok {World Component Config Schema} s config_key.
Arguments initial_values {World Component Config Schema} s config_key p sch.
Arguments runner_event {Component Config Schema} e.
Arguments is_get_component_and_status {Component Config Schema} e.
Arguments is_new_workflow {Component Config Schema} e.
Arguments progress_of {Component Config Schema} e.
Arguments emits {World Component Config Schema A} P m.
Arguments respects_gate {Component Config Schema} status e.
Arguments while_ready {Component Config Schema} e.
Arguments while_idle {Component Config Schema} e.
Arguments any_event {Component Config Schema} e.

Notation "x <- m ;; k" := (bind m (fun x => k))
  (at level 100, m at next level, right associativity).
Notation "m ;; k" := (bind m (fun _ => k))
  (at level 100, right associativity).

(** * [default_config.py]: the default links *)

Module DefaultConfig.

(** A Python list is an object on the heap and a name holds a reference to
    it.  The heap maps references to the current content of the lists. *)
Definition default_links_value : list string :=
  [ "https://example.com";
    "https://rickandmortyapi.com/api/character/1";
    "https://ckaestne.github.io/seai/";
    "https://t.me/TelegramTips/515";
    "https://en.wikipedia.org/wiki/CSS_Industries";
    "https://www.cmu.edu/policies/student-and-student-life/academic-integrity.html";
    "https://privacy.cs.cmu.edu/masters/plan/courses/informationsecurity-privacy-and-policy.html" ].

(** The reference bound to the module global [_default_links], and the
    heap once the module is imported. *)
Definition _default_links : nat := 0.

Definition module_heap : gmap nat (list string) :=
  {[ _default_links := default_links_value ]}.

(** [list.copy()]: a new list object with the same items. *)
Definition list_copy (r : nat) (h : gmap nat (list string))
  : option (gmap nat (list string) * nat) :=
  match h !! r with
  | Some items => let r' := fresh (dom h) in Some (<[r' := items]> h, r')
  | None => None
  end.

(** [get_default_links()] *)
Definition get_default_links (h : gmap nat (list string))
  : option (gmap nat (list string) * nat) :=
  list_copy _default_links h.

(** A caller of the module: it calls [get_default_links], or mutates in
    place (append, item assignment, clear, ...) the list it got from its
    [i]-th call, leaving it with the items [items]. *)
Inductive Action :=
| CallGetDefaultLinks
| MutateReturned (i : nat) (items : list string).

Record Caller := {
  heap : gmap nat (list string);
  returned : list nat;                 (* the references returned so far *)
  observed : list (list string)        (* the items of each list on return *)
}.

Definition caller_init : Caller :=
  {| heap := module_heap; returned := []; observed := [] |}.

Definition caller_step (c : Caller) (a : Action) : Caller :=
  match a with
  | CallGetDefaultLinks =>
      match get_default_links (heap c) with
      | Some (h, r) =>
          {| heap := h; returned := returned c ++ [r];
             observed := observed c ++ [default [] (h !! r)] |}
      | None => c
      end
  | MutateReturned i items =>
      match returned c !! i with
      | Some r => {| heap := <[r := items]> (heap c); returned := returned c;
                     observed := observed c |}
      | None => c
      end
  end.

Definition caller_run (actions : list Action) : Caller :=
  foldl caller_step caller_init actions.

Definition is_call (a : Action) : bool :=
  match a with CallGetDefaultLinks => true | _ => false end.

(** What holds of a caller at every moment: the module global still has
    its seven links, it was never handed out, the references handed out
    are distinct lists of the heap, and each call saw the seven links. *)
Record caller_inv (c : Caller) : Prop := {
  inv_global : heap c !! _default_links = Some default_links_value;
  inv_private : _default_links ∉ returned c;
  inv_distinct : NoDup (returned c);
  inv_alive : forall r, r ∈ returned c -> r ∈ dom (heap c);
  inv_observed : Forall (fun items => items = default_links_value) (observed c)
}.

End DefaultConfig.

(** * The rest of the page *)

Section Page.

Context {World Component Config Schema : Type}.

Local Abbreviation PageState := (St World Component Config Schema).
Local Abbreviation PageM := (M World Component Config Schema).

(** ** The session keys of the application *)

(** The keys [app.py] itself stores values under, by fixed names. *)
Definition fixed_keys : list string :=
  ["workflow"; "initial_links_df"; "links_df"; "scrapes_df"; "analysis_df"].

(** The keys [app.py] gives to Streamlit elements, by fixed names: the file
    uploader, the three buttons of the links editor, the two run buttons,
    the two result tables and the two containers of the run sections.
    Streamlit keeps the value of a keyed widget under its key in
    [st.session_state]. *)
Definition element_keys : list string :=
  ["links_upload"; "generate_wiki_links"; "generate_tme_links"; "clear_links";
   "run_scrape"; "run_analyze"; "scrape_dataframe"; "analyze_dataframe";
   "scrape_section"; "analyze_section"].

(** The keys of the elements of a controller: the select box of the role,
    [f"{comp}_selectbox"], the container of the description,
    [f"{comp}_description"], and the form of a provider,
    [f"{comp_key}_form"]. *)
Definition selectbox_key (comp : string) : string := comp +:+ "_selectbox".

Definition description_key (comp : string) : string := comp +:+ "_description".

Definition form_key (comp_key : string) : string := comp_key +:+ "_form".

(** The element keys of a controller that renders no form, and those of
    the part of [main] below the links when no form is rendered. *)
Definition controller_element_keys (comp : string) : list string :=
  [selectbox_key comp; description_key comp].

Definition run_element_keys : list string :=
  ["run_scrape"; "scrape_dataframe"; "scrape_section";
   "run_analyze"; "analyze_dataframe"; "analyze_section"].

Definition main_element_keys : list string :=
  controller_element_keys "Scraper" ++ controller_element_keys "Analyzer"
    ++ run_element_keys.

(** A computation leaves every session key outside [K] as it found it,
    however it ends. *)
Definition same_outside (K : string -> Prop) (ses ses' : gmap string (Value Component Config))
  : Prop :=
  forall k, ~ K k -> ses' !! k = ses !! k.

Definition keeps {A} (R : gmap string (Value Component Config) ->
                          gmap string (Value Component Config) -> Prop)
           (m : PageM A) : Prop :=
  forall s : PageState, R (session s) (session (fst (m s))).

(** ** The entry of the select box *)

(** [st.selectbox(f"Select {comp}", options=option_indices, ...,
    key=f"{comp}_selectbox")] (lines 191-193): the value of the widget is
    the index the user selected, [None] when there is nothing to select,
    and Streamlit keeps it under the key of the widget. *)
Definition st_selectbox (key : string) (selected_index : option nat)
  : PageM (option nat) :=
  session_set key (match selected_index with
                   | Some i => VInt i
                   | None => VNone
                   end) ;;
  ret selected_index.

(** [configure_component_loop] with the entry of its select box in the
    session. *)
Definition controller_render (comp : string)
           (provider_options : list (Provider World Component Config Schema
                                     * ComponentMetadata))
           (selected_index : option nat) (form_result : option Config)
  : PageM (option string) :=
  selected_index <- st_selectbox (selectbox_key comp) selected_index ;;
  configure_component_loop comp provider_options selected_index form_result.

(** Successive render cycles of the controller, with the same selection
    and no form submission, the outside world moving on in between. *)
Fixpoint controller_cycles (envs : list (World -> World)) (comp : string)
         (provider_options : list (Provider World Component Config Schema
                                   * ComponentMetadata))
         (selected_index : option nat) : PageM unit :=
  match envs with
  | [] => ret tt
  | env :: rest =>
      x <- get_world ;;
      set_world (env x) ;;
      controller_render comp provider_options selected_index None ;;
      controller_cycles rest comp provider_options selected_index
  end.

(** Two states that differ at most in what the session holds under [X]. *)
Definition agree_outside (X : string) (s t : PageState) : Prop :=
  world s = world t /\ log s = log t /\
  forall k, k <> X -> session s !! k = session t !! k.

(** A computation that neither reads nor writes the key [X]: from two
    states that agree outside [X] it ends alike, in two states that agree
    outside [X]. *)
Definition ignores {A} (X : string) (m : PageM A) : Prop :=
  forall s t, agree_outside X s t ->
              snd (m s) = snd (m t) /\ agree_outside X (fst (m s)) (fst (m t)).

(** ** The links prologue of [main] (lines 68-103) *)

(** [s.endswith(suffix)] *)
Definition ends_with (s suffix : string) : bool :=
  String.prefix (String.rev suffix) (String.rev s).

(** The value of [st.file_uploader]: [None], or a file with its name. *)
Record UploadedFile := { file_name : string; file_data : string }.

(** What pandas parses out of a file, as far as the page looks at it: the
    column labels and the cells of the ["link"] column, a missing cell
    being [None]. *)
Record Frame := { frame_columns : list string; frame_links : list (option string) }.

(** [pd.read_csv(f)], [pd.read_excel(f)] and [pd.read_csv(f, sep="\t")]:
    each returns a frame or raises. *)
Variables read_csv read_excel read_tsv : UploadedFile -> Res Frame.

Definition lift_res {A} (r : Res A) : PageM A := fun s => (s, r).

(** The truth value of [df] in [if df:].  [None] is false; pandas refuses
    to give a [DataFrame] a truth value and raises [ValueError]. *)
Definition df_truth (df : option Frame) : PageM bool :=
  match df with
  | None => ret false
  | Some _ =>
      raise (Exception "The truth value of a DataFrame is ambiguous. Use a.empty, a.bool(), a.item(), a.any() or a.all().")
  end.

(** Lines 75-94: reading the uploaded file. *)
Definition upload_links (uploaded_file : option UploadedFile) : PageM unit :=
  match uploaded_file with
  | None => ret tt
  | Some f =>
      df <- try_except_else
              (if ends_with (file_name f) ".csv" then
                 df <- lift_res (read_csv f) ;; ret (Some df)
               else if ends_with (file_name f) ".xlsx" || ends_with (file_name f) ".xls" then
                 df <- lift_res (read_excel f) ;; ret (Some df)
               else if ends_with (file_name f) ".txt" then
                 df <- lift_res (read_tsv f) ;; ret (Some df)
               else
                 emit (EvError "Unsupported file type. Please upload a csv, txt, or Excel file.") ;;
                 ret None)
              (fun e =>
                 emit (EvError "Unable to read the file. Please check the file format.") ;;
                 ret None)
              (fun df => ret df) ;;
      truth <- df_truth df ;;
      if truth then
        match df with
        | Some frame =>
            (* Validate the dataframe has a 'links' column case insensitive *)
            if negb (bool_decide ("link" ∈ frame_columns frame)) then
              emit (EvError "The uploaded file must contain URL links in the 'link' column")
            else
              session_set "initial_links_df" (VLinks (omap id (frame_links frame)))
        | None => ret tt
        end
      else ret tt
  end.

(** Lines 97-103: the default links, when no frame is there yet.  The data
    of the frame is the list [get_default_links()] returns. *)
Definition default_links_frame : PageM unit :=
  v <- session_get "initial_links_df" VNone ;;
  match v with
  | VNone => session_set "initial_links_df" (VLinks DefaultConfig.default_links_value)
  | _ => ret tt
  end.

Definition links_prologue (uploaded_file : option UploadedFile) : PageM unit :=
  upload_links uploaded_file ;;
  default_links_frame.

(** The frame pandas builds from an upload, if it builds one. *)
Definition parsed_frame (uploaded_file : option UploadedFile) : option Frame :=
  match uploaded_file with
  | None => None
  | Some f =>
      let r := if ends_with (file_name f) ".csv" then Some (read_csv f)
               else if ends_with (file_name f) ".xlsx" || ends_with (file_name f) ".xls"
                    then Some (read_excel f)
               else if ends_with (file_name f) ".txt" then Some (read_tsv f)
               else None in
      match r with
      | Some (Ok frame) => Some frame
      | _ => None
      end
  end.

(** ** The sections of [main] below the links (lines 267-363) *)

(** The table a run section shows below its button (lines 302-315 and
    344-361), when the session holds a table that is not empty. *)
Definition shown_scrapes (s : PageState) : list (Event Component Config Schema) :=
  match session s !! "scrapes_df" with
  | Some (VScrapes (_ :: _)) => [EvDataframe "scrape_dataframe"]
  | _ => []
  end.

Definition shown_analyses (s : PageState) : list (Event Component Config Schema) :=
  match session s !! "analysis_df" with
  | Some (VAnalyses (_ :: _)) => [EvDataframe "analyze_dataframe"]
  | _ => []
  end.

Variable scrape_work : option Component -> string -> World -> World * Outcome.
Variable analyze_work : option Component -> ScrapeRow -> World -> World * Outcome.
Variable capture : Exn -> string.

(** The two controllers, then the two run sections on the keys the
    controllers returned.  The arguments are the values of the widgets on
    this run. *)
Definition main_sections
           (scrapers analyzers : list (Provider World Component Config Schema * ComponentMetadata))
           (scraper_index : option nat) (scraper_form : option Config)
           (analyzer_index : option nat) (analyzer_form : option Config)
           (scrape_clicked analyze_clicked : bool) : PageM unit :=
  scraper_key <- configure_component_loop "Scraper" scrapers scraper_index scraper_form ;;
  analyzer_key <- configure_component_loop "Analyzer" analyzers analyzer_index analyzer_form ;;
  run_scrape_section scrape_work capture scraper_key scrape_clicked ;;
  run_analyze_section analyze_work capture analyzer_key analyze_clicked.

(** The same, with the entries of the two select boxes in the session. *)
Definition main_render
           (scrapers analyzers : list (Provider World Component Config Schema * ComponentMetadata))
           (scraper_index : option nat) (scraper_form : option Config)
           (analyzer_index : option nat) (analyzer_form : option Config)
           (scrape_clicked analyze_clicked : bool) : PageM unit :=
  scraper_key <- controller_render "Scraper" scrapers scraper_index scraper_form ;;
  analyzer_key <- controller_render "Analyzer" analyzers analyzer_index analyzer_form ;;
  run_scrape_section scrape_work capture scraper_key scrape_clicked ;;
  run_analyze_section analyze_work capture analyzer_key analyze_clicked.

End Page.

Arguments same_outside {Component Config} K ses ses'.
Arguments keeps {World Component Config Schema A} R m.
Arguments st_selectbox {World Component Config Schema} key selected_index s.
Arguments controller_render {World Component Config Schema}
  comp provider_options selected_index form_result s.
Arguments controller_cycles {World Component Config Schema}
  envs comp provider_options selected_index s.
Arguments agree_outside {World Component Config Schema} X s t.
Arguments ignores {World Component Config Schema A} X m.
Arguments lift_res {World Component Config Schema A} r s.
Arguments df_truth {World Component Config Schema} df s.
Arguments upload_links {World Component Config Schema} read_csv read_excel read_tsv
  uploaded_file s.
Arguments default_links_frame {World Component Config Schema} s.
Arguments links_prologue {World Component Config Schema} read_csv read_excel read_tsv
  uploaded_file s.
Arguments main_sections {World Component Config Schema} scrape_work analyze_work capture
  scrapers analyzers scraper_index scraper_form analyzer_index analyzer_form
  scrape_clicked analyze_clicked s.
Arguments main_render {World Component Config Schema} scrape_work analyze_work capture
  scrapers analyzers scraper_index scraper_form analyzer_index analyzer_form
  scrape_clicked analyze_clicked s.

(** * The links editor: [update_links] *)

Module LinksEditor.

(** A pandas frame: its column labels in order, and its rows, each row
    mapping a label to the cell it holds; a label without a cell is a
    missing value ([None] or [NaN]). *)
Record DataFrame := {
  columns : list string;
  rows : list (gmap string string)
}.

(** [pd.DataFrame(data={'link': links})] *)
Definition from_links (links : list string) : DataFrame :=
  {| columns := ["link"];
     rows := (fun l => {[ "link" := l ]}) <$> links |}.

(** [df[col] = None]: the column is added if it is new, and holds no value. *)
Definition assign_none (col : string) (df : DataFrame) : DataFrame :=
  {| columns := if bool_decide (col ∈ columns df) then columns df else columns df ++ [col];
     rows := delete col <$> rows df |}.

(** [df["link"] = df["link"].astype(str)]: the cells of the column are
    strings already and [str] of a string is that string. *)
Definition astype_str (df : DataFrame) : DataFrame := df.

(** [pd.concat([a, b], ignore_index=True)]: the rows of [a], then those of
    [b], under the labels of [a] followed by the labels only [b] has. *)
Definition concat (a b : DataFrame) : DataFrame :=
  {| columns := columns a ++ filter (fun c => c ∉ columns a) (columns b);
     rows := rows a ++ rows b |}.

(** [update_links(links, add)], on the frame found under ["links_df"].  The
    result is what the function stores under both ["links_df"] and
    ["initial_links_df"] before it reruns the fragment. *)
Definition update_links (links_df : DataFrame) (links : list string) (add : bool)
  : DataFrame :=
  let new_links_df := from_links links in
  (* Check if the dataframe has extra columns that aren't 'link' *)
  let new_links_df :=
    if Nat.ltb 1 (length (columns links_df)) then
      foldl (fun acc col =>
               if bool_decide (col <> "link") then assign_none col acc else acc)
            new_links_df (columns links_df)
    else new_links_df in
  (* Ensure column type is str *)
  let new_links_df := astype_str new_links_df in
  if add then concat links_df new_links_df else new_links_df.

(** The ["link"] cells of a frame. *)
Definition link_cells (df : DataFrame) : list (option string) :=
  (fun row => row !! "link") <$> rows df.

End LinksEditor.

(** * A session to run the definitions on *)

Module Examples.

(** The world is a clock; components are numbered; a configuration is the
    API key it carries and a schema is its name. *)
Definition State : Type := St nat nat string string.

(** A scraper that needs no configuration and is ready once built. *)
Definition text_scraper : Provider nat nat string string :=
  {| get_config_schema := None;
     get_default_config := None;
     get_component_and_status := fun _ x => (x, Ok (Some 7, READY));
     get_component_status := fun c _ => match c with Some _ => READY | None => NOT_READY end;
     late_update := fun _ x => x |}.

(** A scraper that needs no configuration and whose login expires when
    the clock reaches 2. *)
Definition telegram_scraper : Provider nat nat string string :=
  {| get_config_schema := None;
     get_default_config := None;
     get_component_and_status := fun _ x => (x, Ok (Some 9, READY));
     get_component_status := fun c x =>
       match c with
       | Some _ => if Nat.ltb x 2 then READY else NOT_READY
       | None => NOT_READY
       end;
     late_update := fun _ x => x |}.

(** An analyzer with a schema, whose construction rejects an empty key. *)
Definition llm_analyzer : Provider nat nat string string :=
  {| get_config_schema := Some "LlmAnalyzerSchema";
     get_default_config := Some "sk-default";
     get_component_and_status := fun cfg x =>
       match cfg with
       | Some EmptyString | None => (x, Raise (Exception "api_key must not be empty"))
       | Some _ => (x, Ok (Some 8, READY))
       end;
     get_component_status := fun c _ => match c with Some _ => READY | None => NOT_READY end;
     late_update := fun _ x => x |}.

Definition scrapers : list (Provider nat nat string string * ComponentMetadata) :=
  [ (text_scraper, {| name := "Text Scraper";
                      description := "Scrapes visible text from a website." |});
    (telegram_scraper, {| name := "Telegram Message Scraper";
                          description := "Scrapes messages from a Telegram channel." |}) ].

Definition analyzers : list (Provider nat nat string string * ComponentMetadata) :=
  [ (llm_analyzer, {| name := "OpenAI Analyzer";
                      description := "Analyzes text using the OpenAI API." |}) ].

(** Scraping ["https://bad.test"] raises; every other link has content. *)
Definition scrape_work (c : option nat) (l : string) (x : nat) : nat * Outcome :=
  (S x, if String.eqb l "https://bad.test"
        then Raised (Exception "connection refused")
        else Done ("content of " +:+ l)).


Definition analyze_work (c : option nat) (r : ScrapeRow) (x : nat) : nat * Outcome :=
  (S x, match content r with
        | Some text => Done ("stats of " +:+ text)
        | None => Failed "nothing to analyze"
        end).

Definition capture (e : Exn) : string := "Exception: " +:+ exn_str e.

Definition links : list string :=
  ["https://a.test"; "https://bad.test"; "https://c.test"].

Definition fresh : State := {| session := ∅; world := 0; log := [] |}.

(** A session after an earlier run over two links: both slots are ready,
    the workflow and the session hold the two old rows. *)
Definition old_rows : list ScrapeRow :=
  [ {| link := "https://old.test/1"; content := Some "one";
       scrape_success := true; scrape_error := None |};
    {| link := "https://old.test/2"; content := Some "two";
       scrape_success := true; scrape_error := None |} ].

Definition old_analyses : list AnalysisRow :=
  [ {| output := Some "stats"; alink := "https://old.test/0";
       analysis_success := true; analysis_error := None |} ].

Definition configured : State :=
  {| session :=
       <["Scraper_Text Scraper" := VTuple (Some 7) (Some READY)]>
       (<["Analyzer_OpenAI Analyzer" := VTuple (Some 8) (Some READY)]>
       (<["links_df" := VLinks links]>
       (<["scrapes_df" := VScrapes old_rows]>
       (<["workflow" := VWorkflow {| scraper := Some 7; analyzer := None;
                                     scrapes := old_rows;
                                     analyses := old_analyses |}]> ∅))));
     world := 0;
     log := [] |}.

(** The metadata the two lists register their providers under. *)
Definition text_md : ComponentMetadata :=
  {| name := "Text Scraper"; description := "Scrapes visible text from a website." |}.

Definition telegram_md : ComponentMetadata :=
  {| name := "Telegram Message Scraper";
     description := "Scrapes messages from a Telegram channel." |}.

Definition llm_md : ComponentMetadata :=
  {| name := "OpenAI Analyzer"; description := "Analyzes text using the OpenAI API." |}.

(** A scraper that needs no configuration and whose construction fails. *)
Definition offline_scraper : Provider nat nat string string :=
  {| get_config_schema := None;
     get_default_config := None;
     get_component_and_status := fun _ x => (x, Raise (Exception "no network"));
     get_component_status := fun _ _ => NOT_READY;
     late_update := fun _ x => x |}.

Definition offline_md : ComponentMetadata :=
  {| name := "Offline Scraper"; description := "Scrapes a site that is down." |}.

(** A scraper with a login form, whose construction rejects an empty
    phone number. *)
Definition login_scraper : Provider nat nat string string :=
  {| get_config_schema := Some "TelegramSchema";
     get_default_config := None;
     get_component_and_status := fun cfg x =>
       match cfg with
       | Some EmptyString | None => (x, Raise (Exception "phone must not be empty"))
       | Some _ => (x, Ok (Some 9, PENDING))
       end;
     get_component_status := fun c _ => match c with Some _ => PENDING | None => NOT_READY end;
     late_update := fun _ x => x |}.

Definition login_md : ComponentMetadata :=
  {| name := "Telegram Login Scraper"; description := "Scrapes after a login." |}.

(** An analyzer that needs no configuration and is ready once built. *)
Definition stats_analyzer : Provider nat nat string string :=
  {| get_config_schema := None;
     get_default_config := None;
     get_component_and_status := fun _ x => (x, Ok (Some 5, READY));
     get_component_status := fun c _ => match c with Some _ => READY | None => NOT_READY end;
     late_update := fun _ x => x |}.

(** A registration under the name of the key suffix of the select box. *)
Definition selectbox_md : ComponentMetadata :=
  {| name := "selectbox"; description := "Scrapes visible text from a website." |}.

Definition stats_md : ComponentMetadata :=
  {| name := "Text Stats Analyzer"; description := "Computes word and character counts." |}.

(** A session with both slots ready, an empty list of links and no
    workflow yet. *)
Definition no_links : State :=
  {| session :=
       <["Scraper_Text Scraper" := VTuple (Some 7) (Some READY)]>
       (<["Analyzer_OpenAI Analyzer" := VTuple (Some 8) (Some READY)]>
       (<["links_df" := VLinks []]> ∅));
     world := 0;
     log := [] |}.

(** A session in which the Telegram scraper was built while its login
    was good. *)
Definition logged_in : State :=
  {| session := <["Scraper_Telegram Message Scraper" := VTuple (Some 9) (Some READY)]> ∅;
     world := 0;
     log := [] |}.

End Examples.

(** * Proofs *)

Section LifecycleProofs.

Context {World Component Config Schema : Type}.

Local Abbreviation State := (St World Component Config Schema).
Local Abbreviation Act := (M World Component Config Schema).

(** ** Running the monad *)

Lemma bind_ok {A B} (m : Act A) (k : A -> Act B) (s s' : State) a :
  m s = (s', Ok a) -> bind m k s = k a s'.
Proof. intros H. unfold bind. by rewrite H. Qed.

Lemma bind_raise {A B} (m : Act A) (k : A -> Act B) (s s' : State) e :
  m s = (s', Raise e) -> bind m k s = (s', Raise e).
Proof. intros H. unfold bind. by rewrite H. Qed.

Lemma bind_assoc {A B C} (m : Act A) (k : A -> Act B) (h : B -> Act C) (s : State) :
  bind (bind m k) h s = bind m (fun a => bind (k a) h) s.
Proof. unfold bind. by destruct (m s) as [s' [a|e]]. Qed.

(** One step of a run whose first action computes. *)
Ltac mstep := rewrite ?bind_assoc; erewrite bind_ok by reflexivity.

(** A button logs itself and leaves its value under its key. *)
Lemma st_button_ok label key disabled clicked (s : State) :
  st_button label key disabled clicked s =
  ({| session := <[key := VBool (clicked && negb disabled)]> (session s);
      world := world s;
      log := log s ++ [EvButton label disabled] |},
   Ok (clicked && negb disabled)).
Proof. reflexivity. Qed.

(** The value of a button is stored below the workflow of the session. *)
Lemma button_under_workflow key b w (ses : gmap string (Value Component Config)) :
  key <> "workflow" ->
  <[key := b]> (<["workflow" := w]> ses) = <["workflow" := w]> (<[key := b]> ses).
Proof. intros Hne. by apply insert_insert_ne. Qed.

(** Logs are compared with their appends nested to the right. *)
Ltac log_norm :=
  repeat first [rewrite <- app_assoc | rewrite <- app_comm_cons | rewrite app_nil_r];
  cbn [app].

(** ** What a computation may log *)

Create HintDb emits.

Lemma emits_silent {A} (P : Event Component Config Schema -> Prop) (m : Act A) :
  (forall s, log (fst (m s)) = log s) -> emits P m.
Proof. intros H s. exists []. rewrite H, app_nil_r. by split. Qed.

Lemma emits_ret {A} P (a : A) : emits P (ret a : Act A).
Proof. by apply emits_silent. Qed.

Lemma emits_raise {A} P e : emits P (raise e : Act A).
Proof. by apply emits_silent. Qed.

Lemma emits_emit (P : Event Component Config Schema -> Prop) e :
  P e -> emits P (emit e : Act unit).
Proof. intros H s. exists [e]. split; [done|]. by constructor. Qed.

Lemma emits_bind {A B} P (m : Act A) (k : A -> Act B) :
  emits P m -> (forall a, emits P (k a)) -> emits P (bind m k).
Proof.
  intros Hm Hk s. destruct (Hm s) as (evs1 & E1 & F1).
  unfold bind. destruct (m s) as [s1 [a|e]]; simpl in *.
  - destruct (Hk a s1) as (evs2 & E2 & F2). exists (evs1 ++ evs2).
    rewrite E2, E1, app_assoc. split; [done|]. by apply Forall_app.
  - by exists evs1.
Qed.

Lemma emits_try {A B} P (body : Act A) (handler : Exn -> Act B) (orelse : A -> Act B) :
  emits P body -> (forall e, emits P (handler e)) -> (forall a, emits P (orelse a)) ->
  emits P (try_except_else body handler orelse).
Proof.
  intros Hm Hh Hk s. destruct (Hm s) as (evs1 & E1 & F1).
  unfold try_except_else. destruct (body s) as [s1 [a|e]]; simpl in *.
  - destruct (Hk a s1) as (evs2 & E2 & F2). exists (evs1 ++ evs2).
    rewrite E2, E1, app_assoc. split; [done|]. by apply Forall_app.
  - destruct (Hh e s1) as (evs2 & E2 & F2). exists (evs1 ++ evs2).
    rewrite E2, E1, app_assoc. split; [done|]. by apply Forall_app.
Qed.

Lemma emits_if {A} P (b : bool) (m1 m2 : Act A) :
  emits P m1 -> emits P m2 -> emits P (if b then m1 else m2).
Proof. by destruct b. Qed.

Lemma emits_session_get P key dflt : emits P (session_get key dflt : Act _).
Proof. by apply emits_silent. Qed.

Lemma emits_session_getitem P key : emits P (session_getitem key : Act _).
Proof.
  apply emits_silent. intros s. unfold session_getitem.
  by destruct (session s !! key).
Qed.

Lemma emits_session_set P key v : emits P (session_set key v : Act _).
Proof. by apply emits_silent. Qed.

Lemma emits_session_contains P key : emits P (session_contains key : Act _).
Proof. by apply emits_silent. Qed.

Lemma emits_get_world P : emits P (get_world : Act _).
Proof. by apply emits_silent. Qed.

Lemma emits_set_world P w : emits P (set_world w : Act _).
Proof. by apply emits_silent. Qed.

Lemma emits_unpack2 P v : emits P (unpack2 v : Act _).
Proof. destruct v; by apply emits_silent. Qed.

#[local] Hint Resolve emits_ret emits_raise emits_bind emits_try emits_if
  emits_session_get emits_session_getitem emits_session_set emits_session_contains
  emits_get_world emits_set_world emits_unpack2 : emits.

Lemma emits_workflow_read P : emits P (workflow_read : Act _).
Proof.
  unfold workflow_read. apply emits_bind; [auto with emits|].
  intros []; auto with emits.
Qed.

#[local] Hint Resolve emits_workflow_read : emits.

Lemma emits_workflow_update P f : emits P (workflow_update f : Act _).
Proof. unfold workflow_update. auto with emits. Qed.

#[local] Hint Resolve emits_workflow_update : emits.

Lemma emits_get_workflow (P : Event Component Config Schema -> Prop) sa aa :
  P (EvNewWorkflow sa aa) -> emits P (get_workflow sa aa : Act _).
Proof.
  intros H. unfold get_workflow.
  apply emits_bind; [auto with emits|]. intros present.
  apply emits_bind.
  { apply emits_if; [|auto with emits].
    apply emits_bind; [by apply emits_emit|auto with emits]. }
  intros _. apply emits_bind; [destruct sa; auto with emits|].
  intros _. apply emits_bind; [destruct aa; auto with emits|].
  auto with emits.
Qed.

(** ** The workflow object *)

Lemma workflow_read_ok (s : State) w :
  session s !! "workflow" = Some (VWorkflow w) -> workflow_read s = (s, Ok w).
Proof. intros H. unfold workflow_read, bind, session_getitem. by rewrite H. Qed.

Lemma workflow_update_ok (s : State) w f :
  session s !! "workflow" = Some (VWorkflow w) ->
  workflow_update f s =
  ({| session := <["workflow" := VWorkflow (f w)]> (session s);
      world := world s; log := log s |}, Ok tt).
Proof.
  intros H. unfold workflow_update.
  by rewrite (bind_ok _ _ _ _ _ (workflow_read_ok s w H)).
Qed.

Lemma workflow_assign_ok (s : State) w sa aa :
  session s !! "workflow" = Some (VWorkflow w) ->
  ((match sa with
    | Some _ => workflow_update (set_scraper sa)
    | None => ret tt
    end) ;;
   (match aa with
    | Some _ => workflow_update (set_analyzer aa)
    | None => ret tt
    end) ;;
   workflow_read) s =
  ({| session := <["workflow" := VWorkflow (override sa aa w)]> (session s);
      world := world s; log := log s |}, Ok (override sa aa w)).
Proof.
  intros Hw.
  destruct sa as [sc|], aa as [an|].
  - erewrite bind_ok; [|by apply (workflow_update_ok _ w)].
    erewrite bind_ok; [|apply workflow_update_ok; simpl; apply lookup_insert_eq].
    erewrite workflow_read_ok; [|simpl; apply lookup_insert_eq].
    simpl. by rewrite insert_insert_eq.
  - erewrite bind_ok; [|by apply (workflow_update_ok _ w)].
    unfold bind at 1, ret at 1.
    erewrite workflow_read_ok; [|simpl; apply lookup_insert_eq]. done.
  - unfold bind at 1, ret at 1.
    erewrite bind_ok; [|by apply (workflow_update_ok _ w)].
    erewrite workflow_read_ok; [|simpl; apply lookup_insert_eq]. done.
  - unfold bind at 1, ret at 1. unfold bind at 1, ret at 1.
    rewrite (workflow_read_ok s w Hw).
    destruct s as [ses x lg]; simpl in *. do 2 f_equal.
    + rewrite insert_id; [done|]. rewrite Hw. by destruct w.
    + by destruct w.
Qed.

Lemma get_workflow_present (s : State) w sa aa :
  session s !! "workflow" = Some (VWorkflow w) ->
  get_workflow sa aa s =
  ({| session := <["workflow" := VWorkflow (override sa aa w)]> (session s);
      world := world s; log := log s |}, Ok (override sa aa w)).
Proof.
  intros Hw. unfold get_workflow.
  unfold bind at 1, session_contains at 1. rewrite Hw.
  rewrite bool_decide_eq_true_2 by eauto. simpl negb. cbv iota.
  unfold bind at 1, ret at 1.
  by apply workflow_assign_ok.
Qed.

Lemma get_workflow_absent (s : State) sa aa :
  session s !! "workflow" = None ->
  get_workflow sa aa s =
  (let w := {| scraper := sa; analyzer := aa; scrapes := []; analyses := [] |} in
   ({| session := <["workflow" := VWorkflow w]> (session s);
       world := world s; log := log s ++ [EvNewWorkflow sa aa] |}, Ok w)).
Proof.
  intros Hw. unfold get_workflow.
  unfold bind at 1, session_contains at 1. rewrite Hw.
  rewrite bool_decide_eq_false_2 by (intros [? ?]; done). simpl negb. cbv iota.
  unfold bind at 1. unfold bind at 1, emit at 1. unfold session_set at 1.
  cbv beta iota. cbn [session world log].
  erewrite workflow_assign_ok; [|simpl; apply lookup_insert_eq].
  simpl. rewrite insert_insert_eq.
  by destruct sa, aa.
Qed.

Lemma get_workflow_ok (s : State) sa aa :
  workflow_entry_ok s ->
  get_workflow sa aa s =
  ({| session := <["workflow" := VWorkflow (override sa aa (workflow_entry s))]>
                   (session s);
      world := world s; log := log s ++ new_workflow_events s sa aa |},
   Ok (override sa aa (workflow_entry s))).
Proof.
  unfold workflow_entry_ok, workflow_entry, new_workflow_events.
  destruct (session s !! "workflow") as [[]|] eqn:Hw; try done; intros _.
  - rewrite (get_workflow_present s w sa aa Hw). by rewrite app_nil_r.
  - rewrite (get_workflow_absent s sa aa Hw). simpl. by destruct sa, aa.
Qed.

(** ** The controller *)

Lemma string_length_append (a b : string) :
  String.length (a +:+ b) = String.length a + String.length b.
Proof.
  induction a as [|ch a IH]; [done|].
  change (String ch a +:+ b) with (String ch (a +:+ b)). simpl. by rewrite IH.
Qed.

Lemma config_key_ne key : config_key_of key <> key.
Proof.
  intros H. apply (f_equal String.length) in H. unfold config_key_of in H.
  rewrite string_length_append in H. simpl in H. lia.
Qed.

Section Controller.

Variables (comp : string) (p : Provider World Component Config Schema)
          (md : ComponentMetadata).

Let key := comp_key_of comp md.

Lemma late_update_step_ok (s : State) c st0 :
  slot_value s key = VTuple c st0 ->
  late_update_step p md key s =
  (let x := late_update p c (world s) in
   let status := get_component_status p c x in
   {| session := if status_eqb status READY
                 then <[key := VTuple c (Some status)]> (session s)
                 else session s;
      world := x;
      log := log s ++ [EvLateUpdate c; EvGetComponentStatus c;
                       EvDescription (description_line md status)] |},
   Ok tt).
Proof.
  intros Hslot. unfold late_update_step, slot_value in *.
  unfold bind at 1, session_get at 1. rewrite Hslot.
  unfold bind at 1, unpack2 at 1, ret at 1. cbn [fst].
  unfold call_late_update, call_get_component_status.
  mstep. mstep. mstep. mstep. mstep. mstep.
  cbn [session world log]. unfold description_line.
  destruct (status_eqb _ READY); unfold bind, session_set, emit, ret;
    cbn [session world log]; do 2 f_equal; by log_norm.
Qed.

Lemma late_update_step_none (s : State) :
  session s !! key = Some VNone ->
  late_update_step p md key s =
  (s, Raise (TypeError "cannot unpack non-iterable NoneType object")).
Proof.
  intros Hslot. unfold late_update_step.
  unfold bind at 1, session_get at 1. rewrite Hslot. done.
Qed.

(** The form of a provider with a schema opens on [initial_values]. *)
Lemma form_initial_ok (s : State) sch :
  config_entry_ok s (config_key_of key) ->
  form_initial (default VNone (session s !! config_key_of key))
               (get_default_config p) sch s =
  (s, Ok (initial_values s (config_key_of key) p sch)).
Proof.
  unfold config_entry_ok, initial_values, saved_config, form_initial.
  by destruct (session s !! config_key_of key) as [[]|].
Qed.

(** No submission: the form is rendered and nothing else happens. *)
Lemma configure_step_idle (s : State) sch :
  get_config_schema p = Some sch ->
  is_tuple (slot_value s key) ->
  config_entry_ok s (config_key_of key) ->
  configure_step comp p key None s =
  ({| session := session s; world := world s;
      log := log s ++ [EvForm (key +:+ "_form")
                              (initial_values s (config_key_of key) p sch)] |},
   Ok tt).
Proof.
  intros Hsch (c & st & Hslot) Hcfg. unfold configure_step, slot_value in *.
  rewrite Hsch. mstep. mstep. cbn [session]. rewrite Hslot.
  mstep.
  rewrite ?bind_assoc. erewrite bind_ok by (by apply form_initial_ok).
  unfold pydantic_form. mstep. mstep. done.
Qed.

(** A submission the provider accepts. *)
Lemma configure_step_submit_ok (s : State) sch cfg x r :
  get_config_schema p = Some sch ->
  is_tuple (slot_value s key) ->
  config_entry_ok s (config_key_of key) ->
  get_component_and_status p (Some cfg) (world s) = (x, Ok r) ->
  configure_step comp p key (Some cfg) s =
  ({| session := <[config_key_of key := VConfig cfg]>
                   (<[key := VTuple (fst r) (Some (snd r))]> (session s));
      world := x;
      log := log s ++ [EvForm (key +:+ "_form")
                              (initial_values s (config_key_of key) p sch);
                       EvGetComponentAndStatus (Some cfg)] |},
   Ok tt).
Proof.
  intros Hsch (c & st & Hslot) Hcfg Hcall. unfold configure_step, slot_value in *.
  rewrite Hsch. mstep. mstep. cbn [session]. rewrite Hslot.
  mstep.
  rewrite ?bind_assoc. erewrite bind_ok by (by apply form_initial_ok).
  unfold pydantic_form. mstep. mstep.
  unfold try_except_else, call_get_component_and_status.
  rewrite ?bind_assoc. erewrite bind_ok by reflexivity.
  unfold bind at 1. cbn [session world log]. rewrite Hcall.
  unfold session_set. cbn [session world log]. do 2 f_equal. by log_norm.
Qed.

(** A submission on which the provider raises. *)
Lemma configure_step_submit_raise (s : State) sch cfg x e :
  get_config_schema p = Some sch ->
  is_tuple (slot_value s key) ->
  config_entry_ok s (config_key_of key) ->
  get_component_and_status p (Some cfg) (world s) = (x, Raise e) ->
  configure_step comp p key (Some cfg) s =
  ({| session := <[key := VNone]> (session s);
      world := x;
      log := log s ++ [EvForm (key +:+ "_form")
                              (initial_values s (config_key_of key) p sch);
                       EvGetComponentAndStatus (Some cfg);
                       EvTraceback e;
                       EvError ("Error creating " +:+ comp +:+ ": " +:+ exn_str e)] |},
   Ok tt).
Proof.
  intros Hsch (c & st & Hslot) Hcfg Hcall. unfold configure_step, slot_value in *.
  rewrite Hsch. mstep. mstep. cbn [session]. rewrite Hslot.
  mstep.
  rewrite ?bind_assoc. erewrite bind_ok by (by apply form_initial_ok).
  unfold pydantic_form. mstep. mstep.
  unfold try_except_else, call_get_component_and_status.
  rewrite ?bind_assoc. erewrite bind_ok by reflexivity.
  unfold bind at 1. cbn [session world log]. rewrite Hcall.
  mstep. mstep.
  unfold session_set. cbn [session world log]. do 2 f_equal. by log_norm.
Qed.

(** A slot left at [None] stops the schema branch before its form. *)
Lemma configure_step_none (s : State) sch fr :
  get_config_schema p = Some sch ->
  session s !! key = Some VNone ->
  configure_step comp p key fr s =
  (s, Raise (TypeError "cannot unpack non-iterable NoneType object")).
Proof.
  intros Hsch Hslot. unfold configure_step. rewrite Hsch.
  mstep. mstep. rewrite Hslot. done.
Qed.

(** A provider without schema whose slot is filled is left alone. *)
Lemma configure_step_cached (s : State) fr :
  get_config_schema p = None ->
  is_tuple (default VNone (session s !! key)) ->
  configure_step comp p key fr s = (s, Ok tt).
Proof.
  intros Hsch (c & st & Hslot). unfold configure_step. rewrite Hsch.
  mstep. mstep. by rewrite Hslot.
Qed.

(** A provider without schema whose slot is empty is instantiated. *)
Lemma configure_step_instantiate (s : State) fr x r :
  get_config_schema p = None ->
  default VNone (session s !! key) = VNone ->
  get_component_and_status p None (world s) = (x, r) ->
  configure_step comp p key fr s =
  (match r with
   | Ok r =>
       ({| session := <[key := VTuple (fst r) (Some (snd r))]> (session s);
           world := x; log := log s ++ [EvGetComponentAndStatus None] |}, Ok tt)
   | Raise e =>
       ({| session := session s; world := x;
           log := log s ++ [EvGetComponentAndStatus None] |}, Raise e)
   end).
Proof.
  intros Hsch Hslot Hcall. unfold configure_step. rewrite Hsch.
  mstep. mstep. rewrite Hslot.
  unfold call_get_component_and_status.
  rewrite ?bind_assoc. erewrite bind_ok by reflexivity.
  unfold bind at 1. cbn [session world log]. rewrite Hcall.
  by destruct r.
Qed.

End Controller.

Lemma cycle_unfold comp opts i p md fr (s : State) :
  opts !! i = Some (p, md) ->
  configure_component_loop comp opts (Some i) fr s =
  (configure_step comp p (comp_key_of comp md) fr ;;
   late_update_step p md (comp_key_of comp md) ;;
   ret (Some (comp_key_of comp md))) s.
Proof. intros H. unfold configure_component_loop. by rewrite H. Qed.

(** C1 (what the code does where the claim fails).  When the provider
    raises on a submitted configuration, the controller catches the
    exception, prints the traceback and shows the error, but it resets the
    slot to [None] and not to [(None, None)]; unpacking the slot on line 250
    then raises a [TypeError] that escapes the controller on that very
    render cycle.  The saved configuration is untouched, and every later
    cycle with this provider selected raises the same error before the
    form is rendered. *)
Theorem construction_error_escapes comp opts i p md sch cfg x e (s : State) :
  let key := comp_key_of comp md in
  opts !! i = Some (p, md) ->
  get_config_schema p = Some sch ->
  is_tuple (slot_value s key) ->
  config_entry_ok s (config_key_of key) ->
  get_component_and_status p (Some cfg) (world s) = (x, Raise e) ->
  exists s',
    configure_component_loop comp opts (Some i) (Some cfg) s =
      (s', Raise (TypeError "cannot unpack non-iterable NoneType object")) /\
    session s' !! key = Some VNone /\
    session s' !! config_key_of key = session s !! config_key_of key /\
    log s' = log s ++ [EvForm (key +:+ "_form")
                              (initial_values s (config_key_of key) p sch);
                       EvGetComponentAndStatus (Some cfg);
                       EvTraceback e;
                       EvError ("Error creating " +:+ comp +:+ ": " +:+ exn_str e)] /\
    forall fr,
      configure_component_loop comp opts (Some i) fr s' =
        (s', Raise (TypeError "cannot unpack non-iterable NoneType object")).
Proof.
  intros key Hopt Hsch Hslot Hcfg Hcall. subst key.
  eexists. rewrite (cycle_unfold _ _ _ _ _ _ _ Hopt).
  erewrite bind_ok by (by eapply configure_step_submit_raise).
  erewrite bind_raise by (apply late_update_step_none; apply lookup_insert_eq).
  split; [done|]. cbn [session log].
  split; [apply lookup_insert_eq|].
  split; [apply lookup_insert_ne; intros H; by apply (config_key_ne (comp_key_of comp md))|].
  split; [done|].
  intros fr. rewrite (cycle_unfold _ _ _ _ _ _ _ Hopt).
  erewrite bind_raise; [done|].
  eapply configure_step_none; [done|]. apply lookup_insert_eq.
Qed.

(** C5 (amended).  On a render cycle whose configuration step leaves a
    component [c] in the selected slot, the controller calls
    [late_update(c)] once, then [get_component_status(c)] once, and shows
    the description; it stores the pair [(c, READY)] in the slot when the
    recomputed status is [READY], and leaves the session as the
    configuration step left it when the status is anything else. *)
Theorem late_update_persists_only_ready comp opts i p md fr c st0 (s s1 : State) :
  let key := comp_key_of comp md in
  opts !! i = Some (p, md) ->
  configure_step comp p key fr s = (s1, Ok tt) ->
  session s1 !! key = Some (VTuple (Some c) st0) ->
  let x := late_update p (Some c) (world s1) in
  let status := get_component_status p (Some c) x in
  configure_component_loop comp opts (Some i) fr s =
  ({| session := if status_eqb status READY
                 then <[key := VTuple (Some c) (Some READY)]> (session s1)
                 else session s1;
      world := x;
      log := log s1 ++ [EvLateUpdate (Some c); EvGetComponentStatus (Some c);
                        EvDescription (description_line md status)] |},
   Ok (Some key)).
Proof.
  intros key Hopt Hstep Hslot x status. subst key.
  rewrite (cycle_unfold _ _ _ _ _ _ _ Hopt).
  rewrite (bind_ok _ _ _ _ _ Hstep).
  erewrite bind_ok;
    [|apply (late_update_step_ok comp p md s1 (Some c) st0);
      unfold slot_value; by rewrite Hslot].
  fold x. subst status. unfold ret.
  by destruct (get_component_status p (Some c) x).
Qed.

(** ** Providers that need no configuration *)

Lemma cycle_cached comp opts i p md fr c st0 (s : State) :
  opts !! i = Some (p, md) ->
  get_config_schema p = None ->
  session s !! comp_key_of comp md = Some (VTuple c st0) ->
  exists s' st1,
    configure_component_loop comp opts (Some i) fr s = (s', Ok (Some (comp_key_of comp md))) /\
    session s' !! comp_key_of comp md = Some (VTuple c st1) /\
    log s' = log s ++ [EvLateUpdate c; EvGetComponentStatus c;
                       EvDescription
                         (description_line md
                            (get_component_status p c (late_update p c (world s))))].
Proof.
  intros Hopt Hsch Hslot.
  rewrite (cycle_unfold _ _ _ _ _ _ _ Hopt).
  erewrite bind_ok;
    [|apply configure_step_cached; [done|]; rewrite Hslot; by eexists _, _].
  erewrite bind_ok;
    [|apply (late_update_step_ok comp p md s c st0); unfold slot_value; by rewrite Hslot].
  unfold ret. cbn zeta.
  destruct (status_eqb _ READY); eexists _, _; (split; [done|]);
    cbn [session log]; (split; [|done]);
    [apply lookup_insert_eq|exact Hslot].
Qed.

Lemma cycle_instantiate comp opts i p md fr x r (s : State) :
  opts !! i = Some (p, md) ->
  get_config_schema p = None ->
  default VNone (session s !! comp_key_of comp md) = VNone ->
  get_component_and_status p None (world s) = (x, Ok r) ->
  exists s' st1,
    configure_component_loop comp opts (Some i) fr s = (s', Ok (Some (comp_key_of comp md))) /\
    session s' !! comp_key_of comp md = Some (VTuple (fst r) st1) /\
    log s' = log s ++ [EvGetComponentAndStatus None; EvLateUpdate (fst r);
                       EvGetComponentStatus (fst r);
                       EvDescription
                         (description_line md
                            (get_component_status p (fst r) (late_update p (fst r) x)))].
Proof.
  intros Hopt Hsch Hslot Hcall.
  rewrite (cycle_unfold _ _ _ _ _ _ _ Hopt).
  erewrite bind_ok; [|by eapply (configure_step_instantiate comp p md _ fr x (Ok r))].
  erewrite bind_ok;
    [|apply (late_update_step_ok comp p md _ (fst r) (Some (snd r)));
      unfold slot_value; cbn [session]; by rewrite lookup_insert_eq].
  unfold ret. cbn zeta. cbn [session world log].
  destruct (status_eqb _ READY); eexists _, _; (split; [done|]);
    cbn [session log]; (split; [|by log_norm]); apply lookup_insert_eq.
Qed.

Lemma render_cycles_cached comp opts i p md envs : forall c st0 (s : State),
  opts !! i = Some (p, md) ->
  get_config_schema p = None ->
  session s !! comp_key_of comp md = Some (VTuple c st0) ->
  exists s' st1 evs,
    render_cycles envs comp opts (Some i) s = (s', Ok tt) /\
    session s' !! comp_key_of comp md = Some (VTuple c st1) /\
    log s' = log s ++ evs /\
    Forall (fun e => is_get_component_and_status e = false) evs.
Proof.
  induction envs as [|env rest IH]; intros c st0 s Hopt Hsch Hslot.
  - exists s, st0, []. simpl. by rewrite app_nil_r.
  - simpl. mstep. mstep.
    destruct (cycle_cached comp opts i p md None c st0
                (set_world (env (world s)) s).1 Hopt Hsch Hslot)
      as (s1 & st1 & Hrun & Hslot1 & Hlog1).
    rewrite (bind_ok _ _ _ _ _ Hrun).
    destruct (IH c st1 s1 Hopt Hsch Hslot1) as (s2 & st2 & evs & Hrun2 & Hslot2 & Hlog2 & F).
    exists s2, st2. eexists. split; [exact Hrun2|]. split; [exact Hslot2|].
    rewrite Hlog2, Hlog1. cbn [set_world fst log]. rewrite <- app_assoc.
    split; [done|]. apply Forall_app. split; [|done].
    by repeat constructor.
Qed.

(** Successive cycles on a provider without schema for which nothing is
    cached yet: one instantiation, the first call of the first cycle. *)
Lemma render_cycles_instantiate comp opts i p md env envs x r (s : State) :
  let key := comp_key_of comp md in
  opts !! i = Some (p, md) ->
  get_config_schema p = None ->
  default VNone (session s !! key) = VNone ->
  get_component_and_status p None (env (world s)) = (x, Ok r) ->
  exists s' st evs,
    render_cycles (env :: envs) comp opts (Some i) s = (s', Ok tt) /\
    log s' = log s ++ EvGetComponentAndStatus None :: evs /\
    Forall (fun e => is_get_component_and_status e = false) evs /\
    session s' !! key = Some (VTuple (fst r) st).
Proof.
  intros key Hopt Hsch Hslot Hcall. subst key. cbn [render_cycles]. mstep. mstep.
  destruct (cycle_instantiate comp opts i p md None x r
              (set_world (env (world s)) s).1 Hopt Hsch Hslot Hcall)
    as (s1 & st1 & Hrun1 & Hslot1 & Hlog1).
  rewrite (bind_ok _ _ _ _ _ Hrun1).
  destruct (render_cycles_cached comp opts i p md envs (fst r) st1 s1 Hopt Hsch Hslot1)
    as (s2 & st2 & evs & Hrun & Hslot2 & Hlog & F).
  exists s2, st2. eexists. split; [exact Hrun|].
  rewrite Hlog, Hlog1. cbn [log set_world fst].
  split; [by log_norm|]. split; [|done].
  by repeat constructor.
Qed.

(** The form of a provider with a schema and the configuration saved for
    it, on the keys the controller itself reads and writes. *)
Lemma cycle_form_and_saved_config comp opts i p md sch fr (s : State) :
  let key := comp_key_of comp md in
  let config_key := config_key_of key in
  opts !! i = Some (p, md) ->
  get_config_schema p = Some sch ->
  is_tuple (slot_value s key) ->
  config_entry_ok s config_key ->
  exists s' res rest,
    configure_component_loop comp opts (Some i) fr s = (s', res) /\
    log s' = log s ++ EvForm (key +:+ "_form") (initial_values s config_key p sch) :: rest /\
    session s' !! config_key =
      match fr with
      | Some cfg =>
          match snd (get_component_and_status p (Some cfg) (world s)) with
          | Ok _ => Some (VConfig cfg)
          | Raise _ => session s !! config_key
          end
      | None => session s !! config_key
      end.
Proof.
  intros key config_key Hopt Hsch Hslot Hcfg. subst config_key key.
  set (key := comp_key_of comp md) in *.
  assert (Hne : key <> config_key_of key) by (intros H; by apply (config_key_ne key)).
  rewrite (cycle_unfold _ _ _ _ _ _ _ Hopt). fold key.
  destruct fr as [cfg|].
  - destruct (get_component_and_status p (Some cfg) (world s)) as [x [r|e]] eqn:Hcall.
    + erewrite bind_ok by (by eapply configure_step_submit_ok).
      erewrite bind_ok;
        [|apply (late_update_step_ok comp p md _ (fst r) (Some (snd r)));
          unfold slot_value; cbn [session]; fold key;
          by rewrite lookup_insert_ne, lookup_insert_eq].
      unfold ret. cbn zeta. eexists _, _, _. split; [done|].
      cbn [session log snd]. split; [by log_norm|].
      fold key.
      destruct (status_eqb _ READY);
        by rewrite ?(lookup_insert_ne _ key (config_key_of key)), lookup_insert_eq.
    + erewrite bind_ok by (by eapply configure_step_submit_raise).
      erewrite bind_raise by (apply late_update_step_none; apply lookup_insert_eq).
      eexists _, _, _. split; [done|]. cbn [session log snd].
      split; [by log_norm|]. fold key. by rewrite lookup_insert_ne.
  - erewrite bind_ok by (by eapply configure_step_idle).
    destruct Hslot as (c & st0 & Hslot).
    erewrite bind_ok; [|by apply (late_update_step_ok comp p md _ c st0)].
    unfold ret. cbn zeta. eexists _, _, _. split; [done|].
    cbn [session log]. split; [by log_norm|].
    fold key. destruct (status_eqb _ READY); by rewrite ?lookup_insert_ne.
Qed.

(** ** [get_workflow] *)

Lemma get_workflow_calls_present args : forall (s : State) w,
  session s !! "workflow" = Some (VWorkflow w) ->
  exists s' w',
    get_workflow_calls args s = (s', Ok tt) /\
    session s' !! "workflow" = Some (VWorkflow w') /\
    log s' = log s.
Proof.
  induction args as [|[sa aa] rest IH]; intros s w Hw.
  - by exists s, w.
  - simpl. rewrite (bind_ok _ _ _ _ _ (get_workflow_present s w sa aa Hw)).
    match goal with |- context [get_workflow_calls rest ?s1] => set (s1' := s1) end.
    destruct (IH s1' (override sa aa w)) as (s' & w' & Hrun & Hw' & Hlog);
      [apply lookup_insert_eq|].
    exists s', w'. by rewrite Hrun, Hw', Hlog.
Qed.

(** C9.  In a session that holds a workflow or none yet, [get_workflow]
    returns the workflow of the session and constructs one only when there
    is none.  The scraper of the result is the argument when it is not
    [None] and the scraper it had otherwise, likewise for the analyzer;
    the stored results and every other key of the session are as before.
    Over any sequence of calls at most one workflow is constructed, and
    none when the session had one. *)
Theorem get_workflow_frame sa aa args (s : State) :
  workflow_entry_ok s ->
  (exists s' w',
     get_workflow sa aa s = (s', Ok w') /\
     session s' !! "workflow" = Some (VWorkflow w') /\
     scraper w' = match sa with Some _ => sa | None => scraper (workflow_entry s) end /\
     analyzer w' = match aa with Some _ => aa | None => analyzer (workflow_entry s) end /\
     scrapes w' = scrapes (workflow_entry s) /\
     analyses w' = analyses (workflow_entry s) /\
     (forall k, k <> "workflow" -> session s' !! k = session s !! k) /\
     world s' = world s /\
     log s' = log s ++ new_workflow_events s sa aa) /\
  (exists s' evs,
     get_workflow_calls args s = (s', Ok tt) /\
     log s' = log s ++ evs /\
     length (filter (fun e => is_new_workflow e = true) evs) <= 1 /\
     (is_Some (session s !! "workflow") -> evs = [])).
Proof.
  intros Hok. split.
  - eexists _, _. split; [by apply get_workflow_ok|].
    cbn [session world log scraper analyzer scrapes analyses override].
    split; [apply lookup_insert_eq|].
    repeat (split; [done|]).
    split; [|done]. intros k Hk. by rewrite lookup_insert_ne.
  - destruct args as [|[sa0 aa0] rest].
    + exists s, []. simpl. rewrite app_nil_r. repeat split; auto.
    + simpl. rewrite (bind_ok _ _ _ _ _ (get_workflow_ok s sa0 aa0 Hok)).
      match goal with |- context [get_workflow_calls rest ?s1] => set (s1' := s1) end.
      destruct (get_workflow_calls_present rest s1' (override sa0 aa0 (workflow_entry s)))
        as (s' & w' & Hrun & _ & Hlog); [apply lookup_insert_eq|].
      exists s'. eexists. split; [exact Hrun|]. rewrite Hlog. cbn [log s1'].
      split; [done|]. unfold new_workflow_events.
      destruct (session s !! "workflow"); simpl.
      * split; [lia|done].
      * split; [done|]. by intros [? ?].
Qed.

(** ** The scrape run *)

Section Runner.

Variable scrape_work : option Component -> string -> World -> World * Outcome.
Variable analyze_work : option Component -> ScrapeRow -> World -> World * Outcome.
Variable capture : Exn -> string.

Lemma scrape_generator_next_ok (s : State) w l x o :
  session s !! "workflow" = Some (VWorkflow w) ->
  scrape_work (scraper w) l (world s) = (x, o) ->
  scrape_generator_next scrape_work capture l s =
  ({| session := <["workflow" :=
                     VWorkflow (set_scrapes (scrapes w ++ [scrape_row capture l o]) w)]>
                   (session s);
      world := x; log := log s |}, Ok (scrape_row capture l o)).
Proof.
  intros Hw Hx. unfold scrape_generator_next.
  rewrite (bind_ok _ _ _ _ _ (workflow_read_ok s w Hw)).
  unfold bind at 1, get_world at 1. rewrite Hx.
  unfold bind at 1, set_world at 1.
  erewrite bind_ok; [|by apply (workflow_update_ok _ w)].
  done.
Qed.

Lemma scrape_for_ok n todo : forall acc (s : State) w,
  session s !! "workflow" = Some (VWorkflow w) ->
  (todo = [] \/ n <> 0) ->
  scrape_for scrape_work capture n todo acc s =
  (let '(x, os) := scrape_outcomes scrape_work (scraper w) todo (world s) in
   {| session := <["workflow" :=
                     VWorkflow (set_scrapes
                                  (scrapes w ++ zip_with (scrape_row capture) todo os) w)]>
                   (session s);
      world := x;
      log := log s ++ map EvProgress (progress_values n acc (length todo)) |},
   Ok (acc + length todo)).
Proof.
  induction todo as [|l rest IH]; intros acc s w Hw Hn.
  - simpl. unfold ret. destruct s as [ses x lg]; simpl in *.
    rewrite !app_nil_r. rewrite Nat.add_0_r. f_equal. f_equal.
    rewrite insert_id; [done|]. rewrite Hw. by destruct w.
  - destruct Hn as [|Hn]; [done|].
    simpl.
    destruct (scrape_work (scraper w) l (world s)) as [x1 o] eqn:Ework.
    rewrite (bind_ok _ _ _ _ _ (scrape_generator_next_ok s w l x1 o Hw Ework)).
    destruct n as [|n']; [done|]. unfold py_truediv, ret at 1.
    unfold bind at 1. unfold bind at 1, emit at 1.
    erewrite IH; [|simpl; apply lookup_insert_eq|by right].
    simpl. destruct (scrape_outcomes scrape_work (scraper w) rest x1) as [x2 os] eqn:Eo.
    f_equal; [|f_equal; lia].
    f_equal.
    + rewrite insert_insert_eq. by rewrite <- app_assoc.
    + rewrite <- app_assoc. simpl. unfold progress_values. simpl.
      replace (acc + 1) with (S acc) by lia. done.
Qed.

Lemma run_scrape_ready (s : State) key c links :
  session s !! py_str_key key = Some (VTuple c (Some READY)) ->
  session s !! "links_df" = Some (VLinks links) ->
  workflow_entry_ok s ->
  run_scrape_section scrape_work capture key true s =
  (let w1 := override c None (workflow_entry s) in
   let '(x, os) := scrape_outcomes scrape_work (scraper w1) links (world s) in
   let rows := zip_with (scrape_row capture) links os in
   {| session := <["scrapes_df" := VScrapes rows]>
                   (<["workflow" := VWorkflow (set_scrapes rows w1)]>
                      (<["run_scrape" := VBool true]> (session s)));
      world := x;
      log := log s ++ new_workflow_events s c None
               ++ [EvButton "Scrape" false; EvProgress 0; EvClearScrapes;
                   EvScrapeGenerator links true]
               ++ map EvProgress (progress_values (length links) 0 (length links))
               ++ [EvProgressEmpty]
               ++ match rows with
                  | [] => []
                  | _ :: _ => [EvDataframe "scrape_dataframe"]
                  end |},
   Ok tt).
Proof.
  intros Hslot Hlinks Hwf. unfold run_scrape_section.
  unfold bind at 1, session_get at 1. rewrite Hslot. simpl default.
  unfold bind at 1, unpack2 at 1, ret at 1. cbn [fst snd].
  rewrite (bind_ok _ _ _ _ _ (get_workflow_ok s c None Hwf)).
  set (w1 := override c None (workflow_entry s)).
  rewrite ?bind_assoc, (bind_ok _ _ _ _ _ (st_button_ok _ _ _ _ _)).
  cbn [session world log is_ready status_eqb negb andb].
  rewrite button_under_workflow by done.
  mstep. cbn [session world log].
  rewrite !lookup_insert_ne by done. rewrite Hlinks. simpl default.
  mstep. mstep. cbn [session world log].
  unfold clear_scrapes, scrape_generator_start.
  mstep. cbn [session world log].
  rewrite ?bind_assoc.
  erewrite bind_ok; [|apply workflow_update_ok; cbn [session]; apply lookup_insert_eq].
  cbn [session world log]. rewrite insert_insert_eq.
  mstep. cbn [session world log].
  rewrite ?bind_assoc.
  erewrite bind_ok; [|apply workflow_update_ok; cbn [session]; apply lookup_insert_eq].
  cbn [session world log]. rewrite insert_insert_eq.
  rewrite ?bind_assoc.
  erewrite bind_ok;
    [|apply scrape_for_ok;
      [cbn [session]; apply lookup_insert_eq
      |destruct links; [by left|by right]]].
  cbn [session world log scraper scrapes set_scrapes].
  destruct (scrape_outcomes scrape_work (scraper w1) links (world s)) as [x os] eqn:Eo.
  cbn [session world log]. rewrite insert_insert_eq.
  mstep. cbn [session world log].
  unfold get_scrapes.
  rewrite ?bind_assoc.
  erewrite bind_ok; [|apply workflow_read_ok; cbn [session]; apply lookup_insert_eq].
  mstep. cbn [scrapes set_scrapes app].
  replace (bool_decide ("df" ∈ scrapes_columns)) with false by (by vm_compute).
  mstep. mstep. cbn [session world log is_ready status_eqb negb].
  mstep. mstep. cbn [session world log].
  rewrite lookup_insert_eq. simpl default.
  set (rows := zip_with (scrape_row capture) links os).
  replace (set_scrapes rows (set_scrapes [] (set_scrapes [] w1)))
    with (set_scrapes rows w1) by done.
  destruct rows as [|r rows']; unfold ret, emit;
    cbv beta iota delta [from_option id];
    cbn [session world log]; do 2 f_equal; by log_norm.
Qed.

(** ** The analysis run *)

Lemma analyze_generator_next_ok (s : State) w r x o :
  session s !! "workflow" = Some (VWorkflow w) ->
  analyze_work (analyzer w) r (world s) = (x, o) ->
  analyze_generator_next analyze_work capture r s =
  ({| session := <["workflow" :=
                     VWorkflow (set_analyses (analyses w ++ [analysis_row capture r o]) w)]>
                   (session s);
      world := x; log := log s |}, Ok (analysis_row capture r o)).
Proof.
  intros Hw Hx. unfold analyze_generator_next.
  rewrite (bind_ok _ _ _ _ _ (workflow_read_ok s w Hw)).
  unfold bind at 1, get_world at 1. rewrite Hx.
  unfold bind at 1, set_world at 1.
  erewrite bind_ok; [|by apply (workflow_update_ok _ w)].
  done.
Qed.

Lemma analyze_for_ok n todo : forall acc (s : State) w,
  session s !! "workflow" = Some (VWorkflow w) ->
  (todo = [] \/ n <> 0) ->
  analyze_for analyze_work capture n todo acc s =
  (let '(x, os) := analyze_outcomes analyze_work (analyzer w) todo (world s) in
   {| session := <["workflow" :=
                     VWorkflow (set_analyses
                                  (analyses w ++ zip_with (analysis_row capture) todo os) w)]>
                   (session s);
      world := x;
      log := log s ++ map EvProgress (progress_values n acc (length todo)) |},
   Ok (acc + length todo)).
Proof.
  induction todo as [|r rest IH]; intros acc s w Hw Hn.
  - simpl. unfold ret. destruct s as [ses x lg]; simpl in *.
    rewrite !app_nil_r. rewrite Nat.add_0_r. f_equal. f_equal.
    rewrite insert_id; [done|]. rewrite Hw. by destruct w.
  - destruct Hn as [|Hn]; [done|].
    simpl.
    destruct (analyze_work (analyzer w) r (world s)) as [x1 o] eqn:Ework.
    rewrite (bind_ok _ _ _ _ _ (analyze_generator_next_ok s w r x1 o Hw Ework)).
    destruct n as [|n']; [done|]. unfold py_truediv, ret at 1.
    unfold bind at 1. unfold bind at 1, emit at 1.
    erewrite IH; [|simpl; apply lookup_insert_eq|by right].
    simpl. destruct (analyze_outcomes analyze_work (analyzer w) rest x1) as [x2 os] eqn:Eo.
    f_equal; [|f_equal; lia].
    f_equal.
    + rewrite insert_insert_eq. by rewrite <- app_assoc.
    + rewrite <- app_assoc. simpl. unfold progress_values. simpl.
      replace (acc + 1) with (S acc) by lia. done.
Qed.

Lemma run_analyze_ready (s : State) key a :
  session s !! py_str_key key = Some (VTuple a (Some READY)) ->
  workflow_entry_ok s ->
  run_analyze_section analyze_work capture key true s =
  (let w1 := override None a (workflow_entry s) in
   let inputs := scrapes w1 in
   let '(x, os) := analyze_outcomes analyze_work (analyzer w1) inputs (world s) in
   let rows := zip_with (analysis_row capture) inputs os in
   {| session := <["analysis_df" := VAnalyses rows]>
                   (<["workflow" := VWorkflow (set_analyses rows w1)]>
                      (<["run_analyze" := VBool true]> (session s)));
      world := x;
      log := log s ++ new_workflow_events s None a
               ++ [EvButton "Analyze" false; EvClearAnalyses; EvProgress 0;
                   EvAnalyzeGenerator true]
               ++ map EvProgress (progress_values (length inputs) 0 (length inputs))
               ++ [EvProgressEmpty]
               ++ match rows with
                  | [] => []
                  | _ :: _ => [EvDataframe "analyze_dataframe"]
                  end |},
   Ok tt).
Proof.
  intros Hslot Hwf. unfold run_analyze_section.
  unfold bind at 1, session_get at 1. rewrite Hslot. simpl default.
  unfold bind at 1, unpack2 at 1, ret at 1. cbn [fst snd].
  rewrite (bind_ok _ _ _ _ _ (get_workflow_ok s None a Hwf)).
  set (w1 := override None a (workflow_entry s)).
  rewrite ?bind_assoc, (bind_ok _ _ _ _ _ (st_button_ok _ _ _ _ _)).
  cbn [session world log is_ready status_eqb negb andb].
  rewrite button_under_workflow by done.
  unfold clear_analyses, analyze_generator_start, get_scrapes.
  mstep. cbn [session world log].
  rewrite ?bind_assoc.
  erewrite bind_ok; [|apply workflow_update_ok; cbn [session]; apply lookup_insert_eq].
  cbn [session world log]. rewrite insert_insert_eq.
  mstep. cbn [session world log].
  rewrite ?bind_assoc.
  erewrite bind_ok; [|apply workflow_read_ok; cbn [session]; apply lookup_insert_eq].
  mstep. mstep. cbn [session world log].
  rewrite ?bind_assoc.
  erewrite bind_ok; [|apply workflow_update_ok; cbn [session]; apply lookup_insert_eq].
  cbn [session world log]. rewrite insert_insert_eq.
  rewrite ?bind_assoc.
  erewrite bind_ok; [|apply workflow_read_ok; cbn [session]; apply lookup_insert_eq].
  mstep. cbn [scrapes set_analyses].
  rewrite ?bind_assoc.
  erewrite bind_ok;
    [|apply analyze_for_ok;
      [cbn [session]; apply lookup_insert_eq
      |destruct (scrapes w1); [by left|by right]]].
  cbn [session world log analyzer analyses set_analyses].
  destruct (analyze_outcomes analyze_work (analyzer w1) (scrapes w1) (world s))
    as [x os] eqn:Eo.
  cbn [session world log]. rewrite insert_insert_eq.
  mstep. cbn [session world log].
  unfold get_analyses.
  rewrite ?bind_assoc.
  erewrite bind_ok; [|apply workflow_read_ok; cbn [session]; apply lookup_insert_eq].
  mstep. cbn [analyses set_analyses app].
  mstep. cbn [session world log is_ready status_eqb negb].
  mstep. mstep. cbn [session world log].
  rewrite lookup_insert_eq.
  set (rows := zip_with (analysis_row capture) (scrapes w1) os).
  replace (set_analyses rows (set_analyses [] (set_analyses [] w1)))
    with (set_analyses rows w1) by done.
  replace (bool_decide ("analysis_success" ∈ analyses_columns)) with true
    by (by vm_compute).
  destruct rows as [|r rows']; unfold ret, emit;
    cbv beta iota delta [from_option id];
    cbn [session world log]; do 2 f_equal; by log_norm.
Qed.

(** ** The readiness gate *)

Lemma is_ready_spec status : is_ready status = true <-> status = Some READY.
Proof. destruct status as [[]|]; simpl; split; congruence. Qed.

Lemma emits_scrape_generator_next (P : Event Component Config Schema -> Prop) l :
  emits P (scrape_generator_next scrape_work capture l : Act _).
Proof.
  unfold scrape_generator_next.
  apply emits_bind; [auto with emits|]. intros w.
  apply emits_bind; [auto with emits|]. intros x.
  destruct (scrape_work (scraper w) l x). auto with emits.
Qed.

Lemma emits_analyze_generator_next (P : Event Component Config Schema -> Prop) r :
  emits P (analyze_generator_next analyze_work capture r : Act _).
Proof.
  unfold analyze_generator_next.
  apply emits_bind; [auto with emits|]. intros w.
  apply emits_bind; [auto with emits|]. intros x.
  destruct (analyze_work (analyzer w) r x). auto with emits.
Qed.

Lemma emits_py_truediv (P : Event Component Config Schema -> Prop) acc n :
  emits P (py_truediv acc n : Act _).
Proof. destruct n; simpl; auto with emits. Qed.

#[local] Hint Resolve emits_scrape_generator_next emits_analyze_generator_next
  emits_py_truediv emits_emit emits_get_workflow : emits.

Lemma emits_scrape_for (P : Event Component Config Schema -> Prop) n todo :
  (forall v, P (EvProgress v)) ->
  forall acc, emits P (scrape_for scrape_work capture n todo acc : Act _).
Proof.
  intros HP. induction todo as [|l rest IH]; intros acc; simpl; auto 10 with emits.
Qed.

Lemma emits_analyze_for (P : Event Component Config Schema -> Prop) n todo :
  (forall v, P (EvProgress v)) ->
  forall acc, emits P (analyze_for analyze_work capture n todo acc : Act _).
Proof.
  intros HP. induction todo as [|r rest IH]; intros acc; simpl; auto 10 with emits.
Qed.

Lemma emits_at {A} (P Q : Event Component Config Schema -> Prop) (m : Act A) s :
  emits P m -> (forall e, P e -> Q e) ->
  exists evs, log (fst (m s)) = log s ++ evs /\ Forall Q evs.
Proof.
  intros Hm HPQ. destruct (Hm s) as (evs & E & F). exists evs. split; [done|].
  eapply Forall_impl; eauto.
Qed.

Lemma emits_st_button (P : Event Component Config Schema -> Prop)
      label key disabled clicked :
  P (EvButton label disabled) ->
  emits P (st_button label key disabled clicked : Act _).
Proof.
  intros HP s. rewrite st_button_ok. exists [EvButton label disabled].
  split; [done|]. by constructor.
Qed.

(** A disabled button is never pressed. *)
Lemma emits_bind_disabled {B} (P : Event Component Config Schema -> Prop)
      label key clicked (k : bool -> Act B) :
  P (EvButton label true) -> emits P (k false) ->
  emits P (bind (st_button label key true clicked) k).
Proof.
  intros HP Hk s. rewrite (bind_ok _ _ _ _ _ (st_button_ok _ _ _ _ _)).
  simpl negb. rewrite andb_false_r.
  destruct (Hk {| session := <[key := VBool false]> (session s); world := world s;
                  log := log s ++ [EvButton label true] |}) as (evs & E & F).
  exists (EvButton label true :: evs). split; [|by constructor].
  rewrite E. simpl. by rewrite <- app_assoc.
Qed.

Ltac emits_step :=
  match goal with
  | |- emits _ (bind (st_button _ _ true _) _) => apply emits_bind_disabled
  | |- emits _ (bind _ _) => apply emits_bind
  | |- emits _ (st_button _ _ _ _) => apply emits_st_button
  | |- emits _ (if _ then _ else _) => apply emits_if
  | |- emits _ (match ?v with _ => _ end) => destruct v
  | |- emits _ (emit _) => apply emits_emit
  | |- emits _ (scrape_for _ _ _ _ _) => apply emits_scrape_for
  | |- emits _ (analyze_for _ _ _ _ _) => apply emits_analyze_for
  | |- emits _ (get_workflow _ _) => apply emits_get_workflow
  | |- emits _ _ => solve [auto with emits]
  | |- forall _, _ => intros ?
  end.

Lemma respects_gate_ready st (e : Event Component Config Schema) :
  is_ready st = true -> while_ready e -> respects_gate st e.
Proof.
  intros Hr. apply is_ready_spec in Hr. subst st.
  destruct e; simpl; auto. intros ->. split; [done|congruence].
Qed.

Lemma respects_gate_idle st (e : Event Component Config Schema) :
  is_ready st = false -> while_idle e -> respects_gate st e.
Proof.
  intros Hr.
  assert (st <> Some READY) by (rewrite <- is_ready_spec; congruence).
  destruct e; simpl; try congruence. by intros ->.
Qed.

Lemma scrape_section_gated key clicked (s : State) :
  exists evs,
    log (fst (run_scrape_section scrape_work capture key clicked s)) = log s ++ evs /\
    Forall (respects_gate (stored_status s key)) evs.
Proof.
  unfold run_scrape_section, stored_status, slot_value.
  unfold bind at 1, session_get at 1.
  destruct (default (VTuple None None) (session s !! py_str_key key))
    as [|c st| | | | | | |] eqn:Hv;
    try (exists []; split; [by rewrite app_nil_r|by constructor]).
  unfold bind at 1, unpack2 at 1, ret at 1. cbn [fst snd].
  unfold clear_scrapes, scrape_generator_start, get_scrapes.
  destruct (is_ready st) eqn:Hr.
  - apply (emits_at while_ready); [|intros e; by apply respects_gate_ready].
    repeat emits_step; by simpl.
  - apply (emits_at while_idle); [|intros e; by apply respects_gate_idle].
    simpl negb. repeat emits_step; by simpl.
Qed.

Lemma analyze_section_gated key clicked (s : State) :
  exists evs,
    log (fst (run_analyze_section analyze_work capture key clicked s)) = log s ++ evs /\
    Forall (respects_gate (stored_status s key)) evs.
Proof.
  unfold run_analyze_section, stored_status, slot_value.
  unfold bind at 1, session_get at 1.
  destruct (default (VTuple None None) (session s !! py_str_key key))
    as [|c st| | | | | | |] eqn:Hv;
    try (exists []; split; [by rewrite app_nil_r|by constructor]).
  unfold bind at 1, unpack2 at 1, ret at 1. cbn [fst snd].
  unfold clear_analyses, analyze_generator_start, get_scrapes, get_analyses.
  destruct (is_ready st) eqn:Hr.
  - apply (emits_at while_ready); [|intros e; by apply respects_gate_ready].
    repeat emits_step; by simpl.
  - apply (emits_at while_idle); [|intros e; by apply respects_gate_idle].
    simpl negb. repeat emits_step; by simpl.
Qed.

Lemma emits_anything {A} (m : Act A) (s : State) :
  emits any_event m -> exists evs, log (fst (m s)) = log s ++ evs.
Proof. intros H. destruct (H s) as (evs & E & _). by exists evs. Qed.

(** A section whose slot and workflow can be read renders its button. *)
Lemma scrape_button_rendered key clicked (s : State) :
  is_tuple (slot_value s (py_str_key key)) ->
  workflow_entry_ok s ->
  exists before disabled after,
    log (fst (run_scrape_section scrape_work capture key clicked s))
      = log s ++ before ++ EvButton "Scrape" disabled :: after.
Proof.
  intros (c & st & Hslot) Hwf. unfold run_scrape_section, slot_value in *.
  unfold bind at 1, session_get at 1. rewrite Hslot.
  unfold bind at 1, unpack2 at 1, ret at 1. cbn [fst snd].
  rewrite (bind_ok _ _ _ _ _ (get_workflow_ok s c None Hwf)).
  rewrite (bind_ok _ _ _ _ _ (st_button_ok _ _ _ _ _)).
  cbn [session world log].
  match goal with |- context [log (fst (?m ?s1))] =>
    destruct (emits_anything m s1) as (evs & E) end.
  { unfold clear_scrapes, scrape_generator_start, get_scrapes.
    repeat emits_step; by simpl. }
  rewrite E. cbn [log].
  exists (new_workflow_events s c None), (negb (is_ready st)), evs. by log_norm.
Qed.

Lemma analyze_button_rendered key clicked (s : State) :
  is_tuple (slot_value s (py_str_key key)) ->
  workflow_entry_ok s ->
  exists before disabled after,
    log (fst (run_analyze_section analyze_work capture key clicked s))
      = log s ++ before ++ EvButton "Analyze" disabled :: after.
Proof.
  intros (c & st & Hslot) Hwf. unfold run_analyze_section, slot_value in *.
  unfold bind at 1, session_get at 1. rewrite Hslot.
  unfold bind at 1, unpack2 at 1, ret at 1. cbn [fst snd].
  rewrite (bind_ok _ _ _ _ _ (get_workflow_ok s None c Hwf)).
  rewrite (bind_ok _ _ _ _ _ (st_button_ok _ _ _ _ _)).
  cbn [session world log].
  match goal with |- context [log (fst (?m ?s1))] =>
    destruct (emits_anything m s1) as (evs & E) end.
  { unfold clear_analyses, analyze_generator_start, get_scrapes, get_analyses.
    repeat emits_step; by simpl. }
  rewrite E. cbn [log].
  exists (new_workflow_events s None c), (negb (is_ready st)), evs. by log_norm.
Qed.

(** C2.  Whatever the session holds and whether or not the user acted on
    the button, every Scrape (respectively Analyze) button rendered by the
    section is disabled exactly when the status stored in the selected
    slot is not [READY], and the section calls [clear_scrapes] or
    [scrape_generator] (respectively [clear_analyses] or
    [analyze_generator]) only when that stored status is [READY].  The
    button is rendered on every cycle on which the slot and the workflow
    of the session can be read. *)
Theorem run_is_gated scraper_key analyzer_key clicked (s : State) :
  (exists evs,
     log (fst (run_scrape_section scrape_work capture scraper_key clicked s))
       = log s ++ evs /\
     Forall (respects_gate (stored_status s scraper_key)) evs /\
     (is_tuple (slot_value s (py_str_key scraper_key)) /\ workflow_entry_ok s ->
      exists disabled, EvButton "Scrape" disabled ∈ evs)) /\
  (exists evs,
     log (fst (run_analyze_section analyze_work capture analyzer_key clicked s))
       = log s ++ evs /\
     Forall (respects_gate (stored_status s analyzer_key)) evs /\
     (is_tuple (slot_value s (py_str_key analyzer_key)) /\ workflow_entry_ok s ->
      exists disabled, EvButton "Analyze" disabled ∈ evs)).
Proof.
  split.
  - destruct (scrape_section_gated scraper_key clicked s) as (evs & E & F).
    exists evs. split; [done|]. split; [done|]. intros [Hslot Hwf].
    destruct (scrape_button_rendered scraper_key clicked s Hslot Hwf)
      as (before & d & after & E').
    rewrite E in E'. apply app_inv_head in E'. subst evs.
    exists d. rewrite elem_of_app, elem_of_cons. auto.
  - destruct (analyze_section_gated analyzer_key clicked s) as (evs & E & F).
    exists evs. split; [done|]. split; [done|]. intros [Hslot Hwf].
    destruct (analyze_button_rendered analyzer_key clicked s Hslot Hwf)
      as (before & d & after & E').
    rewrite E in E'. apply app_inv_head in E'. subst evs.
    exists d. rewrite elem_of_app, elem_of_cons. auto.
Qed.

(** ** What a run leaves behind *)

Lemma omap_progress_of_progress (vs : list Q) :
  omap progress_of (map (@EvProgress Component Config Schema) vs) = vs.
Proof. induction vs as [|v vs IH]; [done|]. simpl. by f_equal. Qed.

Lemma omap_progress_of_new_workflow (s : State) sa aa :
  omap progress_of (new_workflow_events s sa aa) = [].
Proof. unfold new_workflow_events. by destruct (session s !! "workflow"). Qed.

(** The values a run shows on its progress bar. *)
Lemma run_progress_values (lg : list (Event Component Config Schema)) nwe label
      (before : list (Event Component Config Schema)) vs tail :
  omap progress_of nwe = [] ->
  omap progress_of before = [0%Q] ->
  omap progress_of tail = [] ->
  omap progress_of
       (drop (length lg)
             (lg ++ nwe ++ (EvButton label false :: before)
                 ++ map EvProgress vs ++ [EvProgressEmpty] ++ tail))
  = 0%Q :: vs.
Proof.
  intros H1 H2 H3. rewrite drop_app_length.
  rewrite !omap_app, H1, H3, omap_progress_of_progress.
  change (omap progress_of (EvButton label false :: before))
    with (omap progress_of before).
  rewrite H2. simpl. by rewrite app_nil_r.
Qed.

Lemma scrape_outcomes_length c links : forall x,
  length (snd (scrape_outcomes scrape_work c links x)) = length links.
Proof.
  induction links as [|l rest IH]; intros x; [done|]. simpl.
  destruct (scrape_work c l x) as [x1 o]. specialize (IH x1).
  destruct (scrape_outcomes scrape_work c rest x1). simpl in *. by rewrite IH.
Qed.

Lemma analyze_outcomes_length c inputs : forall x,
  length (snd (analyze_outcomes analyze_work c inputs x)) = length inputs.
Proof.
  induction inputs as [|r rest IH]; intros x; [done|]. simpl.
  destruct (analyze_work c r x) as [x1 o]. specialize (IH x1).
  destruct (analyze_outcomes analyze_work c rest x1). simpl in *. by rewrite IH.
Qed.

(** C3.  A press of Scrape on a ready slot first calls [clear_scrapes] and
    then drives [scrape_generator(links, overwrite=True)]; whatever the
    workflow and the session held from earlier runs, the table stored
    under ["scrapes_df"], which is the table of the workflow, has one row
    per link of this run.  Likewise a press of Analyze calls
    [clear_analyses], then drives [analyze_generator(overwrite=True)], and
    the table stored under ["analysis_df"] has one row per scrape the
    workflow holds. *)
Theorem overwrite_run_replaces_results skey akey c a links (s t : State) :
  session s !! py_str_key skey = Some (VTuple c (Some READY)) ->
  session s !! "links_df" = Some (VLinks links) ->
  workflow_entry_ok s ->
  session t !! py_str_key akey = Some (VTuple a (Some READY)) ->
  workflow_entry_ok t ->
  (exists s' rows progress tail,
     run_scrape_section scrape_work capture skey true s = (s', Ok tt) /\
     log s' = log s ++ new_workflow_events s c None
                ++ [EvButton "Scrape" false; EvProgress 0; EvClearScrapes;
                    EvScrapeGenerator links true]
                ++ map EvProgress progress ++ EvProgressEmpty :: tail /\
     session s' !! "scrapes_df" = Some (VScrapes rows) /\
     scrapes (workflow_entry s') = rows /\
     length rows = length links) /\
  (exists t' rows progress tail,
     run_analyze_section analyze_work capture akey true t = (t', Ok tt) /\
     log t' = log t ++ new_workflow_events t None a
                ++ [EvButton "Analyze" false; EvClearAnalyses; EvProgress 0;
                    EvAnalyzeGenerator true]
                ++ map EvProgress progress ++ EvProgressEmpty :: tail /\
     session t' !! "analysis_df" = Some (VAnalyses rows) /\
     analyses (workflow_entry t') = rows /\
     length rows = length (scrapes (workflow_entry t))).
Proof.
  intros Hs Hl Hws Ht Hwt. split.
  - rewrite (run_scrape_ready s skey c links Hs Hl Hws). cbn zeta.
    pose proof (scrape_outcomes_length
                  (scraper (override c None (workflow_entry s))) links (world s)) as Hlen.
    destruct (scrape_outcomes _ _ links (world s)) as [x os]. simpl in Hlen.
    eexists _, _, _, _. split; [done|]. cbn [session log].
    split; [done|]. split; [apply lookup_insert_eq|].
    split.
    + unfold workflow_entry. cbn [session].
      rewrite lookup_insert_ne by done. by rewrite lookup_insert_eq.
    + rewrite length_zip_with. lia.
  - rewrite (run_analyze_ready t akey a Ht Hwt). cbn zeta.
    pose proof (analyze_outcomes_length
                  (analyzer (override None a (workflow_entry t)))
                  (scrapes (override None a (workflow_entry t))) (world t)) as Hlen.
    destruct (analyze_outcomes _ _ _ (world t)) as [x os]. simpl in Hlen.
    eexists _, _, _, _. split; [done|]. cbn [session log].
    split; [done|]. split; [apply lookup_insert_eq|].
    split.
    + unfold workflow_entry. cbn [session].
      rewrite lookup_insert_ne by done. by rewrite lookup_insert_eq.
    + rewrite length_zip_with. cbn [override scrapes] in *. lia.
Qed.





(** ** The progress bar *)

Lemma progress_values_lt n : Forall (fun v => (v < 1)%Q) (progress_values n 0 n).
Proof.
  unfold progress_values. apply Forall_map, Forall_seq. intros j Hj.
  destruct n as [|m]; [lia|].
  unfold Qlt. cbn [Qnum Qden]. rewrite <- Pos.of_nat_succ, Zpos_P_of_succ_nat. lia.
Qed.

Lemma progress_values_last n :
  n <> 0 -> last (progress_values n 0 n) = Some (Z.of_nat (n - 1) # Pos.of_nat n).
Proof.
  intros Hn. destruct n as [|m]; [done|]. unfold progress_values.
  rewrite seq_S, map_app. cbn [map]. rewrite last_snoc.
  by rewrite Nat.add_0_l, Nat.sub_succ, Nat.sub_0_r.
Qed.

(** C6 (what the code does where the claim fails).  The loop of a run
    shows [acc / total] before it counts the item just yielded.  A press
    of Scrape on a ready slot over [N] links shows [0], then [0/N], [1/N],
    ..., [(N-1)/N] and removes the bar; a press of Analyze does the same
    over the scrapes of the workflow.  Every value shown is below 1, the
    last one being [(N-1)/N]: the bar never shows 100%. *)
Theorem progress_stops_short skey akey c a links (s t : State) :
  session s !! py_str_key skey = Some (VTuple c (Some READY)) ->
  session s !! "links_df" = Some (VLinks links) ->
  workflow_entry_ok s ->
  session t !! py_str_key akey = Some (VTuple a (Some READY)) ->
  workflow_entry_ok t ->
  (exists s',
     run_scrape_section scrape_work capture skey true s = (s', Ok tt) /\
     omap progress_of (drop (length (log s)) (log s'))
       = 0%Q :: progress_values (length links) 0 (length links)) /\
  (exists t',
     run_analyze_section analyze_work capture akey true t = (t', Ok tt) /\
     let n := length (scrapes (workflow_entry t)) in
     omap progress_of (drop (length (log t)) (log t')) = 0%Q :: progress_values n 0 n) /\
  (forall n, Forall (fun v => (v < 1)%Q) (0%Q :: progress_values n 0 n) /\
             (n <> 0 ->
              last (progress_values n 0 n) = Some (Z.of_nat (n - 1) # Pos.of_nat n))).
Proof.
  intros Hs Hl Hws Ht Hwt. split; [|split].
  - rewrite (run_scrape_ready s skey c links Hs Hl Hws). cbn zeta.
    destruct (scrape_outcomes _ _ links (world s)) as [x os].
    eexists. split; [done|]. cbn [log].
    apply (run_progress_values (log s) (new_workflow_events s c None) "Scrape"
             [EvProgress 0; EvClearScrapes; EvScrapeGenerator links true]);
      [apply omap_progress_of_new_workflow|done|by destruct (zip_with _ _ _)].
  - rewrite (run_analyze_ready t akey a Ht Hwt). cbn zeta.
    destruct (analyze_outcomes _ _ _ (world t)) as [x os].
    eexists. split; [done|]. cbn [log override scrapes].
    apply (run_progress_values (log t) (new_workflow_events t None a) "Analyze"
             [EvClearAnalyses; EvProgress 0; EvAnalyzeGenerator true]);
      [apply omap_progress_of_new_workflow|done|by destruct (zip_with _ _ _)].
  - intros n. split; [|apply progress_values_last].
    constructor; [done|apply progress_values_lt].
Qed.

End Runner.

End LifecycleProofs.

(** * The default links *)

Module DefaultConfigProofs.
Import DefaultConfig.

Lemma caller_init_inv : caller_inv caller_init.
Proof.
  split; simpl.
  - apply lookup_singleton_eq.
  - apply not_elem_of_nil.
  - constructor.
  - intros r Hr. by apply not_elem_of_nil in Hr.
  - constructor.
Qed.

Lemma get_default_links_fresh h :
  h !! _default_links = Some default_links_value ->
  let r := fresh (dom h) in
  get_default_links h = Some (<[r := default_links_value]> h, r) /\
  (r ∉ dom h) /\ r <> _default_links.
Proof.
  intros Hg r. unfold get_default_links, list_copy. rewrite Hg.
  split; [done|]. split; [apply is_fresh|].
  intros Heq. apply (is_fresh (dom h)). fold r. rewrite Heq.
  apply elem_of_dom. eauto.
Qed.

Lemma caller_step_inv c a : caller_inv c -> caller_inv (caller_step c a).
Proof.
  intros [Hg Hp Hd Ha Ho]. destruct a as [|i items]; simpl.
  - destruct (get_default_links_fresh (heap c) Hg) as (-> & Hfresh & Hne).
    split; simpl.
    + by rewrite lookup_insert_ne.
    + rewrite elem_of_app, list_elem_of_singleton. intros [|]; [done|congruence].
    + apply NoDup_app. split; [done|]. split; [|apply NoDup_singleton].
      intros r Hr Hr'. apply list_elem_of_singleton in Hr'. subst r.
      by apply Hfresh, Ha.
    + intros r. rewrite elem_of_app, list_elem_of_singleton, dom_insert_L.
      intros [Hr| ->]; [|set_solver]. apply Ha in Hr. set_solver.
    + apply Forall_app. split; [done|]. constructor; [|done].
      by rewrite lookup_insert_eq.
  - destruct (returned c !! i) as [r|] eqn:Hr; [|by split].
    assert (r ∈ returned c) by (by eapply list_elem_of_lookup_2).
    split; simpl; try done.
    + rewrite lookup_insert_ne; [done|]. intros ->. by apply Hp.
    + intros r' Hr'. rewrite dom_insert_L. apply Ha in Hr'. set_solver.
Qed.

Lemma caller_step_observed c a :
  caller_inv c ->
  length (observed (caller_step c a)) =
  length (observed c) + (if is_call a then 1 else 0).
Proof.
  intros [Hg _ _ _ _]. destruct a as [|i items]; simpl.
  - destruct (get_default_links_fresh (heap c) Hg) as (-> & _ & _). simpl.
    by rewrite length_app.
  - destruct (returned c !! i); simpl; lia.
Qed.

Lemma caller_run_inv actions : forall c,
  caller_inv c ->
  caller_inv (foldl caller_step c actions) /\
  length (observed (foldl caller_step c actions)) =
  length (observed c) + length (filter (fun a => is_call a = true) actions).
Proof.
  induction actions as [|a rest IH]; intros c Hc; cbn [foldl].
  - split; [done|]. simpl. lia.
  - destruct (IH (caller_step c a) (caller_step_inv c a Hc)) as [Hinv Hlen].
    split; [done|]. rewrite Hlen, (caller_step_observed c a Hc).
    destruct a; cbn [is_call].
    + rewrite filter_cons_True by done. simpl. lia.
    + rewrite filter_cons_False by done. lia.
Qed.

(** C10.  Whatever a caller does with the lists it got -- any sequence
    of calls of [get_default_links] and of in-place mutations of the lists
    returned by earlier calls -- every call returns, the list it returns
    holds the seven default links, the lists returned are pairwise
    distinct objects, none of them is the module's own [_default_links],
    and the module's list still holds the seven links. *)
Theorem get_default_links_fresh_copy (actions : list Action) :
  let c := caller_run actions in
  length (observed c) = length (filter (fun a => is_call a = true) actions) /\
  Forall (fun items => items = default_links_value) (observed c) /\
  length default_links_value = 7 /\
  NoDup (returned c) /\
  (_default_links ∉ returned c) /\
  heap c !! _default_links = Some default_links_value.
Proof.
  intros c. subst c. unfold caller_run.
  destruct (caller_run_inv actions caller_init caller_init_inv) as [[Hg Hp Hd Ha Ho] Hlen].
  simpl in Hlen. repeat split; done.
Qed.

End DefaultConfigProofs.

(** * The theorems at work on the example session *)

(** An empty API key is submitted for the OpenAI analyzer in a new session:
    the cycle ends in a [TypeError] and the slot holds [None]. *)
Lemma construction_error_escapes_witness :
  exists s',
    configure_component_loop "Analyzer" Examples.analyzers (Some 0) (Some EmptyString)
                             Examples.fresh
      = (s', Raise (TypeError "cannot unpack non-iterable NoneType object")) /\
    session s' !! "Analyzer_OpenAI Analyzer" = Some VNone.
Proof.
  destruct (construction_error_escapes
              "Analyzer" Examples.analyzers 0 Examples.llm_analyzer
              {| name := "OpenAI Analyzer";
                 description := "Analyzes text using the OpenAI API." |}
              "LlmAnalyzerSchema" EmptyString 0 (Exception "api_key must not be empty")
              Examples.fresh)
    as (s' & Hrun & Hslot & _).
  - reflexivity.
  - reflexivity.
  - by exists None, None.
  - vm_compute. exact I.
  - reflexivity.
  - exists s'. split; [exact Hrun|exact Hslot].
Defined.

(** The text scraper is built on the first cycle of a new session and its
    recomputed status, [READY], is stored with it. *)
Lemma late_update_persists_only_ready_witness :
  exists s',
    configure_component_loop "Scraper" Examples.scrapers (Some 0) None Examples.fresh
      = (s', Ok (Some "Scraper_Text Scraper")) /\
    session s' !! "Scraper_Text Scraper" = Some (VTuple (Some 7) (Some READY)).
Proof.
  eexists. split.
  - apply (late_update_persists_only_ready
             "Scraper" Examples.scrapers 0 Examples.text_scraper
             {| name := "Text Scraper";
                description := "Scrapes visible text from a website." |}
             None 7 (Some READY) Examples.fresh
             {| session := <["Scraper_Text Scraper" := VTuple (Some 7) (Some READY)]> ∅;
                world := 0;
                log := [EvGetComponentAndStatus None] |}).
    + reflexivity.
    + vm_compute. reflexivity.
    + vm_compute. reflexivity.
  - vm_compute. reflexivity.
Defined.

(** The login of the Telegram scraper expires between two cycles: the
    status recomputed on the second cycle is [NOT_READY], yet the slot
    still holds the pair with [READY]. *)
Lemma stale_status_not_persisted :
  exists s',
    render_cycles [S; S] "Scraper" Examples.scrapers (Some 1) Examples.fresh
      = (s', Ok tt) /\
    last (log s') = Some (EvDescription
                            (description_line
                               {| name := "Telegram Message Scraper";
                                  description := "Scrapes messages from a Telegram channel." |}
                               NOT_READY)) /\
    get_component_status Examples.telegram_scraper (Some 9) (world s') = NOT_READY /\
    session s' !! "Scraper_Telegram Message Scraper"
      = Some (VTuple (Some 9) (Some READY)) /\
    session s' !! "Scraper_Telegram Message Scraper"
      <> Some (VTuple (Some 9) (Some NOT_READY)).
Proof.
  eexists. split; [vm_compute; reflexivity|].
  split; [vm_compute; reflexivity|].
  split; [vm_compute; reflexivity|].
  split; [vm_compute; reflexivity|].
  vm_compute. discriminate.
Defined.

(** Two calls in a new session construct one workflow. *)
Lemma get_workflow_frame_witness :
  exists s' evs,
    get_workflow_calls [(Some 7, None); (None, Some 8)] Examples.fresh = (s', Ok tt) /\
    log s' = evs /\
    length (filter (fun e => is_new_workflow e = true) evs) <= 1.
Proof.
  destruct (get_workflow_frame (Some 7) None [(Some 7, None); (None, Some 8)]
                               Examples.fresh)
    as (_ & s' & evs & Hrun & Hlog & Hone & _).
  - vm_compute. exact I.
  - exists s', evs. split; [exact Hrun|]. split; [exact Hlog|exact Hone].
Defined.

(** A run over the three example links after a run over two: three rows. *)
Lemma overwrite_run_replaces_results_witness :
  exists s' rows,
    run_scrape_section Examples.scrape_work Examples.capture
                       (Some "Scraper_Text Scraper") true Examples.configured
      = (s', Ok tt) /\
    session s' !! "scrapes_df" = Some (VScrapes rows) /\
    length rows = 3.
Proof.
  destruct (overwrite_run_replaces_results
              Examples.scrape_work Examples.analyze_work Examples.capture
              (Some "Scraper_Text Scraper") (Some "Analyzer_OpenAI Analyzer")
              (Some 7) (Some 8) Examples.links
              Examples.configured Examples.configured)
    as ((s' & rows & progress & tail & Hrun & _ & Hdf & _ & Hlen) & _).
  - vm_compute. reflexivity.
  - vm_compute. reflexivity.
  - vm_compute. exact I.
  - vm_compute. reflexivity.
  - vm_compute. exact I.
  - exists s', rows. split; [exact Hrun|]. split; [exact Hdf|exact Hlen].
Defined.



(** Over the three example links the bar shows 0, 0, 1/3 and 2/3. *)
Lemma progress_stops_short_witness :
  exists s',
    run_scrape_section Examples.scrape_work Examples.capture
                       (Some "Scraper_Text Scraper") true Examples.configured
      = (s', Ok tt) /\
    omap progress_of (log s') = [0; 0 # 3; 1 # 3; 2 # 3]%Q.
Proof.
  destruct (progress_stops_short
              Examples.scrape_work Examples.analyze_work Examples.capture
              (Some "Scraper_Text Scraper") (Some "Analyzer_OpenAI Analyzer")
              (Some 7) (Some 8) Examples.links
              Examples.configured Examples.configured)
    as ((s' & Hrun & Hvalues) & _).
  - vm_compute. reflexivity.
  - vm_compute. reflexivity.
  - vm_compute. exact I.
  - vm_compute. reflexivity.
  - vm_compute. exact I.
  - exists s'. split; [exact Hrun|exact Hvalues].
Defined.

(** * More of the page *)

(** One step of a run whose first action computes. *)
Ltac run_step := rewrite ?bind_assoc; erewrite bind_ok by reflexivity.

(** Logs are compared with their appends nested to the right. *)
Ltac log_right :=
  repeat first [rewrite <- app_assoc | rewrite <- app_comm_cons | rewrite app_nil_r];
  cbn [app].

Section PageProofs.

Context {World Component Config Schema : Type}.

Local Abbreviation State := (St World Component Config Schema).
Local Abbreviation Act := (M World Component Config Schema).
Local Abbreviation Session := (gmap string (Value Component Config)).

(** ** The session keys *)

Lemma string_append_inj (a b c : string) : a +:+ b = a +:+ c -> b = c.
Proof.
  induction a as [|ch a IH]; [done|].
  change (String ch a +:+ b) with (String ch (a +:+ b)).
  change (String ch a +:+ c) with (String ch (a +:+ c)).
  intros H. apply IH. congruence.
Qed.

Lemma string_append_inj_r (a b c : string) : a +:+ c = b +:+ c -> a = b.
Proof.
  revert b. induction a as [|ch a IH]; intros b H.
  - destruct b as [|ch' b]; [done|].
    apply (f_equal String.length) in H.
    rewrite !string_length_append in H. simpl in H. lia.
  - destruct b as [|ch' b].
    + apply (f_equal String.length) in H.
      rewrite !string_length_append in H. simpl in H. lia.
    + change (String ch a +:+ c) with (String ch (a +:+ c)) in H.
      change (String ch' b +:+ c) with (String ch' (b +:+ c)) in H.
      injection H as -> H. f_equal. by apply IH.
Qed.

Lemma comp_key_inj comp md md' :
  comp_key_of comp md = comp_key_of comp md' -> name md = name md'.
Proof.
  unfold comp_key_of. intros H.
  by apply string_append_inj, string_append_inj in H.
Qed.

(** Strings that start with different characters differ. *)
Ltac by_first_char :=
  let H := fresh in
  intros H;
  apply (f_equal (fun s => match s with String ch _ => Some ch | EmptyString => None end)) in H;
  cbv in H; discriminate.

(** Strings that differ within their first [n] characters differ. *)
Ltac by_prefix n :=
  let H := fresh in
  intros H; apply (f_equal (String.substring 0 n)) in H; cbv in H; discriminate.

Lemma string_append_assoc (a b c : string) : (a +:+ b) +:+ c = a +:+ (b +:+ c).
Proof.
  induction a as [|ch a IH]; [done|].
  change ((String ch a +:+ b) +:+ c) with (String ch ((a +:+ b) +:+ c)).
  change (String ch a +:+ (b +:+ c)) with (String ch (a +:+ (b +:+ c))).
  by rewrite IH.
Qed.

Lemma scraper_key_not_analyzer_key md md' :
  comp_key_of "Scraper" md <> comp_key_of "Analyzer" md'.
Proof. by_first_char. Qed.

Lemma role_key_not_config_key comp md k :
  comp = "Scraper" \/ comp = "Analyzer" ->
  comp_key_of comp md <> config_key_of k.
Proof. intros [-> | ->]; by_first_char. Qed.

Lemma role_key_not_fixed comp md :
  comp = "Scraper" \/ comp = "Analyzer" ->
  comp_key_of comp md ∉ fixed_keys.
Proof.
  intros Hc. unfold fixed_keys. rewrite !not_elem_of_cons.
  destruct Hc as [-> | ->]; repeat split; try by_first_char; apply not_elem_of_nil.
Qed.

Lemma config_key_not_fixed k : config_key_of k ∉ fixed_keys.
Proof.
  unfold fixed_keys. rewrite !not_elem_of_cons.
  repeat split; try by_first_char; apply not_elem_of_nil.
Qed.

Lemma role_key_not_element comp md :
  comp = "Scraper" \/ comp = "Analyzer" ->
  comp_key_of comp md ∉ element_keys.
Proof.
  intros Hc. unfold element_keys. rewrite !not_elem_of_cons.
  destruct Hc as [-> | ->]; repeat split; try by_first_char; apply not_elem_of_nil.
Qed.

Lemma config_key_not_element k : config_key_of k ∉ element_keys.
Proof.
  unfold element_keys. rewrite !not_elem_of_cons.
  repeat split; try by_first_char; try by_prefix 2; apply not_elem_of_nil.
Qed.

(** A slot key against a key that the same role builds with a suffix. *)
Lemma role_key_suffix comp md suffix :
  comp_key_of comp md = comp +:+ "_" +:+ suffix <-> name md = suffix.
Proof.
  unfold comp_key_of. split; [|by intros ->].
  intros H. by apply string_append_inj, string_append_inj in H.
Qed.

Lemma roles_differ comp comp' (a b : string) :
  comp = "Scraper" \/ comp = "Analyzer" ->
  comp' = "Scraper" \/ comp' = "Analyzer" ->
  comp +:+ "_" +:+ a = comp' +:+ "_" +:+ b -> comp = comp'.
Proof. intros [-> | ->] [-> | ->]; first [done | by_first_char]. Qed.

(** X1.  Which keys of [app.py] a slot key or a config key can coincide
    with.  For the two roles of the page: a slot key determines the role
    and the name of its provider, and a config key its slot key; no slot
    key is a config key; neither is one of the keys [app.py] uses under a
    fixed name, for a value it stores or for a Streamlit element.  A
    config key is never the key of an element of a controller.  A slot
    key is one in three cases only, all within its own role: it is the key
    of the select box for a provider named ["selectbox"], the key of the
    description container for a provider named ["description"], and the
    key of the form of another provider when its name is the name of that
    provider followed by ["_form"]. *)
Theorem session_keys_disjoint comp comp' md md' k k' :
  comp = "Scraper" \/ comp = "Analyzer" ->
  comp' = "Scraper" \/ comp' = "Analyzer" ->
  (comp_key_of comp md = comp_key_of comp' md' <-> comp = comp' /\ name md = name md') /\
  (config_key_of k = config_key_of k' <-> k = k') /\
  comp_key_of comp md <> config_key_of k /\
  (comp_key_of comp md ∉ fixed_keys ++ element_keys) /\
  (config_key_of k ∉ fixed_keys ++ element_keys) /\
  config_key_of k <> selectbox_key comp' /\
  config_key_of k <> description_key comp' /\
  config_key_of k <> form_key (comp_key_of comp' md') /\
  (comp_key_of comp md = selectbox_key comp'
   <-> comp = comp' /\ name md = "selectbox") /\
  (comp_key_of comp md = description_key comp'
   <-> comp = comp' /\ name md = "description") /\
  (comp_key_of comp md = form_key (comp_key_of comp' md')
   <-> comp = comp' /\ name md = name md' +:+ "_form").
Proof.
  intros Hc Hc'.
  assert (Hsuffix : forall suffix,
             comp_key_of comp md = comp' +:+ "_" +:+ suffix
             <-> comp = comp' /\ name md = suffix).
  { intros suffix. split.
    - intros H. pose proof (roles_differ _ _ _ _ Hc Hc' H) as <-.
      split; [done|]. by apply role_key_suffix in H.
    - intros [<- <-]. done. }
  split_and!.
  - apply Hsuffix.
  - split; [apply string_append_inj|by intros ->].
  - by apply role_key_not_config_key.
  - rewrite not_elem_of_app. split;
      [by apply role_key_not_fixed|by apply role_key_not_element].
  - rewrite not_elem_of_app. split;
      [apply config_key_not_fixed|apply config_key_not_element].
  - destruct Hc' as [-> | ->]; by_first_char.
  - destruct Hc' as [-> | ->]; by_first_char.
  - destruct Hc' as [-> | ->]; by_first_char.
  - apply Hsuffix.
  - apply Hsuffix.
  - unfold form_key, comp_key_of at 2. rewrite !string_append_assoc. apply Hsuffix.
Qed.

(** ** The keys a computation writes *)

Create HintDb frames.
Create HintDb inert.

Section Frames.

Variable K : string -> Prop.

Lemma keeps_quiet {A} (m : Act A) :
  (forall s, session (fst (m s)) = session s) -> keeps (same_outside K) m.
Proof. intros H s k _. by rewrite H. Qed.

Lemma keeps_ret {A} (a : A) : keeps (same_outside K) (ret a : Act A).
Proof. by apply keeps_quiet. Qed.

Lemma keeps_raise {A} e : keeps (same_outside K) (raise e : Act A).
Proof. by apply keeps_quiet. Qed.

Lemma keeps_emit e : keeps (same_outside K) (emit e : Act unit).
Proof. by apply keeps_quiet. Qed.

Lemma keeps_bind {A B} (m : Act A) (k : A -> Act B) :
  keeps (same_outside K) m -> (forall a, keeps (same_outside K) (k a)) ->
  keeps (same_outside K) (bind m k).
Proof.
  intros Hm Hk s key Hkey. specialize (Hm s key Hkey).
  unfold bind. destruct (m s) as [s1 [a|e]]; simpl in *; [|done].
  by rewrite (Hk a s1 key Hkey).
Qed.

Lemma keeps_try {A B} (body : Act A) (handler : Exn -> Act B) (orelse : A -> Act B) :
  keeps (same_outside K) body ->
  (forall e, keeps (same_outside K) (handler e)) ->
  (forall a, keeps (same_outside K) (orelse a)) ->
  keeps (same_outside K) (try_except_else body handler orelse).
Proof.
  intros Hm Hh Hk s key Hkey. specialize (Hm s key Hkey).
  unfold try_except_else. destruct (body s) as [s1 [a|e]]; simpl in *.
  - by rewrite (Hk a s1 key Hkey).
  - by rewrite (Hh e s1 key Hkey).
Qed.

Lemma keeps_if {A} (b : bool) (m1 m2 : Act A) :
  keeps (same_outside K) m1 -> keeps (same_outside K) m2 ->
  keeps (same_outside K) (if b then m1 else m2).
Proof. by destruct b. Qed.

Lemma keeps_session_get key dflt : keeps (same_outside K) (session_get key dflt : Act _).
Proof. by apply keeps_quiet. Qed.

Lemma keeps_session_getitem key : keeps (same_outside K) (session_getitem key : Act _).
Proof.
  apply keeps_quiet. intros s. unfold session_getitem. by destruct (session s !! key).
Qed.

Lemma keeps_session_contains key : keeps (same_outside K) (session_contains key : Act _).
Proof. by apply keeps_quiet. Qed.

Lemma keeps_session_set key v : K key -> keeps (same_outside K) (session_set key v : Act _).
Proof.
  intros HK s k Hk. simpl. apply lookup_insert_ne. by intros ->.
Qed.

Lemma keeps_get_world : keeps (same_outside K) (get_world : Act _).
Proof. by apply keeps_quiet. Qed.

Lemma keeps_set_world w : keeps (same_outside K) (set_world w : Act _).
Proof. by apply keeps_quiet. Qed.

Lemma keeps_unpack2 v : keeps (same_outside K) (unpack2 v : Act _).
Proof. destruct v; by apply keeps_quiet. Qed.

Lemma keeps_py_truediv acc n : keeps (same_outside K) (py_truediv acc n : Act _).
Proof. destruct n; by apply keeps_quiet. Qed.

Lemma keeps_st_button label key disabled clicked :
  K key -> keeps (same_outside K) (st_button label key disabled clicked : Act _).
Proof.
  intros HK s k Hk. rewrite st_button_ok. cbn [fst session].
  apply lookup_insert_ne. by intros ->.
Qed.

Lemma keeps_call_get_component_and_status (p : Provider World Component Config Schema) cfg :
  keeps (same_outside K) (call_get_component_and_status p cfg).
Proof.
  apply keeps_quiet. intros s. unfold call_get_component_and_status, bind, emit. simpl.
  by destruct (get_component_and_status p cfg (world s)) as [x [r|e]].
Qed.

Lemma keeps_call_late_update (p : Provider World Component Config Schema) c :
  keeps (same_outside K) (call_late_update p c).
Proof. by apply keeps_quiet. Qed.

Lemma keeps_call_get_component_status (p : Provider World Component Config Schema) c :
  keeps (same_outside K) (call_get_component_status p c).
Proof. by apply keeps_quiet. Qed.

Lemma keeps_form_initial config dflt (sch : Schema) :
  keeps (same_outside K) (form_initial config dflt sch : Act _).
Proof. destruct config; by apply keeps_quiet. Qed.

Lemma keeps_pydantic_form key (init : FormInit Config Schema) fr :
  keeps (same_outside K) (pydantic_form key init fr : Act _).
Proof. by apply keeps_quiet. Qed.

#[local] Hint Resolve keeps_ret keeps_raise keeps_emit keeps_bind keeps_try keeps_if
  keeps_session_get keeps_session_getitem keeps_session_contains keeps_session_set
  keeps_get_world keeps_set_world keeps_unpack2 keeps_py_truediv keeps_st_button
  keeps_call_get_component_and_status keeps_call_late_update
  keeps_call_get_component_status keeps_form_initial keeps_pydantic_form : frames.

Ltac frame_step :=
  match goal with
  | |- keeps _ (bind _ _) => apply keeps_bind
  | |- keeps _ (try_except_else _ _ _) => apply keeps_try
  | |- keeps _ (if _ then _ else _) => apply keeps_if
  | |- keeps _ (match ?v with _ => _ end) => destruct v
  | |- keeps _ _ => solve [auto with frames]
  | |- forall _, _ => intros ?
  end.

Lemma keeps_configure_step comp (p : Provider World Component Config Schema) key fr :
  K key -> K (config_key_of key) ->
  keeps (same_outside K) (configure_step comp p key fr).
Proof.
  intros HK HK'. unfold configure_step.
  destruct (get_config_schema p); repeat frame_step.
Qed.

Lemma keeps_late_update_step (p : Provider World Component Config Schema) md key :
  K key -> keeps (same_outside K) (late_update_step p md key).
Proof. intros HK. unfold late_update_step. repeat frame_step. Qed.

Lemma keeps_workflow_read : keeps (same_outside K) (workflow_read : Act _).
Proof. unfold workflow_read. repeat frame_step. Qed.

Lemma keeps_workflow_update f :
  K "workflow" -> keeps (same_outside K) (workflow_update f : Act _).
Proof.
  intros HK. unfold workflow_update.
  apply keeps_bind; [apply keeps_workflow_read|]. auto with frames.
Qed.

#[local] Hint Resolve keeps_workflow_read keeps_workflow_update : frames.

Lemma keeps_get_workflow sa aa :
  K "workflow" -> keeps (same_outside K) (get_workflow sa aa : Act _).
Proof. intros HK. unfold get_workflow. repeat frame_step. Qed.

Section RunFrames.

Variable scrape_work : option Component -> string -> World -> World * Outcome.
Variable analyze_work : option Component -> ScrapeRow -> World -> World * Outcome.
Variable capture : Exn -> string.

Lemma keeps_scrape_generator_next l :
  K "workflow" ->
  keeps (same_outside K) (scrape_generator_next scrape_work capture l : Act _).
Proof.
  intros HK. unfold scrape_generator_next.
  apply keeps_bind; [auto with frames|]. intros w.
  apply keeps_bind; [auto with frames|]. intros x.
  destruct (scrape_work (scraper w) l x). repeat frame_step.
Qed.

Lemma keeps_analyze_generator_next r :
  K "workflow" ->
  keeps (same_outside K) (analyze_generator_next analyze_work capture r : Act _).
Proof.
  intros HK. unfold analyze_generator_next.
  apply keeps_bind; [auto with frames|]. intros w.
  apply keeps_bind; [auto with frames|]. intros x.
  destruct (analyze_work (analyzer w) r x). repeat frame_step.
Qed.

Lemma keeps_scrape_for n todo :
  K "workflow" ->
  forall acc, keeps (same_outside K) (scrape_for scrape_work capture n todo acc : Act _).
Proof.
  intros HK. induction todo as [|l rest IH]; intros acc; simpl; [auto with frames|].
  apply keeps_bind; [by apply keeps_scrape_generator_next|]. intros _.
  repeat frame_step.
Qed.

Lemma keeps_analyze_for n todo :
  K "workflow" ->
  forall acc, keeps (same_outside K) (analyze_for analyze_work capture n todo acc : Act _).
Proof.
  intros HK. induction todo as [|r rest IH]; intros acc; simpl; [auto with frames|].
  apply keeps_bind; [by apply keeps_analyze_generator_next|]. intros _.
  repeat frame_step.
Qed.

Lemma keeps_run_scrape_section key clicked :
  K "workflow" -> K "scrapes_df" -> K "run_scrape" ->
  keeps (same_outside K) (run_scrape_section scrape_work capture key clicked : Act _).
Proof.
  intros HK HK' HK''.
  pose proof keeps_get_workflow. pose proof keeps_scrape_for.
  unfold run_scrape_section, clear_scrapes, scrape_generator_start, get_scrapes.
  repeat frame_step.
Qed.

Lemma keeps_run_analyze_section key clicked :
  K "workflow" -> K "analysis_df" -> K "run_analyze" ->
  keeps (same_outside K) (run_analyze_section analyze_work capture key clicked : Act _).
Proof.
  intros HK HK' HK''.
  pose proof keeps_get_workflow. pose proof keeps_analyze_for.
  unfold run_analyze_section, clear_analyses, analyze_generator_start, get_scrapes,
    get_analyses.
  repeat frame_step.
Qed.

(** A button the user did not act on is not pressed. *)
Lemma keeps_bind_unclicked {B} label key disabled (k : bool -> Act B) :
  K key ->
  keeps (same_outside K) (k false) ->
  keeps (same_outside K) (bind (st_button label key disabled false) k).
Proof.
  intros HK Hk s k0 Hk0. rewrite (bind_ok _ _ _ _ _ (st_button_ok _ _ _ _ _)).
  cbn [andb]. rewrite (Hk _ k0 Hk0). cbn [session].
  apply lookup_insert_ne. by intros ->.
Qed.

Lemma emits_bind_unclicked {B} (P : Event Component Config Schema -> Prop)
      label key disabled (k : bool -> Act B) :
  P (EvButton label disabled) -> emits P (k false) ->
  emits P (bind (st_button label key disabled false) k).
Proof.
  intros HP Hk s. rewrite (bind_ok _ _ _ _ _ (st_button_ok _ _ _ _ _)).
  cbn [andb].
  destruct (Hk {| session := <[key := VBool false]> (session s); world := world s;
                  log := log s ++ [EvButton label disabled] |}) as (evs & E & F).
  exists (EvButton label disabled :: evs). split; [|by constructor].
  rewrite E. simpl. by rewrite <- app_assoc.
Qed.

End RunFrames.

End Frames.

#[local] Hint Resolve keeps_ret keeps_raise keeps_emit keeps_bind keeps_try keeps_if
  keeps_session_get keeps_session_getitem keeps_session_contains keeps_session_set
  keeps_get_world keeps_set_world keeps_unpack2 keeps_py_truediv keeps_st_button
  keeps_call_get_component_and_status keeps_call_late_update
  keeps_call_get_component_status keeps_form_initial keeps_pydantic_form
  keeps_workflow_read keeps_workflow_update : frames.

Ltac quiet_step :=
  match goal with
  | |- keeps _ (bind (st_button _ _ _ false) _) => apply keeps_bind_unclicked
  | |- keeps _ (bind _ _) => apply keeps_bind
  | |- keeps _ (if _ then _ else _) => apply keeps_if
  | |- keeps _ (match ?v with _ => _ end) => destruct v
  | |- keeps _ _ => solve [auto with frames]
  | |- emits _ (bind (st_button _ _ _ false) _) => apply emits_bind_unclicked
  | |- emits _ (bind _ _) => apply emits_bind
  | |- emits _ (if _ then _ else _) => apply emits_if
  | |- emits _ (match ?v with _ => _ end) => destruct v
  | |- emits _ (emit _) => apply emits_emit
  | |- emits _ (get_workflow _ _) => apply emits_get_workflow
  | |- emits _ (session_get _ _) => apply emits_session_get
  | |- emits _ (unpack2 _) => apply emits_unpack2
  | |- emits _ (ret _) => apply emits_ret
  | |- emits _ (raise _) => apply emits_raise
  | |- forall _, _ => intros ?
  end.


Lemma controller_frame comp opts i p md fr (s : State) k :
  opts !! i = Some (p, md) ->
  ~ (k = comp_key_of comp md \/ k = config_key_of (comp_key_of comp md)) ->
  session (fst (configure_component_loop comp opts (Some i) fr s)) !! k = session s !! k.
Proof.
  intros Hopt Hk. rewrite (cycle_unfold comp opts i p md fr s Hopt).
  set (K := fun k => k = comp_key_of comp md \/ k = config_key_of (comp_key_of comp md)).
  assert (Hkeeps : keeps (same_outside K)
                     (configure_step comp p (comp_key_of comp md) fr ;;
                      late_update_step p md (comp_key_of comp md) ;;
                      ret (Some (comp_key_of comp md)))).
  { apply keeps_bind; [apply keeps_configure_step; subst K; simpl; auto|].
    intros _. apply keeps_bind; [apply keeps_late_update_step; subst K; simpl; auto|].
    intros _. apply keeps_ret. }
  exact (Hkeeps s k Hk).
Qed.

(** A provider that needs no configuration: the step writes the slot
    only. *)
Lemma keeps_configure_step_no_schema (K : string -> Prop) comp
      (p : Provider World Component Config Schema) key fr :
  get_config_schema p = None ->
  K key ->
  keeps (same_outside K) (configure_step comp p key fr).
Proof.
  intros Hsch HK. unfold configure_step. rewrite Hsch.
  repeat quiet_step; auto with frames.
Qed.

Lemma controller_frame_no_schema comp opts i p md fr (s : State) k :
  opts !! i = Some (p, md) ->
  get_config_schema p = None ->
  k <> comp_key_of comp md ->
  session (fst (configure_component_loop comp opts (Some i) fr s)) !! k = session s !! k.
Proof.
  intros Hopt Hsch Hk. rewrite (cycle_unfold comp opts i p md fr s Hopt).
  set (K := fun k => k = comp_key_of comp md).
  assert (Hkeeps : keeps (same_outside K)
                     (configure_step comp p (comp_key_of comp md) fr ;;
                      late_update_step p md (comp_key_of comp md) ;;
                      ret (Some (comp_key_of comp md)))).
  { apply keeps_bind; [by apply keeps_configure_step_no_schema|].
    intros _. apply keeps_bind; [by apply keeps_late_update_step|].
    intros _. apply keeps_ret. }
  exact (Hkeeps s k Hk).
Qed.

(** X2.  A render of the controller on a provider that needs no
    configuration leaves every key of the session as it was, except the
    slot key of that provider and the keys of the two elements the
    controller renders, the select box and the description container:
    whether it returns or raises, it touches no workflow, no result
    table, no links, no saved configuration and no slot of another
    provider. *)
Theorem controller_writes_only_its_keys comp opts i p md fr (s : State) :
  opts !! i = Some (p, md) ->
  get_config_schema p = None ->
  same_outside
    (fun k => k = comp_key_of comp md \/ k ∈ controller_element_keys comp)
    (session s)
    (session (fst (controller_render comp opts (Some i) fr s))).
Proof.
  intros Hopt Hsch k Hk. unfold controller_render, st_selectbox. run_step. run_step.
  rewrite (controller_frame_no_schema comp opts i p md fr _ k Hopt Hsch).
  - cbn [session]. apply lookup_insert_ne. intros <-. apply Hk. right. by left.
  - intros ->. apply Hk. by left.
Qed.

Section RunSections.

Variable scrape_work : option Component -> string -> World -> World * Outcome.
Variable analyze_work : option Component -> ScrapeRow -> World -> World * Outcome.
Variable capture : Exn -> string.

(** X3.  The scrape section leaves every key of the session as it was
    except ["workflow"], ["scrapes_df"] and the keys of its own two
    elements, the button and the table; the analyze section every key
    except ["workflow"], ["analysis_df"] and the keys of its button and
    its table.  This holds for every slot key, pressed or not, and
    however the section ends.  In particular neither touches a slot, a
    saved configuration or the links, and each leaves the table of the
    other as it was. *)
Theorem run_sections_write_only_results key clicked :
  keeps (same_outside (fun k => k = "workflow" \/ k = "scrapes_df" \/
                                k = "run_scrape" \/ k = "scrape_dataframe"))
        (run_scrape_section scrape_work capture key clicked : Act unit) /\
  keeps (same_outside (fun k => k = "workflow" \/ k = "analysis_df" \/
                                k = "run_analyze" \/ k = "analyze_dataframe"))
        (run_analyze_section analyze_work capture key clicked : Act unit).
Proof.
  split.
  - apply keeps_run_scrape_section; simpl; auto.
  - apply keeps_run_analyze_section; simpl; auto.
Qed.

(** X4.  A render on which the user did not act on the button starts no
    run, whatever the slot holds: the section calls none of
    [clear_scrapes], [scrape_generator], [clear_analyses],
    [analyze_generator], and it leaves the result tables alone: besides
    the keys of its button and its table, the only key of the session it
    may write is ["workflow"], where it binds the component of the
    slot. *)
Theorem no_click_no_run key (s : State) :
  let s1 := fst (run_scrape_section scrape_work capture key false s) in
  let s2 := fst (run_analyze_section analyze_work capture key false s) in
  (exists evs, log s1 = log s ++ evs /\ Forall (fun e => runner_event e = false) evs) /\
  same_outside (fun k => k = "workflow" \/ k = "run_scrape" \/ k = "scrape_dataframe")
               (session s) (session s1) /\
  (exists evs, log s2 = log s ++ evs /\ Forall (fun e => runner_event e = false) evs) /\
  same_outside (fun k => k = "workflow" \/ k = "run_analyze" \/ k = "analyze_dataframe")
               (session s) (session s2).
Proof.
  cbv zeta.
  split; [|split; [|split]].
  - apply (emits_at (fun e => runner_event e = false)); [|done].
    unfold run_scrape_section. repeat quiet_step; done.
  - set (K := fun k => k = "workflow" \/ k = "run_scrape" \/ k = "scrape_dataframe").
    assert (Hgw : forall sa aa, keeps (same_outside K)
                                  (get_workflow sa aa : Act (Workflow Component)))
      by (intros; apply keeps_get_workflow; by left).
    assert (Hk : keeps (same_outside K)
                   (run_scrape_section scrape_work capture key false : Act unit)).
    { unfold run_scrape_section. repeat quiet_step; subst K; simpl; auto. }
    exact (Hk s).
  - apply (emits_at (fun e => runner_event e = false)); [|done].
    unfold run_analyze_section. repeat quiet_step; done.
  - set (K := fun k => k = "workflow" \/ k = "run_analyze" \/ k = "analyze_dataframe").
    assert (Hgw : forall sa aa, keeps (same_outside K)
                                  (get_workflow sa aa : Act (Workflow Component)))
      by (intros; apply keeps_get_workflow; by left).
    assert (Hk : keeps (same_outside K)
                   (run_analyze_section analyze_work capture key false : Act unit)).
    { unfold run_analyze_section. repeat quiet_step; subst K; simpl; auto. }
    exact (Hk s).
Qed.

(** ** A section whose button is not pressed *)

Lemma run_scrape_not_pressed key clicked c st (s : State) :
  slot_value s (py_str_key key) = VTuple c st ->
  workflow_entry_ok s ->
  clicked && is_ready st = false ->
  run_scrape_section scrape_work capture key clicked s =
  ({| session := <["workflow" := VWorkflow (override c None (workflow_entry s))]>
                   (<["run_scrape" := VBool false]> (session s));
      world := world s;
      log := log s ++ new_workflow_events s c None
               ++ [EvButton "Scrape" (negb (is_ready st))]
               ++ (if is_ready st then []
                   else [EvWarning "Configure a good scraper to scrape links."])
               ++ shown_scrapes s |},
   Ok tt).
Proof.
  intros Hslot Hwf Hpress. unfold run_scrape_section, slot_value in *.
  unfold bind at 1, session_get at 1. rewrite Hslot.
  unfold bind at 1, unpack2 at 1, ret at 1. cbn [fst snd].
  rewrite (bind_ok _ _ _ _ _ (get_workflow_ok s c None Hwf)).
  rewrite ?bind_assoc, (bind_ok _ _ _ _ _ (st_button_ok _ _ _ _ _)).
  rewrite negb_involutive, Hpress. cbn [session world log].
  rewrite button_under_workflow by done.
  run_step.
  unfold shown_scrapes.
  destruct (is_ready st); cbn [negb].
  - run_step. run_step. cbn [session world log fst emit ret].
    rewrite !lookup_insert_ne by done.
    destruct (session s !! "scrapes_df") as [[| | | | |[|]| | |]|];
      unfold ret, emit; cbv beta iota delta [from_option id];
      cbn [session world log]; do 2 f_equal; by log_right.
  - run_step. run_step. cbn [session world log fst emit ret].
    rewrite !lookup_insert_ne by done.
    destruct (session s !! "scrapes_df") as [[| | | | |[|]| | |]|];
      unfold ret, emit; cbv beta iota delta [from_option id];
      cbn [session world log]; do 2 f_equal; by log_right.
Qed.

Lemma run_analyze_not_pressed key clicked c st (s : State) :
  slot_value s (py_str_key key) = VTuple c st ->
  workflow_entry_ok s ->
  clicked && is_ready st = false ->
  run_analyze_section analyze_work capture key clicked s =
  ({| session := <["workflow" := VWorkflow (override None c (workflow_entry s))]>
                   (<["run_analyze" := VBool false]> (session s));
      world := world s;
      log := log s ++ new_workflow_events s None c
               ++ [EvButton "Analyze" (negb (is_ready st))]
               ++ (if is_ready st then []
                   else [EvWarning "Configure a good analyzer to analyze content."])
               ++ shown_analyses s |},
   Ok tt).
Proof.
  intros Hslot Hwf Hpress. unfold run_analyze_section, slot_value in *.
  unfold bind at 1, session_get at 1. rewrite Hslot.
  unfold bind at 1, unpack2 at 1, ret at 1. cbn [fst snd].
  rewrite (bind_ok _ _ _ _ _ (get_workflow_ok s None c Hwf)).
  rewrite ?bind_assoc, (bind_ok _ _ _ _ _ (st_button_ok _ _ _ _ _)).
  rewrite negb_involutive, Hpress. cbn [session world log].
  rewrite button_under_workflow by done.
  run_step.
  unfold shown_analyses.
  replace (bool_decide ("analysis_success" ∈ analyses_columns)) with true
    by (by vm_compute).
  destruct (is_ready st); cbn [negb].
  - run_step. run_step. cbn [session world log fst emit ret].
    rewrite !lookup_insert_ne by done.
    destruct (session s !! "analysis_df") as [[| | | | | |[|]| |]|];
      unfold ret, emit; cbv beta iota delta [from_option id];
      cbn [session world log]; do 2 f_equal; by log_right.
  - run_step. run_step. cbn [session world log fst emit ret].
    rewrite !lookup_insert_ne by done.
    destruct (session s !! "analysis_df") as [[| | | | | |[|]| |]|];
      unfold ret, emit; cbv beta iota delta [from_option id];
      cbn [session world log]; do 2 f_equal; by log_right.
Qed.

End RunSections.

(** ** More on the controller *)

(** X5.  The instantiation of a provider that needs no configuration is
    not guarded.  For a provider whose name is not ["selectbox"]: when
    [get_component_and_status(None)] raises on an empty slot, the
    exception leaves the controller as it is, no error message is shown,
    [late_update] is not reached, the slot is still empty, so that the
    next render calls the provider again, and beside the keys of the
    elements of the controller no key of the session has changed. *)
Theorem schema_less_error_escapes comp opts i p md fr x e (s : State) :
  opts !! i = Some (p, md) ->
  get_config_schema p = None ->
  name md <> "selectbox" ->
  default VNone (session s !! comp_key_of comp md) = VNone ->
  get_component_and_status p None (world s) = (x, Raise e) ->
  exists s',
    controller_render comp opts (Some i) fr s = (s', Raise e) /\
    world s' = x /\
    log s' = log s ++ [EvGetComponentAndStatus None] /\
    default VNone (session s' !! comp_key_of comp md) = VNone /\
    same_outside (fun k => k ∈ controller_element_keys comp) (session s) (session s').
Proof.
  intros Hopt Hsch Hname Hslot Hcall.
  assert (Hkey : selectbox_key comp <> comp_key_of comp md).
  { intros H. symmetry in H. by apply (role_key_suffix comp md "selectbox") in H. }
  unfold controller_render, st_selectbox. run_step. run_step.
  rewrite (cycle_unfold _ _ _ _ _ _ _ Hopt).
  eexists. split.
  - apply bind_raise.
    rewrite (configure_step_instantiate comp p md _ fr x (Raise e) Hsch); [done| |done].
    cbn [session]. by rewrite lookup_insert_ne.
  - cbn [world log session]. split_and!; [done|done|by rewrite lookup_insert_ne|].
    intros k Hk. apply lookup_insert_ne. intros <-. apply Hk. by left.
Qed.

(** X6.  Slots are kept per provider name.  While a provider without
    schema has a pair in its slot, a render with another provider of the
    role selected -- with or without a submission, returning or raising --
    leaves that pair alone, and a render back on the first provider
    instantiates nothing: it calls [late_update] and
    [get_component_status] on the component of the pair. *)
Theorem reselection_reuses_component comp opts i j pa mda pb mdb fr c st0 (s : State) :
  comp = "Scraper" \/ comp = "Analyzer" ->
  opts !! i = Some (pa, mda) ->
  opts !! j = Some (pb, mdb) ->
  name mda <> name mdb ->
  get_config_schema pa = None ->
  session s !! comp_key_of comp mda = Some (VTuple c st0) ->
  let s1 := fst (configure_component_loop comp opts (Some j) fr s) in
  session s1 !! comp_key_of comp mda = Some (VTuple c st0) /\
  exists s2 st1,
    configure_component_loop comp opts (Some i) None s1
      = (s2, Ok (Some (comp_key_of comp mda))) /\
    session s2 !! comp_key_of comp mda = Some (VTuple c st1) /\
    log s2 = log s1 ++ [EvLateUpdate c; EvGetComponentStatus c;
                        EvDescription
                          (description_line mda
                             (get_component_status pa c (late_update pa c (world s1))))].
Proof.
  intros Hc Hi Hj Hne Hsch Hslot s1.
  assert (Hkeep : session s1 !! comp_key_of comp mda = Some (VTuple c st0)).
  { subst s1. rewrite (controller_frame comp opts j pb mdb fr s _ Hj); [done|].
    intros [Heq|Heq].
    - by apply comp_key_inj in Heq.
    - by apply (role_key_not_config_key comp mda (comp_key_of comp mdb)) in Hc. }
  split; [done|].
  by apply (cycle_cached comp opts i pa mda None c st0).
Qed.

(** A render without submission of a provider with a schema reads the
    session and does not write it. *)
Lemma configure_step_no_submission comp (p : Provider World Component Config Schema)
      md sch (s : State) :
  get_config_schema p = Some sch ->
  is_tuple (slot_value s (comp_key_of comp md)) ->
  exists lg res,
    configure_step comp p (comp_key_of comp md) None s =
      ({| session := session s; world := world s; log := lg |}, res).
Proof.
  intros Hsch Hslot.
  destruct (session s !! config_key_of (comp_key_of comp md)) as [v|] eqn:Hcfg.
  - destruct v as [|vc vst|vcfg|vw|vl|vr|vr|vb|vi];
      try (eexists _, _; apply (configure_step_idle comp p md s sch Hsch Hslot);
           unfold config_entry_ok; by rewrite Hcfg);
      destruct Hslot as (c0 & st0 & Hslot); unfold configure_step, slot_value in *;
      rewrite Hsch; run_step; run_step; cbn [session]; rewrite Hslot, Hcfg;
      run_step; destruct s as [ses x lg]; by eexists _, _.
  - eexists _, _. apply (configure_step_idle comp p md s sch Hsch Hslot).
    unfold config_entry_ok. by rewrite Hcfg.
Qed.

Lemma cycle_keeps_ready comp opts i p md c (s : State) :
  opts !! i = Some (p, md) ->
  session s !! comp_key_of comp md = Some (VTuple c (Some READY)) ->
  session (fst (configure_component_loop comp opts (Some i) None s))
    !! comp_key_of comp md = Some (VTuple c (Some READY)).
Proof.
  intros Hopt Hslot. rewrite (cycle_unfold _ _ _ _ _ _ _ Hopt).
  assert (Hlate : forall s1 : State,
             session s1 = session s ->
             session (fst ((late_update_step p md (comp_key_of comp md) ;;
                            ret (Some (comp_key_of comp md))) s1))
               !! comp_key_of comp md = Some (VTuple c (Some READY))).
  { intros s1 Hs1.
    erewrite bind_ok;
      [|apply (late_update_step_ok comp p md s1 c (Some READY));
        unfold slot_value; by rewrite Hs1, Hslot].
    cbn zeta. cbn [ret fst session].
    destruct (get_component_status p c (late_update p c (world s1))); simpl;
      rewrite ?lookup_insert_eq, ?Hs1; done. }
  destruct (get_config_schema p) as [sch|] eqn:Hsch.
  - destruct (configure_step_no_submission comp p md sch s Hsch) as (lg & res & Hstep).
    { unfold slot_value. rewrite Hslot. by eexists _, _. }
    destruct res as [[]|e].
    + rewrite (bind_ok _ _ _ _ _ Hstep). by apply Hlate.
    + by rewrite (bind_raise _ _ _ _ _ Hstep).
  - erewrite bind_ok;
      [|apply configure_step_cached; [done|]; rewrite Hslot; by eexists _, _].
    by apply Hlate.
Qed.

(** X7.  Readiness is sticky.  Once a slot holds a component with the
    status [READY], it holds that same pair after any number of renders
    of its provider without a new submission, whatever
    [get_component_status] reports on those renders and whatever the
    outside world does in between: no render takes [READY] back. *)
Theorem ready_is_sticky comp opts i p md c envs : forall (s : State),
  opts !! i = Some (p, md) ->
  session s !! comp_key_of comp md = Some (VTuple c (Some READY)) ->
  session (fst (render_cycles envs comp opts (Some i) s))
    !! comp_key_of comp md = Some (VTuple c (Some READY)).
Proof.
  induction envs as [|env rest IH]; intros s Hopt Hslot; [done|].
  cbn [render_cycles]. run_step. run_step.
  set (s0 := (set_world (env (world s)) (get_world s).1).1).
  pose proof (cycle_keeps_ready comp opts i p md c s0 Hopt Hslot) as Hkeep.
  destruct (configure_component_loop comp opts (Some i) None s0) as [s1 [r|e]] eqn:Hrun;
    cbn [fst] in Hkeep.
  - rewrite (bind_ok _ _ _ _ _ Hrun). by apply IH.
  - by rewrite (bind_raise _ _ _ _ _ Hrun).
Qed.

(** ** The entry of the select box *)

Section Inert.

Variable X : string.

Lemma ignores_ret {A} (a : A) : ignores X (ret a : Act A).
Proof. by intros s t H. Qed.

Lemma ignores_raise {A} e : ignores X (raise e : Act A).
Proof. by intros s t H. Qed.

Lemma ignores_emit e : ignores X (emit e : Act unit).
Proof.
  intros s t (Hw & Hl & Hs). split; [done|].
  split_and!; cbn [emit fst world log session]; [done|by rewrite Hl|done].
Qed.

Lemma ignores_bind {A B} (m : Act A) (k : A -> Act B) :
  ignores X m -> (forall a, ignores X (k a)) -> ignores X (bind m k).
Proof.
  intros Hm Hk s t H. destruct (Hm s t H) as [Hr Ha]. unfold bind.
  destruct (m s) as [s1 [a|e]], (m t) as [t1 [a'|e']]; cbn [fst snd] in *;
    try discriminate.
  - injection Hr as <-. by apply Hk.
  - injection Hr as <-. by split.
Qed.

Lemma ignores_try {A B} (body : Act A) (handler : Exn -> Act B) (orelse : A -> Act B) :
  ignores X body ->
  (forall e, ignores X (handler e)) ->
  (forall a, ignores X (orelse a)) ->
  ignores X (try_except_else body handler orelse).
Proof.
  intros Hm Hh Hk s t H. destruct (Hm s t H) as [Hr Ha]. unfold try_except_else.
  destruct (body s) as [s1 [a|e]], (body t) as [t1 [a'|e']]; cbn [fst snd] in *;
    try discriminate.
  - injection Hr as <-. by apply Hk.
  - injection Hr as <-. by apply Hh.
Qed.

Lemma ignores_if {A} (b : bool) (m1 m2 : Act A) :
  ignores X m1 -> ignores X m2 -> ignores X (if b then m1 else m2).
Proof. by destruct b. Qed.

Lemma ignores_session_get key dflt :
  key <> X -> ignores X (session_get key dflt : Act _).
Proof.
  intros Hk s t H. pose proof H as (Hw & Hl & Hs).
  unfold session_get. cbn [fst snd]. by rewrite (Hs key Hk).
Qed.

Lemma ignores_session_set key v :
  key <> X -> ignores X (session_set key v : Act _).
Proof.
  intros Hk s t (Hw & Hl & Hs). split; [done|].
  split_and!; cbn [session_set fst world log session]; [done|done|].
  intros k Hne. destruct (decide (key = k)) as [->|Hkk].
  - by rewrite !lookup_insert_eq.
  - rewrite !lookup_insert_ne by done. by apply Hs.
Qed.

Lemma ignores_get_world : ignores X (get_world : Act _).
Proof.
  intros s t H. pose proof H as (Hw & _). unfold get_world. cbn [fst snd].
  by rewrite Hw.
Qed.

Lemma ignores_set_world w : ignores X (set_world w : Act _).
Proof. intros s t (Hw & Hl & Hs). by split. Qed.

Lemma ignores_unpack2 v : ignores X (unpack2 v : Act _).
Proof. destruct v; first [apply ignores_ret | apply ignores_raise]. Qed.

Lemma ignores_form_initial config dflt (sch : Schema) :
  ignores X (form_initial config dflt sch : Act _).
Proof. destruct config; first [apply ignores_ret | apply ignores_raise]. Qed.

Lemma ignores_call_get_component_and_status
      (p : Provider World Component Config Schema) cfg :
  ignores X (call_get_component_and_status p cfg).
Proof.
  intros s t (Hw & Hl & Hs). unfold call_get_component_and_status, bind, emit.
  cbn [world session log]. rewrite Hw, Hl.
  destruct (get_component_and_status p cfg (world t)) as [x r].
  split; [done|]. by split_and!.
Qed.

#[local] Hint Resolve ignores_ret ignores_raise ignores_emit ignores_bind ignores_try
  ignores_if ignores_session_get ignores_session_set ignores_get_world
  ignores_set_world ignores_unpack2 ignores_form_initial
  ignores_call_get_component_and_status : inert.

Ltac inert_step :=
  match goal with
  | |- ignores _ (bind _ _) => apply ignores_bind
  | |- ignores _ (try_except_else _ _ _) => apply ignores_try
  | |- ignores _ (if _ then _ else _) => apply ignores_if
  | |- ignores _ (match ?v with _ => _ end) => destruct v
  | |- ignores _ _ => solve [auto with inert]
  | |- forall _, _ => intros ?
  end.

Lemma ignores_configure_step comp (p : Provider World Component Config Schema) key fr :
  key <> X -> config_key_of key <> X ->
  ignores X (configure_step comp p key fr).
Proof.
  intros HK HK'. unfold configure_step, pydantic_form.
  destruct (get_config_schema p); repeat inert_step.
Qed.

Lemma ignores_late_update_step (p : Provider World Component Config Schema) md key :
  key <> X -> ignores X (late_update_step p md key).
Proof.
  intros HK. unfold late_update_step, call_late_update, call_get_component_status.
  repeat inert_step.
Qed.

End Inert.

(** A render with the entry of the select box against a render without
    it, for a provider whose keys are not the key of the select box. *)
Lemma controller_render_plain comp opts i p md fr (s t : State) :
  comp = "Scraper" \/ comp = "Analyzer" ->
  opts !! i = Some (p, md) ->
  name md <> "selectbox" ->
  agree_outside (selectbox_key comp) s t ->
  snd (controller_render comp opts (Some i) fr s)
    = snd (configure_component_loop comp opts (Some i) fr t) /\
  agree_outside (selectbox_key comp)
                (fst (controller_render comp opts (Some i) fr s))
                (fst (configure_component_loop comp opts (Some i) fr t)).
Proof.
  intros Hc Hopt Hname Hst.
  assert (Hkey : comp_key_of comp md <> selectbox_key comp).
  { intros H. by apply (role_key_suffix comp md "selectbox") in H. }
  assert (Hcfg : config_key_of (comp_key_of comp md) <> selectbox_key comp).
  { destruct Hc as [-> | ->]; by_first_char. }
  unfold controller_render, st_selectbox. run_step. run_step.
  set (s0 := {| session := <[selectbox_key comp := VInt i]> (session s);
                world := world s; log := log s |}).
  assert (Hagree : agree_outside (selectbox_key comp) s0 t).
  { destruct Hst as (Hw & Hl & Hs). split_and!; [done|done|].
    intros k Hk. subst s0. cbn [session]. rewrite lookup_insert_ne by done.
    by apply Hs. }
  assert (Hinert : ignores (selectbox_key comp)
                     (configure_step comp p (comp_key_of comp md) fr ;;
                      late_update_step p md (comp_key_of comp md) ;;
                      ret (Some (comp_key_of comp md)))).
  { apply ignores_bind; [by apply ignores_configure_step|]. intros _.
    apply ignores_bind; [by apply ignores_late_update_step|]. intros _.
    apply ignores_ret. }
  destruct (Hinert s0 t Hagree) as [Hres Hstate].
  by rewrite <- !(cycle_unfold comp opts i p md fr _ Hopt) in Hres, Hstate.
Qed.

Lemma agree_outside_refl X (s : State) : agree_outside X s s.
Proof. by split_and!. Qed.

Lemma controller_cycles_plain comp opts i p md envs :
  comp = "Scraper" \/ comp = "Analyzer" ->
  opts !! i = Some (p, md) ->
  name md <> "selectbox" ->
  forall s t : State,
    agree_outside (selectbox_key comp) s t ->
    snd (controller_cycles envs comp opts (Some i) s)
      = snd (render_cycles envs comp opts (Some i) t) /\
    agree_outside (selectbox_key comp)
                  (fst (controller_cycles envs comp opts (Some i) s))
                  (fst (render_cycles envs comp opts (Some i) t)).
Proof.
  intros Hc Hopt Hname. induction envs as [|env rest IH]; intros s t Hst; [done|].
  set (s0 := {| session := session s; world := env (world s); log := log s |}).
  set (t0 := {| session := session t; world := env (world t); log := log t |}).
  assert (Hk : controller_cycles (env :: rest) comp opts (Some i) s
               = (controller_render comp opts (Some i) None ;;
                  controller_cycles rest comp opts (Some i)) s0) by reflexivity.
  assert (Hr : render_cycles (env :: rest) comp opts (Some i) t
               = (configure_component_loop comp opts (Some i) None ;;
                  render_cycles rest comp opts (Some i)) t0) by reflexivity.
  rewrite Hk, Hr. clear Hk Hr.
  assert (H0 : agree_outside (selectbox_key comp) s0 t0).
  { destruct Hst as (Hw & Hl & Hs). subst s0 t0.
    split_and!; cbn [world log session]; [by rewrite Hw|done|done]. }
  destruct (controller_render_plain comp opts i p md None s0 t0 Hc Hopt Hname H0)
    as [Hres Hstate].
  unfold bind.
  destruct (controller_render comp opts (Some i) None s0) as [s1 [a|e]],
           (configure_component_loop comp opts (Some i) None t0) as [t1 [a'|e']];
    cbn [fst snd] in *; try discriminate.
  - by apply IH.
  - injection Hres as <-. by split.
Qed.

(** C7.  A provider without schema is selected for one of the two roles
    of the page and nothing is cached for it yet; its name is not
    ["selectbox"], so that its slot is not where Streamlit keeps the value
    of the select box.  Over any number of
    successive render cycles with that provider selected, whatever the
    outside world does in between, [get_component_and_status(None)] is
    called exactly once: it is the first call of the first cycle, and no
    later event is such a call, the slot holding a pair from then on. *)
Theorem no_schema_instantiated_once comp opts i p md env envs x r (s : State) :
  let key := comp_key_of comp md in
  comp = "Scraper" \/ comp = "Analyzer" ->
  opts !! i = Some (p, md) ->
  get_config_schema p = None ->
  name md <> "selectbox" ->
  default VNone (session s !! key) = VNone ->
  get_component_and_status p None (env (world s)) = (x, Ok r) ->
  exists s' st evs,
    controller_cycles (env :: envs) comp opts (Some i) s = (s', Ok tt) /\
    log s' = log s ++ EvGetComponentAndStatus None :: evs /\
    Forall (fun e => is_get_component_and_status e = false) evs /\
    session s' !! key = Some (VTuple (fst r) st).
Proof.
  intros key Hc Hopt Hsch Hname Hslot Hcall. subst key.
  destruct (render_cycles_instantiate comp opts i p md env envs x r s Hopt Hsch Hslot Hcall)
    as (t' & st & evs & Hplain & Hlog & Hevs & Hpair).
  destruct (controller_cycles_plain comp opts i p md (env :: envs) Hc Hopt Hname s s
              (agree_outside_refl _ s)) as [Hres (_ & Hl & Hs)].
  rewrite Hplain in Hres, Hl, Hs. cbn [fst snd] in Hres, Hl, Hs.
  destruct (controller_cycles (env :: envs) comp opts (Some i) s) as [s' res].
  cbn [fst snd] in *. subst res.
  exists s', st, evs. split; [done|]. split; [by rewrite Hl|]. split; [done|].
  rewrite Hs; [done|]. intros H. by apply (role_key_suffix comp md "selectbox") in H.
Qed.

(** C8.  For a provider of one of the two roles of the page, with a
    schema, whose slot can be read and whose name is not ["selectbox"]
    (its slot is then not where Streamlit keeps the value of the select
    box), the form is opened on the saved
    configuration of the role-and-provider key if there is one, otherwise
    on the default configuration of the provider, otherwise on the bare
    schema.  After the cycle the saved configuration is the submitted one
    when there was a submission and [get_component_and_status] returned on
    it, and is what it was before in every other case: no submission, or a
    submission on which the provider raised. *)
Theorem form_initial_and_saved_config comp opts i p md sch fr (s : State) :
  let key := comp_key_of comp md in
  let config_key := config_key_of key in
  comp = "Scraper" \/ comp = "Analyzer" ->
  opts !! i = Some (p, md) ->
  get_config_schema p = Some sch ->
  name md <> "selectbox" ->
  is_tuple (slot_value s key) ->
  config_entry_ok s config_key ->
  exists s' res rest,
    controller_render comp opts (Some i) fr s = (s', res) /\
    log s' = log s ++ EvForm (key +:+ "_form") (initial_values s config_key p sch) :: rest /\
    session s' !! config_key =
      match fr with
      | Some cfg =>
          match snd (get_component_and_status p (Some cfg) (world s)) with
          | Ok _ => Some (VConfig cfg)
          | Raise _ => session s !! config_key
          end
      | None => session s !! config_key
      end.
Proof.
  intros key config_key Hc Hopt Hsch Hname Hslot Hcfg. subst key config_key.
  destruct (cycle_form_and_saved_config comp opts i p md sch fr s Hopt Hsch Hslot Hcfg)
    as (t' & res & rest & Hplain & Hlog & Hsaved).
  destruct (controller_render_plain comp opts i p md fr s s Hc Hopt Hname
              (agree_outside_refl _ s)) as [Hres (_ & Hl & Hs)].
  rewrite Hplain in Hres, Hl, Hs. cbn [fst snd] in Hres, Hl, Hs.
  destruct (controller_render comp opts (Some i) fr s) as [s' res'].
  cbn [fst snd] in *. subst res'.
  exists s', res, rest. split; [done|]. split; [by rewrite Hl|].
  rewrite Hs; [done|]. destruct Hc as [-> | ->]; by_first_char.
Qed.

(** X16.  The entry of the select box is inert for every provider that is
    not named ["selectbox"].  With the value of the select box stored
    under its key, as Streamlit does, a render of the controller ends as
    it does without that entry: same result or exception, same calls on
    the provider and same messages, same outside world, and the same
    value under every key of the session but the key of the select box,
    which holds the selected index when the controller is done. *)
Theorem selectbox_entry_is_inert comp opts i p md fr (s : State) :
  comp = "Scraper" \/ comp = "Analyzer" ->
  opts !! i = Some (p, md) ->
  name md <> "selectbox" ->
  let plain := configure_component_loop comp opts (Some i) fr s in
  let keyed := controller_render comp opts (Some i) fr s in
  snd keyed = snd plain /\
  agree_outside (selectbox_key comp) (fst keyed) (fst plain) /\
  session (fst keyed) !! selectbox_key comp = Some (VInt i).
Proof.
  intros Hc Hopt Hname plain keyed. subst plain keyed.
  destruct (controller_render_plain comp opts i p md fr s s Hc Hopt Hname
              (agree_outside_refl _ s)) as [Hres Hstate].
  split_and!; [done|done|].
  unfold controller_render, st_selectbox. run_step. run_step.
  rewrite (controller_frame comp opts i p md fr _ _ Hopt).
  - cbn [session]. apply lookup_insert_eq.
  - intros [H|H]; symmetry in H.
    + by apply (role_key_suffix comp md "selectbox") in H.
    + revert H. destruct Hc as [-> | ->]; by_first_char.
Qed.

(** X17.  A provider named ["selectbox"] is never built.  Its slot key is
    the key of the select box of its role, so what the controller finds
    in the slot is the selected index; unpacking it raises a [TypeError]
    that leaves the controller before it renders a form, calls the
    provider or shows the description, whether or not the provider has a
    schema and whatever the session held. *)
Theorem selectbox_named_provider_never_built comp opts i p md fr (s : State) :
  opts !! i = Some (p, md) ->
  name md = "selectbox" ->
  exists s',
    controller_render comp opts (Some i) fr s
      = (s', Raise (TypeError "cannot unpack non-iterable int object")) /\
    log s' = log s /\
    world s' = world s /\
    session s' !! comp_key_of comp md = Some (VInt i) /\
    same_outside (fun k => k ∈ controller_element_keys comp) (session s) (session s').
Proof.
  intros Hopt Hname.
  assert (Hkey : comp_key_of comp md = selectbox_key comp).
  { by apply (role_key_suffix comp md "selectbox"). }
  unfold controller_render, st_selectbox. run_step. run_step.
  rewrite (cycle_unfold comp opts i p md fr _ Hopt). rewrite Hkey.
  set (s0 := {| session := <[selectbox_key comp := VInt i]> (session s);
                world := world s; log := log s |}).
  assert (Hstep : exists res,
             configure_step comp p (selectbox_key comp) fr s0 = (s0, res) /\
             (res = Ok tt \/
              res = Raise (TypeError "cannot unpack non-iterable int object"))).
  { unfold configure_step. destruct (get_config_schema p) as [sch|].
    - run_step. run_step. subst s0. cbn [session]. rewrite lookup_insert_eq.
      cbn [default from_option id]. eexists. split; [reflexivity|by right].
    - run_step. run_step. subst s0. cbn [session]. rewrite lookup_insert_eq.
      cbn [default from_option id]. eexists. split; [reflexivity|by left]. }
  destruct Hstep as (res & Hstep & [-> | ->]).
  - rewrite (bind_ok _ _ _ _ _ Hstep).
    unfold late_update_step. run_step. subst s0. cbn [session].
    rewrite lookup_insert_eq. cbn [default from_option id].
    eexists. split; [reflexivity|]. cbn [log world session].
    split_and!; [done|done|apply lookup_insert_eq|].
    intros k Hk. apply lookup_insert_ne. intros <-. apply Hk. by left.
  - rewrite (bind_raise _ _ _ _ _ Hstep).
    eexists. split; [reflexivity|]. subst s0. cbn [log world session].
    split_and!; [done|done|apply lookup_insert_eq|].
    intros k Hk. apply lookup_insert_ne. intros <-. apply Hk. by left.
Qed.

(** ** [get_workflow], called by both sections *)

Lemma override_override (sa aa sa' aa' : option Component) w :
  override sa' aa' (override sa aa w) =
  override (match sa' with Some _ => sa' | None => sa end)
           (match aa' with Some _ => aa' | None => aa end) w.
Proof. by destruct sa, aa, sa', aa'. Qed.

Lemma get_workflow_twice sa aa sa' aa' (s : State) :
  workflow_entry_ok s ->
  (get_workflow sa aa ;; get_workflow sa' aa') s =
  ({| session := <["workflow" :=
                     VWorkflow (override sa' aa' (override sa aa (workflow_entry s)))]>
                   (session s);
      world := world s;
      log := log s ++ new_workflow_events s sa aa |},
   Ok (override sa' aa' (override sa aa (workflow_entry s)))).
Proof.
  intros Hwf. rewrite (bind_ok _ _ _ _ _ (get_workflow_ok s sa aa Hwf)).
  erewrite get_workflow_present by apply lookup_insert_eq.
  cbn [session world log]. by rewrite insert_insert_eq.
Qed.

(** X8.  The two sections bind their components into the one workflow of
    the session in either order: binding the scraper and then the
    analyzer, or the analyzer and then the scraper, leaves the session
    exactly as one call with both arguments does, and so does repeating
    the call. *)
Theorem get_workflow_binds_in_any_order sa aa (s : State) :
  workflow_entry_ok s ->
  let both := get_workflow sa aa s in
  session (fst ((get_workflow sa None ;; get_workflow None aa) s)) = session (fst both) /\
  snd ((get_workflow sa None ;; get_workflow None aa) s) = snd both /\
  session (fst ((get_workflow None aa ;; get_workflow sa None) s)) = session (fst both) /\
  snd ((get_workflow None aa ;; get_workflow sa None) s) = snd both /\
  session (fst ((get_workflow sa aa ;; get_workflow sa aa) s)) = session (fst both) /\
  snd ((get_workflow sa aa ;; get_workflow sa aa) s) = snd both.
Proof.
  intros Hwf both. subst both.
  rewrite !(get_workflow_twice _ _ _ _ s Hwf), (get_workflow_ok s sa aa Hwf).
  cbn [fst snd session]. rewrite !override_override.
  by destruct sa, aa.
Qed.

(** ** Whole renders *)

Lemma cycle_submit_raise comp opts i (p : Provider World Component Config Schema)
      md sch cfg x e (s : State) :
  opts !! i = Some (p, md) ->
  get_config_schema p = Some sch ->
  is_tuple (slot_value s (comp_key_of comp md)) ->
  config_entry_ok s (config_key_of (comp_key_of comp md)) ->
  get_component_and_status p (Some cfg) (world s) = (x, Raise e) ->
  configure_component_loop comp opts (Some i) (Some cfg) s =
  ({| session := <[comp_key_of comp md := VNone]> (session s);
      world := x;
      log := log s ++ [EvForm (comp_key_of comp md +:+ "_form")
                              (initial_values s (config_key_of (comp_key_of comp md)) p sch);
                       EvGetComponentAndStatus (Some cfg);
                       EvTraceback e;
                       EvError ("Error creating " +:+ comp +:+ ": " +:+ exn_str e)] |},
   Raise (TypeError "cannot unpack non-iterable NoneType object")).
Proof.
  intros Hopt Hsch Hslot Hcfg Hcall. rewrite (cycle_unfold _ _ _ _ _ _ _ Hopt).
  erewrite bind_ok by (by eapply configure_step_submit_raise).
  by erewrite bind_raise by (apply late_update_step_none; apply lookup_insert_eq).
Qed.

Lemma cycle_instantiate_ready comp opts i (p : Provider World Component Config Schema)
      md fr x c (s : State) :
  opts !! i = Some (p, md) ->
  get_config_schema p = None ->
  default VNone (session s !! comp_key_of comp md) = VNone ->
  get_component_and_status p None (world s) = (x, Ok (c, READY)) ->
  configure_component_loop comp opts (Some i) fr s =
  ({| session := <[comp_key_of comp md := VTuple c (Some READY)]> (session s);
      world := late_update p c x;
      log := log s ++ [EvGetComponentAndStatus None; EvLateUpdate c;
                       EvGetComponentStatus c;
                       EvDescription
                         (description_line md
                            (get_component_status p c (late_update p c x)))] |},
   Ok (Some (comp_key_of comp md))).
Proof.
  intros Hopt Hsch Hslot Hcall. rewrite (cycle_unfold _ _ _ _ _ _ _ Hopt).
  erewrite bind_ok;
    [|by eapply (configure_step_instantiate comp p md _ fr x (Ok (c, READY)))].
  erewrite bind_ok;
    [|apply (late_update_step_ok comp p md _ c (Some READY));
      unfold slot_value; cbn [session fst snd]; by rewrite lookup_insert_eq].
  unfold ret. cbn zeta. cbn [session world log fst snd].
  destruct (get_component_status p c (late_update p c x)); cbn [status_eqb];
    rewrite ?insert_insert_eq; do 2 f_equal; by log_right.
Qed.

(** The session once [get_workflow] has bound a workflow. *)
Lemma workflow_entry_bound (ses : Session) w (x : World)
      (lg : list (Event Component Config Schema)) :
  workflow_entry {| session := <["workflow" := VWorkflow w]> ses; world := x; log := lg |}
  = w.
Proof. unfold workflow_entry. cbn [session]. by rewrite lookup_insert_eq. Qed.

Lemma workflow_entry_ok_bound (ses : Session) w (x : World)
      (lg : list (Event Component Config Schema)) :
  workflow_entry_ok {| session := <["workflow" := VWorkflow w]> ses; world := x; log := lg |}.
Proof. unfold workflow_entry_ok. cbn [session]. by rewrite lookup_insert_eq. Qed.

Lemma new_workflow_events_bound (ses : Session) w (x : World)
      (lg : list (Event Component Config Schema)) sa aa :
  new_workflow_events
    {| session := <["workflow" := VWorkflow w]> ses; world := x; log := lg |} sa aa = [].
Proof. unfold new_workflow_events. cbn [session]. by rewrite lookup_insert_eq. Qed.

Lemma shown_analyses_bound (ses : Session) w (x : World)
      (lg : list (Event Component Config Schema)) :
  shown_analyses {| session := <["workflow" := VWorkflow w]> ses; world := x; log := lg |}
  = match ses !! "analysis_df" with
    | Some (VAnalyses (_ :: _)) => [EvDataframe "analyze_dataframe"]
    | _ => []
    end.
Proof. unfold shown_analyses. cbn [session]. by rewrite lookup_insert_ne. Qed.

Section Renders.

Variable scrape_work : option Component -> string -> World -> World * Outcome.
Variable analyze_work : option Component -> ScrapeRow -> World -> World * Outcome.
Variable capture : Exn -> string.

(** X9.  A press on a ready slot over no input divides by nothing.  With
    an empty list of links the scrape section returns, shows the bar at 0
    and removes it, stores an empty table and shows none; so does the
    analyze section when the workflow holds no scrape. *)
Theorem empty_batch_completes skey akey c a (s t : State) :
  session s !! py_str_key skey = Some (VTuple c (Some READY)) ->
  session s !! "links_df" = Some (VLinks []) ->
  workflow_entry_ok s ->
  session t !! py_str_key akey = Some (VTuple a (Some READY)) ->
  workflow_entry_ok t ->
  scrapes (workflow_entry t) = [] ->
  (exists s',
     run_scrape_section scrape_work capture skey true s = (s', Ok tt) /\
     session s' !! "scrapes_df" = Some (VScrapes []) /\
     log s' = log s ++ new_workflow_events s c None
                ++ [EvButton "Scrape" false; EvProgress 0; EvClearScrapes;
                    EvScrapeGenerator [] true; EvProgressEmpty]) /\
  (exists t',
     run_analyze_section analyze_work capture akey true t = (t', Ok tt) /\
     session t' !! "analysis_df" = Some (VAnalyses []) /\
     log t' = log t ++ new_workflow_events t None a
                ++ [EvButton "Analyze" false; EvClearAnalyses; EvProgress 0;
                    EvAnalyzeGenerator true; EvProgressEmpty]).
Proof.
  intros Hs Hl Hws Ht Hwt Hnone. split.
  - rewrite (run_scrape_ready scrape_work capture s skey c [] Hs Hl Hws).
    eexists. split; [done|]. cbn [session log].
    split; [apply lookup_insert_eq|done].
  - rewrite (run_analyze_ready analyze_work capture t akey a Ht Hwt).
    cbn zeta. cbn [override scrapes]. rewrite Hnone.
    eexists. split; [done|]. cbn [session log].
    split; [apply lookup_insert_eq|done].
Qed.

(** The sections below two controllers that select nothing. *)
Lemma main_sections_empty fs fa scrape_clicked analyze_clicked (s : State) :
  session s !! "None" = None ->
  workflow_entry_ok s ->
  exists s',
    main_sections scrape_work analyze_work capture [] [] None fs None fa
                  scrape_clicked analyze_clicked s = (s', Ok tt) /\
    world s' = world s /\
    log s' = log s ++ new_workflow_events s None None
               ++ [EvButton "Scrape" true;
                   EvWarning "Configure a good scraper to scrape links."]
               ++ shown_scrapes s
               ++ [EvButton "Analyze" true;
                   EvWarning "Configure a good analyzer to analyze content."]
               ++ shown_analyses s /\
    session s' !! "workflow" = Some (VWorkflow (workflow_entry s)) /\
    same_outside (fun k => k = "workflow" \/ k ∈ main_element_keys)
                 (session s) (session s').
Proof.
  intros Hnone Hwf. unfold main_sections.
  run_step. run_step.
  erewrite bind_ok;
    [|apply (run_scrape_not_pressed scrape_work capture None scrape_clicked None None);
      [unfold slot_value; simpl; by rewrite Hnone|done|apply andb_false_r]].
  erewrite (run_analyze_not_pressed analyze_work capture None analyze_clicked None None);
    [|unfold slot_value; simpl; by rewrite !lookup_insert_ne, Hnone
     |apply workflow_entry_ok_bound
     |apply andb_false_r].
  assert (Hw : override None None (workflow_entry s) = workflow_entry s)
    by (by destruct (workflow_entry s)).
  rewrite workflow_entry_bound, new_workflow_events_bound, shown_analyses_bound.
  rewrite lookup_insert_ne by done. fold (shown_analyses s).
  cbn [session world log is_ready negb]. rewrite !Hw.
  eexists. split; [reflexivity|]. cbn [session world log].
  split_and!.
  - done.
  - by log_right.
  - apply lookup_insert_eq.
  - intros k Hk.
    assert (Hrun : forall k', k' ∈ main_element_keys -> k' <> k).
    { intros k' Hin ->. apply Hk. by right. }
    rewrite !lookup_insert_ne; [done|..].
    + apply Hrun. by vm_compute; set_solver.
    + intros <-. apply Hk. by left.
    + apply Hrun. by vm_compute; set_solver.
    + intros <-. apply Hk. by left.
Qed.

(** X10.  With no provider registered for either role nothing is selected
    and both controllers return [None]; the page still renders: both
    buttons are there, disabled, each with its warning, no press starts a
    run, and the tables of earlier runs are still shown.  The workflow of
    the session is stored as it was, or created empty, and every other
    key of the session is left as it was, the keys of the elements of the
    page apart. *)
Theorem empty_registry_renders_disabled fs fa scrape_clicked analyze_clicked (s : State) :
  session s !! "None" = None ->
  workflow_entry_ok s ->
  exists s',
    main_render scrape_work analyze_work capture [] [] None fs None fa
                scrape_clicked analyze_clicked s = (s', Ok tt) /\
    world s' = world s /\
    log s' = log s ++ new_workflow_events s None None
               ++ [EvButton "Scrape" true;
                   EvWarning "Configure a good scraper to scrape links."]
               ++ shown_scrapes s
               ++ [EvButton "Analyze" true;
                   EvWarning "Configure a good analyzer to analyze content."]
               ++ shown_analyses s /\
    session s' !! "workflow" = Some (VWorkflow (workflow_entry s)) /\
    same_outside (fun k => k = "workflow" \/ k ∈ main_element_keys)
                 (session s) (session s').
Proof.
  intros Hnone Hwf.
  set (s2 := {| session := <[selectbox_key "Analyzer" := VNone]>
                             (<[selectbox_key "Scraper" := VNone]> (session s));
                world := world s; log := log s |}).
  assert (Heq : main_render scrape_work analyze_work capture [] [] None fs None fa
                            scrape_clicked analyze_clicked s
                = main_sections scrape_work analyze_work capture [] [] None fs None fa
                                scrape_clicked analyze_clicked s2) by reflexivity.
  destruct (main_sections_empty fs fa scrape_clicked analyze_clicked s2)
    as (s' & Hrun & Hworld & Hlog & Hwfl & Hframe).
  { subst s2. cbn [session]. by rewrite !lookup_insert_ne. }
  { unfold workflow_entry_ok in *. subst s2. cbn [session].
    by rewrite !lookup_insert_ne. }
  assert (Hw2 : workflow_entry s2 = workflow_entry s).
  { unfold workflow_entry. subst s2. cbn [session]. by rewrite !lookup_insert_ne. }
  assert (Hn2 : new_workflow_events s2 None None = new_workflow_events s None None).
  { unfold new_workflow_events. subst s2. cbn [session]. by rewrite !lookup_insert_ne. }
  assert (Hs2 : shown_scrapes s2 = shown_scrapes s).
  { unfold shown_scrapes. subst s2. cbn [session]. by rewrite !lookup_insert_ne. }
  assert (Ha2 : shown_analyses s2 = shown_analyses s).
  { unfold shown_analyses. subst s2. cbn [session]. by rewrite !lookup_insert_ne. }
  exists s'. rewrite Heq. split; [done|].
  split; [done|].
  split; [by rewrite Hlog, Hn2, Hs2, Ha2|].
  split; [by rewrite Hwfl, Hw2|].
  intros k Hk. rewrite (Hframe k Hk). subst s2. cbn [session].
  rewrite !lookup_insert_ne; [done|..]; intros <-; apply Hk; right;
    by vm_compute; set_solver.
Qed.

(** X11.  A configuration the selected scraper rejects blanks the rest of
    the page.  The [TypeError] the scraper controller ends in leaves
    [main]: the form and the error message are the last things rendered,
    and neither the analyzer controller nor the Scrape and Analyze
    sections run on that render. *)
Theorem rejected_scraper_config_blanks_page scrapers analyzers i p md sch cfg x e
        analyzer_index fa scrape_clicked analyze_clicked (s : State) :
  scrapers !! i = Some (p, md) ->
  get_config_schema p = Some sch ->
  is_tuple (slot_value s (comp_key_of "Scraper" md)) ->
  config_entry_ok s (config_key_of (comp_key_of "Scraper" md)) ->
  get_component_and_status p (Some cfg) (world s) = (x, Raise e) ->
  exists s',
    main_sections scrape_work analyze_work capture scrapers analyzers
                  (Some i) (Some cfg) analyzer_index fa scrape_clicked analyze_clicked s
      = (s', Raise (TypeError "cannot unpack non-iterable NoneType object")) /\
    log s' = log s ++ [EvForm (comp_key_of "Scraper" md +:+ "_form")
                              (initial_values s (config_key_of (comp_key_of "Scraper" md))
                                              p sch);
                       EvGetComponentAndStatus (Some cfg);
                       EvTraceback e;
                       EvError ("Error creating Scraper: " +:+ exn_str e)].
Proof.
  intros Hopt Hsch Hslot Hcfg Hcall. eexists. unfold main_sections.
  erewrite bind_raise by (by eapply cycle_submit_raise).
  split; [done|]. done.
Qed.

(** X12.  The first render of a new session wires the page end to end.
    When the selected scraper and the selected analyzer need no
    configuration, are not named ["selectbox"] and are built [READY], the
    one render instantiates both, the analyzer controller leaves the
    scraper slot alone, each section reads the slot its controller wrote,
    both buttons are rendered enabled, and the workflow of the session
    ends up bound to both components. *)
Theorem first_render_enables_both_buttons scrapers analyzers i j ps mds pa mda cs ca
        fs fa (s : State) :
  scrapers !! i = Some (ps, mds) ->
  analyzers !! j = Some (pa, mda) ->
  get_config_schema ps = None ->
  get_config_schema pa = None ->
  name mds <> "selectbox" ->
  name mda <> "selectbox" ->
  (forall x, exists x', get_component_and_status ps None x = (x', Ok (Some cs, READY))) ->
  (forall x, exists x', get_component_and_status pa None x = (x', Ok (Some ca, READY))) ->
  session s !! comp_key_of "Scraper" mds = None ->
  session s !! comp_key_of "Analyzer" mda = None ->
  workflow_entry_ok s ->
  exists s' evs,
    main_render scrape_work analyze_work capture scrapers analyzers
                (Some i) fs (Some j) fa false false s = (s', Ok tt) /\
    log s' = log s ++ evs /\
    EvButton "Scrape" false ∈ evs /\
    EvButton "Analyze" false ∈ evs /\
    session s' !! comp_key_of "Scraper" mds = Some (VTuple (Some cs) (Some READY)) /\
    session s' !! comp_key_of "Analyzer" mda = Some (VTuple (Some ca) (Some READY)) /\
    scraper (workflow_entry s') = Some cs /\
    analyzer (workflow_entry s') = Some ca.
Proof.
  intros Hi Hj Hschs Hscha Hnames Hnamea Hbs Hba Hslots Hslota Hwf.
  set (ks := comp_key_of "Scraper" mds) in *.
  set (ka := comp_key_of "Analyzer" mda) in *.
  set (xs := selectbox_key "Scraper").
  set (xa := selectbox_key "Analyzer").
  assert (Hne : ks <> ka) by apply scraper_key_not_analyzer_key.
  assert (Hne' : ka <> ks) by done.
  assert (Hws : "workflow" <> ks) by (subst ks; by_first_char).
  assert (Hwa : "workflow" <> ka) by (subst ka; by_first_char).
  assert (Hss : "run_scrape" <> ks) by (subst ks; by_first_char).
  assert (Hsa : "run_scrape" <> ka) by (subst ka; by_first_char).
  assert (Has : "run_analyze" <> ks) by (subst ks; by_first_char).
  assert (Haa : "run_analyze" <> ka) by (subst ka; by_first_char).
  assert (Hxs : xs <> ks).
  { intros H. symmetry in H. by apply (role_key_suffix "Scraper" mds "selectbox") in H. }
  assert (Hxa : xa <> ka).
  { intros H. symmetry in H. by apply (role_key_suffix "Analyzer" mda "selectbox") in H. }
  assert (Hxsa : xs <> ka) by (subst xs ka; by_first_char).
  assert (Hxas : xa <> ks) by (subst xa ks; by_first_char).
  unfold main_render, controller_render, st_selectbox. fold xs xa.
  run_step. run_step.
  set (s0 := {| session := <[xs := VInt i]> (session s); world := world s;
                log := log s |}).
  destruct (Hbs (world s0)) as [x1 H1].
  erewrite bind_ok;
    [|apply (cycle_instantiate_ready "Scraper" scrapers i ps mds fs x1 (Some cs) s0 Hi Hschs);
      [fold ks; subst s0; cbn [session]; by rewrite lookup_insert_ne, Hslots|exact H1]].
  fold ks.
  set (s1 := {| session := <[ks := VTuple (Some cs) (Some READY)]> (session s0);
                world := late_update ps (Some cs) x1; log := _ |}).
  run_step. run_step.
  set (s1x := {| session := <[xa := VInt j]> (session s1); world := world s1;
                 log := log s1 |}).
  destruct (Hba (world s1x)) as [x2 H2].
  erewrite bind_ok;
    [|apply (cycle_instantiate_ready "Analyzer" analyzers j pa mda fa x2 (Some ca) s1x
               Hj Hscha);
      [fold ka; subst s1x s1 s0; cbn [session];
       by rewrite (lookup_insert_ne _ xa ka), (lookup_insert_ne _ ks ka),
            (lookup_insert_ne _ xs ka), Hslota
      |exact H2]].
  fold ka.
  set (s2 := {| session := <[ka := VTuple (Some ca) (Some READY)]> (session s1x);
                world := late_update pa (Some ca) x2; log := _ |}).
  assert (Hwf2 : workflow_entry_ok s2).
  { unfold workflow_entry_ok in *. subst s2 s1x s1 s0. cbn [session].
    by rewrite !lookup_insert_ne. }
  erewrite bind_ok;
    [|apply (run_scrape_not_pressed scrape_work capture (Some ks) false
               (Some cs) (Some READY) s2);
      [unfold slot_value; subst s2 s1x s1 s0;
       cbn [session py_str_key default from_option id];
       by rewrite (lookup_insert_ne _ ka ks), (lookup_insert_ne _ xa ks),
            lookup_insert_eq
      |exact Hwf2|done]].
  set (w3 := override (Some cs) None (workflow_entry s2)).
  erewrite (run_analyze_not_pressed analyze_work capture (Some ka) false
              (Some ca) (Some READY));
    [|unfold slot_value; subst s2; cbn [session py_str_key default from_option id];
      by rewrite (lookup_insert_ne _ "workflow" ka), (lookup_insert_ne _ "run_scrape" ka),
           lookup_insert_eq
     |apply workflow_entry_ok_bound|done].
  rewrite workflow_entry_bound.
  eexists _, _. split; [done|]. cbn [session world log is_ready status_eqb negb].
  rewrite new_workflow_events_bound.
  split; [subst s2 s1x s1 s0; cbn [log]; rewrite <- !app_assoc; reflexivity|].
  split; [rewrite !elem_of_app, !elem_of_cons; tauto|].
  split; [rewrite !elem_of_app, !elem_of_cons; tauto|].
  split; [subst s2 s1x s1 s0; cbn [session];
          by rewrite (lookup_insert_ne _ "workflow" ks), (lookup_insert_ne _ "run_analyze" ks),
               (lookup_insert_ne _ "workflow" ks), (lookup_insert_ne _ "run_scrape" ks),
               (lookup_insert_ne _ ka ks), (lookup_insert_ne _ xa ks), lookup_insert_eq|].
  split; [subst s2; cbn [session];
          by rewrite (lookup_insert_ne _ "workflow" ka), (lookup_insert_ne _ "run_analyze" ka),
               (lookup_insert_ne _ "workflow" ka), (lookup_insert_ne _ "run_scrape" ka),
               lookup_insert_eq|].
  rewrite workflow_entry_bound. by subst w3.
Qed.

End Renders.

(** ** The links prologue *)

Section Upload.

Variables read_csv read_excel read_tsv : UploadedFile -> Res Frame.

(** X13.  An uploaded file never becomes the list of links.  When pandas
    parses the file, [if df:] asks the frame for a truth value and the
    [ValueError] pandas answers with leaves [main], the session being as
    it was.  In every other case -- no upload, an extension that is not
    handled, a file pandas cannot read -- the prologue returns, and
    ["initial_links_df"] is what it was if it held a frame and the seven
    default links otherwise. *)
Theorem upload_never_replaces_links uploaded_file (s : State) :
  let out := links_prologue read_csv read_excel read_tsv uploaded_file s in
  match parsed_frame read_csv read_excel read_tsv uploaded_file with
  | Some _ =>
      snd out = Raise (Exception "The truth value of a DataFrame is ambiguous. Use a.empty, a.bool(), a.item(), a.any() or a.all().") /\
      session (fst out) = session s
  | None =>
      snd out = Ok tt /\
      session (fst out) =
        match default VNone (session s !! "initial_links_df") with
        | VNone => <["initial_links_df" := VLinks DefaultConfig.default_links_value]>
                     (session s)
        | _ => session s
        end
  end.
Proof.
  cbv zeta. unfold links_prologue, upload_links, parsed_frame, default_links_frame.
  destruct uploaded_file as [f|];
    [destruct (ends_with (file_name f) ".csv");
     [destruct (read_csv f) as [frame|e]
     |destruct (ends_with (file_name f) ".xlsx" || ends_with (file_name f) ".xls");
      [destruct (read_excel f) as [frame|e]
      |destruct (ends_with (file_name f) ".txt");
       [destruct (read_tsv f) as [frame|e]|]]]|];
    cbv beta iota zeta
        delta [bind try_except_else lift_res ret raise emit df_truth session_get session_set];
    cbn [session fst snd];
    try done;
    by destruct (default VNone (session s !! "initial_links_df")).
Qed.

End Upload.

End PageProofs.

(** ** The links editor *)

Module LinksEditorProofs.

Import LinksEditor.

Lemma blank_row (col l : string) :
  col <> "link" -> delete col ({[ "link" := l ]} : gmap string string) = {[ "link" := l ]}.
Proof. intros Hne. by apply delete_singleton_ne. Qed.

Lemma assign_none_rows col links acc :
  col <> "link" ->
  rows acc = rows (from_links links) ->
  rows (assign_none col acc) = rows (from_links links).
Proof.
  intros Hne Hrows. unfold assign_none. cbn [rows]. rewrite Hrows.
  unfold from_links. cbn [rows]. rewrite <- list_fmap_compose.
  apply list_fmap_ext. intros i l _. cbn. by apply blank_row.
Qed.

(** The loop of lines 129-131, from any frame whose first column is
    ["link"]: the rows stay, and the columns gain the labels of the loop
    other than ["link"]. *)
Lemma blank_columns links cols :
  forall acc tl,
    columns acc = "link" :: tl ->
    "link" ∉ tl ->
    rows acc = rows (from_links links) ->
    let out := foldl (fun acc col =>
                        if bool_decide (col <> "link") then assign_none col acc else acc)
                     acc cols in
    rows out = rows (from_links links) /\
    exists tl', columns out = "link" :: tl' /\ ("link" ∉ tl') /\
                forall c, c ∈ tl' <-> c ∈ tl \/ (c ∈ cols /\ c <> "link").
Proof.
  induction cols as [|col cols IH]; intros acc tl Hcols Hnot Hrows; cbn [foldl].
  - split; [done|]. exists tl. split_and!; [done|done|].
    intros c. split; [by left|]. intros [H|[H _]]; [done|]. by apply elem_of_nil in H.
  - case_bool_decide as Hcol.
    + destruct (decide (col ∈ "link" :: tl)) as [Hin|Hin].
      * destruct (IH (assign_none col acc) tl) as (Hr & tl' & Hc & Hn & Hiff).
        { unfold assign_none. cbn [columns]. rewrite Hcols.
          by rewrite bool_decide_eq_true_2. }
        { done. }
        { by apply assign_none_rows. }
        split; [done|]. exists tl'. split_and!; [done|done|].
        intros c. rewrite Hiff. split.
        -- intros [H|[H Hne]]; [by left|]. right. split; [by right|done].
        -- intros [H|[H Hne]]; [by left|].
           apply elem_of_cons in H as [->|H]; [|by right].
           left. apply elem_of_cons in Hin as [Heq|Hin]; [by destruct Hcol|done].
      * destruct (IH (assign_none col acc) (tl ++ [col])) as (Hr & tl' & Hc & Hn & Hiff).
        { unfold assign_none. cbn [columns]. rewrite Hcols.
          by rewrite bool_decide_eq_false_2. }
        { intros H. apply elem_of_app in H as [H|H]; [done|].
          apply list_elem_of_singleton in H. by destruct Hcol. }
        { by apply assign_none_rows. }
        split; [done|]. exists tl'. split_and!; [done|done|].
        intros c. rewrite Hiff. rewrite elem_of_app, list_elem_of_singleton.
        split.
        -- intros [[H| ->]|[H Hne]].
           ++ by left.
           ++ right. split; [by left|done].
           ++ right. split; [by right|done].
        -- intros [H|[H Hne]]; [by left; left|].
           apply elem_of_cons in H as [->|H]; [by left; right|by right].
    + destruct (IH acc tl Hcols Hnot Hrows) as (Hr & tl' & Hc & Hn & Hiff).
      split; [done|]. exists tl'. split_and!; [done|done|].
      intros c. rewrite Hiff. split.
      * intros [H|[H Hne]]; [by left|]. right. split; [by right|done].
      * intros [H|[H Hne]]; [by left|].
        apply elem_of_cons in H as [->|H]; [|by right].
        by destruct Hne.
Qed.

(** The frame [update_links] builds from the new links, before it decides
    between adding and replacing. *)
Lemma new_links_frame df links :
  rows (update_links df links false) = rows (from_links links) /\
  exists tl, columns (update_links df links false) = "link" :: tl /\ ("link" ∉ tl) /\
             forall c, c ∈ tl <-> (1 < length (columns df) /\ c ∈ columns df /\ c <> "link").
Proof.
  unfold update_links, astype_str.
  destruct (Nat.ltb 1 (length (columns df))) eqn:Hlen.
  - apply Nat.ltb_lt in Hlen.
    destruct (blank_columns links (columns df) (from_links links) [])
      as (Hr & tl & Hc & Hn & Hiff); [done|apply not_elem_of_nil|done|].
    split; [done|]. exists tl. split_and!; [done|done|].
    intros c. rewrite Hiff. split.
    + intros [H|[H Hne]]; [by apply elem_of_nil in H|done].
    + intros (_ & H & Hne). by right.
  - apply Nat.ltb_ge in Hlen.
    split; [done|]. exists []. split_and!; [done|apply not_elem_of_nil|].
    intros c. split; [intros H; by apply elem_of_nil in H|].
    intros (H & _). lia.
Qed.

(** X14. Adding links (the two [Add ... Links] buttons, [add=True]) keeps
    every row and every column of the edited frame in place, appends one
    row per new link that holds the link and nothing else, and adds a
    ["link"] column only to a frame that has none. *)
Theorem add_links_appends df links :
  let out := update_links df links true in
  rows out = rows df ++ rows (from_links links) /\
  columns out = columns df ++ (if bool_decide ("link" ∈ columns df) then [] else ["link"]) /\
  link_cells out = link_cells df ++ (Some <$> links).
Proof.
  cbv zeta.
  destruct (new_links_frame df links) as (Hr & tl & Hc & Hn & Hiff).
  assert (Hout : update_links df links true = concat df (update_links df links false)).
  { unfold update_links. done. }
  rewrite Hout. unfold concat. cbn [rows columns]. rewrite Hr, Hc.
  split_and!.
  - done.
  - f_equal. rewrite filter_cons.
    assert (Htl : filter (λ c : string, c ∉ columns df) tl = []).
    { apply elem_of_nil_inv. intros c Hin.
      apply list_elem_of_filter in Hin as [Hno Hin].
      apply Hiff in Hin as (_ & Hin & _). done. }
    rewrite Htl. case_bool_decide; case_decide; done.
  - unfold link_cells. cbn [rows]. rewrite fmap_app. f_equal.
    unfold from_links. cbn [rows]. rewrite <- list_fmap_compose.
    apply list_fmap_ext. intros i l _. cbn. by rewrite lookup_singleton_eq.
Qed.

(** X15. Replacing the links ([add=False], the [Clear Links] button with
    an empty list) leaves exactly one row per new link and none of the old
    rows.  The columns start with ["link"]; the other labels of the edited
    frame follow only when that frame had more than one column, so that a
    frame with a single column of another name loses it. *)
Theorem replace_links_drops_rows df links :
  let out := update_links df links false in
  rows out = rows (from_links links) /\
  length (rows out) = length links /\
  exists tl, columns out = "link" :: tl /\ ("link" ∉ tl) /\
             forall c, c ∈ tl <-> (1 < length (columns df) /\ c ∈ columns df /\ c <> "link").
Proof.
  cbv zeta.
  destruct (new_links_frame df links) as (Hr & Hcols).
  split_and!; [done| |done].
  rewrite Hr. unfold from_links. cbn [rows]. by rewrite length_fmap.
Qed.

End LinksEditorProofs.

(** * The page at work on the example session *)

(** The slot of the text scraper is no analyzer slot and none of the keys
    the page uses under a fixed name. *)
Lemma session_keys_disjoint_witness :
  comp_key_of "Scraper" Examples.text_md <> comp_key_of "Analyzer" Examples.llm_md /\
  (comp_key_of "Scraper" Examples.text_md ∉ fixed_keys ++ element_keys).
Proof.
  destruct (session_keys_disjoint "Scraper" "Analyzer" Examples.text_md Examples.llm_md
              "Scraper_Text Scraper" "Analyzer_OpenAI Analyzer"
              (or_introl eq_refl) (or_intror eq_refl))
    as (Hrole & _ & _ & Hfixed & _).
  split; [|exact Hfixed].
  intros Heq. apply Hrole in Heq as [Heq _]. discriminate Heq.
Defined.

(** A render of the scraper controller on the text scraper leaves the
    links of the session where they are. *)
Lemma controller_writes_only_its_keys_witness :
  session (fst (controller_render "Scraper" Examples.scrapers (Some 0) None
                                  Examples.configured)) !! "links_df"
    = Some (VLinks Examples.links).
Proof.
  rewrite (controller_writes_only_its_keys
             "Scraper" Examples.scrapers 0 Examples.text_scraper Examples.text_md None
             Examples.configured eq_refl eq_refl "links_df").
  - reflexivity.
  - intros [H|H]; [vm_compute in H; discriminate H|].
    unfold controller_element_keys in H.
    rewrite !elem_of_cons, elem_of_nil in H.
    destruct H as [H|[H|[]]]; vm_compute in H; discriminate H.
Defined.

(** The offline scraper is selected in a new session: its exception ends
    the render and the session is still empty. *)
Lemma schema_less_error_escapes_witness :
  exists s',
    controller_render "Scraper" [(Examples.offline_scraper, Examples.offline_md)]
                      (Some 0) None Examples.fresh
      = (s', Raise (Exception "no network")) /\
    log s' = [EvGetComponentAndStatus None].
Proof.
  destruct (schema_less_error_escapes
              "Scraper" [(Examples.offline_scraper, Examples.offline_md)] 0
              Examples.offline_scraper Examples.offline_md None 0 (Exception "no network")
              Examples.fresh)
    as (s' & Hrun & _ & Hlog & _).
  - reflexivity.
  - reflexivity.
  - vm_compute. discriminate.
  - reflexivity.
  - reflexivity.
  - exists s'. split; [exact Hrun|exact Hlog].
Defined.

(** The user looks at the Telegram scraper and comes back to the text
    scraper: the render on the text scraper returns its key and finds
    component 7 in the slot. *)
Lemma reselection_reuses_component_witness :
  exists s2 st1,
    configure_component_loop
      "Scraper" Examples.scrapers (Some 0) None
      (fst (configure_component_loop "Scraper" Examples.scrapers (Some 1) None
                                     Examples.configured))
      = (s2, Ok (Some "Scraper_Text Scraper")) /\
    session s2 !! "Scraper_Text Scraper" = Some (VTuple (Some 7) st1).
Proof.
  destruct (reselection_reuses_component
              "Scraper" Examples.scrapers 0 1
              Examples.text_scraper Examples.text_md
              Examples.telegram_scraper Examples.telegram_md
              None (Some 7) (Some READY) Examples.configured)
    as (_ & s2 & st1 & Hrun & Hslot & _).
  - by left.
  - reflexivity.
  - reflexivity.
  - vm_compute. discriminate.
  - reflexivity.
  - vm_compute. reflexivity.
  - exists s2, st1. split; [exact Hrun|exact Hslot].
Defined.

(** The login of the Telegram scraper expires when the clock reaches 2;
    after three renders the slot still says [READY]. *)
Lemma ready_is_sticky_witness :
  session (fst (render_cycles [S; S; S] "Scraper" Examples.scrapers (Some 1)
                              Examples.logged_in))
    !! "Scraper_Telegram Message Scraper" = Some (VTuple (Some 9) (Some READY)).
Proof.
  apply (ready_is_sticky "Scraper" Examples.scrapers 1 Examples.telegram_scraper
                         Examples.telegram_md (Some 9) [S; S; S] Examples.logged_in).
  - reflexivity.
  - vm_compute. reflexivity.
Defined.

(** Binding scraper 7 and analyzer 8 into the workflow of the configured
    session gives the same session in either order. *)
Lemma get_workflow_binds_in_any_order_witness :
  session (fst ((get_workflow (Some 7) None ;; get_workflow None (Some 8))
                  Examples.configured))
  = session (fst ((get_workflow None (Some 8) ;; get_workflow (Some 7) None)
                    Examples.configured)).
Proof.
  destruct (get_workflow_binds_in_any_order (Some 7) (Some 8) Examples.configured)
    as (H1 & _ & H2 & _).
  - vm_compute. exact I.
  - exact (eq_trans H1 (eq_sym H2)).
Defined.

(** A press on Scrape with no link in the editor returns and stores an
    empty table. *)
Lemma empty_batch_completes_witness :
  exists s',
    run_scrape_section Examples.scrape_work Examples.capture
                       (Some "Scraper_Text Scraper") true Examples.no_links = (s', Ok tt) /\
    session s' !! "scrapes_df" = Some (VScrapes []).
Proof.
  destruct (empty_batch_completes
              Examples.scrape_work Examples.analyze_work Examples.capture
              (Some "Scraper_Text Scraper") (Some "Analyzer_OpenAI Analyzer")
              (Some 7) (Some 8) Examples.no_links Examples.no_links)
    as ((s' & Hrun & Htable & _) & _).
  - vm_compute. reflexivity.
  - vm_compute. reflexivity.
  - vm_compute. exact I.
  - vm_compute. reflexivity.
  - vm_compute. exact I.
  - vm_compute. reflexivity.
  - exists s'. split; [exact Hrun|exact Htable].
Defined.

(** A page without providers renders in a new session, both presses
    notwithstanding. *)
Lemma empty_registry_renders_disabled_witness :
  exists s',
    main_render Examples.scrape_work Examples.analyze_work Examples.capture
                [] [] None None None None true true Examples.fresh = (s', Ok tt) /\
    world s' = 0.
Proof.
  destruct (empty_registry_renders_disabled
              Examples.scrape_work Examples.analyze_work Examples.capture
              None None true true Examples.fresh)
    as (s' & Hrun & Hworld & _).
  - vm_compute. reflexivity.
  - vm_compute. exact I.
  - exists s'. split; [exact Hrun|exact Hworld].
Defined.

(** An empty phone number is submitted for the login scraper: the render
    of the page ends in the [TypeError] of the scraper controller. *)
Lemma rejected_scraper_config_blanks_page_witness :
  exists s',
    main_sections Examples.scrape_work Examples.analyze_work Examples.capture
                  [(Examples.login_scraper, Examples.login_md)] Examples.analyzers
                  (Some 0) (Some EmptyString) (Some 0) None true true Examples.fresh
      = (s', Raise (TypeError "cannot unpack non-iterable NoneType object")).
Proof.
  destruct (rejected_scraper_config_blanks_page
              Examples.scrape_work Examples.analyze_work Examples.capture
              [(Examples.login_scraper, Examples.login_md)] Examples.analyzers
              0 Examples.login_scraper Examples.login_md "TelegramSchema" EmptyString
              0 (Exception "phone must not be empty")
              (Some 0) None true true Examples.fresh)
    as (s' & Hrun & _).
  - reflexivity.
  - reflexivity.
  - by exists None, None.
  - vm_compute. exact I.
  - reflexivity.
  - exists s'. exact Hrun.
Defined.

(** The text scraper and the stats analyzer are selected in a new
    session: one render returns with both bound into the workflow. *)
Lemma first_render_enables_both_buttons_witness :
  exists s',
    main_render Examples.scrape_work Examples.analyze_work Examples.capture
                Examples.scrapers [(Examples.stats_analyzer, Examples.stats_md)]
                (Some 0) None (Some 0) None false false Examples.fresh = (s', Ok tt) /\
    scraper (workflow_entry s') = Some 7 /\
    analyzer (workflow_entry s') = Some 5.
Proof.
  destruct (first_render_enables_both_buttons
              Examples.scrape_work Examples.analyze_work Examples.capture
              Examples.scrapers [(Examples.stats_analyzer, Examples.stats_md)]
              0 0 Examples.text_scraper Examples.text_md
              Examples.stats_analyzer Examples.stats_md 7 5 None None Examples.fresh)
    as (s' & evs & Hrun & _ & _ & _ & _ & _ & Hs & Ha).
  - reflexivity.
  - reflexivity.
  - reflexivity.
  - reflexivity.
  - vm_compute. discriminate.
  - vm_compute. discriminate.
  - intros x. exists x. reflexivity.
  - intros x. exists x. reflexivity.
  - vm_compute. reflexivity.
  - vm_compute. reflexivity.
  - vm_compute. exact I.
  - exists s'. split; [exact Hrun|]. split; [exact Hs|exact Ha].
Defined.

(** Three cycles on the text scraper in a new session: one instantiation. *)
Lemma no_schema_instantiated_once_witness :
  exists s' evs,
    controller_cycles [S; S; S] "Scraper" Examples.scrapers (Some 0) Examples.fresh
      = (s', Ok tt) /\
    log s' = EvGetComponentAndStatus None :: evs /\
    Forall (fun e => is_get_component_and_status e = false) evs.
Proof.
  destruct (no_schema_instantiated_once
              "Scraper" Examples.scrapers 0 Examples.text_scraper Examples.text_md
              S [S; S] 1 (Some 7, READY) Examples.fresh)
    as (s' & st & evs & Hrun & Hlog & Hevs & _).
  - by left.
  - reflexivity.
  - reflexivity.
  - vm_compute. discriminate.
  - vm_compute. reflexivity.
  - reflexivity.
  - exists s', evs. split; [exact Hrun|]. split; [exact Hlog|exact Hevs].
Defined.

(** A key is submitted for the OpenAI analyzer in a new session: the form
    opened on the default configuration and the key is now the saved one. *)
Lemma form_initial_and_saved_config_witness :
  exists s' res rest,
    controller_render "Analyzer" Examples.analyzers (Some 0) (Some "sk-123")
                      Examples.fresh = (s', res) /\
    log s' = EvForm "Analyzer_OpenAI Analyzer_form" (InitConfig "sk-default") :: rest /\
    session s' !! "config_Analyzer_OpenAI Analyzer" = Some (VConfig "sk-123").
Proof.
  destruct (form_initial_and_saved_config
              "Analyzer" Examples.analyzers 0 Examples.llm_analyzer Examples.llm_md
              "LlmAnalyzerSchema" (Some "sk-123") Examples.fresh)
    as (s' & res & rest & Hrun & Hlog & Hsaved).
  - by right.
  - reflexivity.
  - reflexivity.
  - vm_compute. discriminate.
  - by exists None, None.
  - vm_compute. exact I.
  - exists s', res, rest. split; [exact Hrun|]. split; [exact Hlog|exact Hsaved].
Defined.

(** With its entry in the session, the select box of the scrapers holds
    the index of the text scraper after the render. *)
Lemma selectbox_entry_is_inert_witness :
  session (fst (controller_render "Scraper" Examples.scrapers (Some 0) None
                                  Examples.configured))
    !! "Scraper_selectbox" = Some (VInt 0).
Proof.
  destruct (selectbox_entry_is_inert
              "Scraper" Examples.scrapers 0 Examples.text_scraper Examples.text_md None
              Examples.configured)
    as (_ & _ & Hentry).
  - by left.
  - reflexivity.
  - vm_compute. discriminate.
  - exact Hentry.
Defined.

(** A scraper registered under the name "selectbox" is selected in a new
    session: the render ends in a [TypeError] and logs nothing. *)
Lemma selectbox_named_provider_never_built_witness :
  exists s',
    controller_render "Scraper" [(Examples.text_scraper, Examples.selectbox_md)]
                      (Some 0) None Examples.fresh
      = (s', Raise (TypeError "cannot unpack non-iterable int object")) /\
    log s' = [].
Proof.
  destruct (selectbox_named_provider_never_built
              "Scraper" [(Examples.text_scraper, Examples.selectbox_md)] 0
              Examples.text_scraper Examples.selectbox_md None Examples.fresh)
    as (s' & Hrun & Hlog & _).
  - reflexivity.
  - reflexivity.
  - exists s'. split; [exact Hrun|exact Hlog].
Defined.
